(** * Ausbildungsnachweis converter: shallow embedding and verified properties

    Embedding of [src/ausbildungsnachweis_converter.py]
    (class [AusbildungsnachweisConverter]).  The Python run-time pieces the
    converter calls (str methods, [re.search], [datetime.strptime],
    [isocalendar], [strftime], [pathlib.Path.stem], [df.iloc]) are modelled
    in [Module Py] and [Module Re]; the converter itself follows the source
    statement by statement.

    Conventions.
    - Text is [string] over ASCII characters; the digit and whitespace
      classes are the ASCII parts of Python's Unicode classes.
    - A raised exception is the [Error] case of [result]; a [try/except]
      block is a match on it.
    - Integers are [Z]; a finite Python float is the rational it denotes.
    - Paths are POSIX paths: the separator is the slash. *)

From Stdlib Require Import List String Ascii Bool ZArith NArith QArith Lia.
From Stdlib Require Import DecimalString.
Import ListNotations.

#[local] Open Scope string_scope.
#[local] Open Scope Z_scope.

(* ================================================================== *)
(** * Exceptions and the error monad *)

(** The exceptions that can leave [convert_excel_to_markdown]. *)
Inductive Exn : Type :=
| CannotParseFilename            (* ValueError, source line 69 *)
| InvalidDateFormat (s : string) (* ValueError, source line 51 *)
| StrptimeError                  (* ValueError raised by datetime.strptime *)
| IndexError                     (* df.iloc[i, j] out of bounds *)
| IntOfInfinity                  (* OverflowError: int(float('inf')) *)
| IntOfNaN.                      (* ValueError: int(float('nan')) *)

Inductive result (A : Type) : Type :=
| Ok (a : A)
| Error (e : Exn).
Arguments Ok {A} a.
Arguments Error {A} e.

Definition bind {A B : Type} (m : result A) (k : A -> result B) : result B :=
  match m with
  | Ok a => k a
  | Error e => Error e
  end.

Notation "x <- m ;; k" := (bind m (fun x => k))
  (at level 61, m at next level, right associativity).
Notation "' p <- m ;; k" := (bind m (fun p => k))
  (at level 61, p pattern, m at next level, right associativity).

(** [try: m except: d] is a bare [try/except] that yields a value. *)
Definition try_except {A : Type} (m : result A) (d : A) : A :=
  match m with
  | Ok a => a
  | Error _ => d
  end.

(* ================================================================== *)
(** * Python built-ins used by the converter *)

Module Py.

(** ** Characters *)

Definition code (c : ascii) : N := N_of_ascii c.

Definition in_range (lo hi : ascii) (c : ascii) : bool :=
  (code lo <=? code c)%N && (code c <=? code hi)%N.

(** [c.isdigit()] on ASCII. *)
Definition is_digit (c : ascii) : bool := in_range "0" "9" c.

(** [c.isspace()] on ASCII: TAB LF VT FF CR, FS GS RS US, and SPACE. *)
Definition is_space (c : ascii) : bool :=
  ((9 <=? code c)%N && (code c <=? 13)%N)
  || ((28 <=? code c)%N && (code c <=? 32)%N).

Definition digit_val (c : ascii) : option Z :=
  if is_digit c then Some (Z.of_N (code c - 48)) else None.

(** ** Strings *)

Definition is_empty (s : string) : bool :=
  match s with
  | EmptyString => true
  | String _ _ => false
  end.

(** [s.lstrip()] *)
Fixpoint lstrip (s : string) : string :=
  match s with
  | EmptyString => EmptyString
  | String c s' => if is_space c then lstrip s' else s
  end.

(** [s.rstrip()] *)
Fixpoint rstrip (s : string) : string :=
  match s with
  | EmptyString => EmptyString
  | String c s' =>
      let r := rstrip s' in
      if is_empty r && is_space c then EmptyString else String c r
  end.

(** [s.strip()] *)
Definition strip (s : string) : string := rstrip (lstrip s).

(** [s.rstrip(c)] for a one-character argument. *)
Fixpoint rstrip_char (c : ascii) (s : string) : string :=
  match s with
  | EmptyString => EmptyString
  | String x s' =>
      let r := rstrip_char c s' in
      if is_empty r && Ascii.eqb x c then EmptyString else String x r
  end.

(** [s.replace(a, b)] for one-character arguments. *)
Fixpoint replace_char (a b : ascii) (s : string) : string :=
  match s with
  | EmptyString => EmptyString
  | String x s' =>
      String (if Ascii.eqb x a then b else x) (replace_char a b s')
  end.

(** [s.split(c)] for a one-character separator: never the empty list. *)
Fixpoint split_on (c : ascii) (s : string) : list string :=
  match s with
  | EmptyString => [EmptyString]
  | String x s' =>
      if Ascii.eqb x c then EmptyString :: split_on c s'
      else match split_on c s' with
           | h :: t => String x h :: t
           | [] => [String x EmptyString]
           end
  end.

(** [s.split()]: the maximal runs of non-whitespace characters. *)
Fixpoint split_ws (s : string) : list string :=
  match s with
  | EmptyString => []
  | String c s' =>
      if is_space c then split_ws s'
      else match s' with
           | EmptyString => [String c EmptyString]
           | String c' _ =>
               if is_space c' then String c EmptyString :: split_ws s'
               else match split_ws s' with
                    | w :: ws => String c w :: ws
                    | [] => [String c EmptyString]
                    end
           end
  end.

(** [sep.join(l)] *)
Definition join (sep : string) (l : list string) : string :=
  String.concat sep l.

(** [needle in hay] *)
Fixpoint contains (needle hay : string) : bool :=
  String.prefix needle hay
  || match hay with
     | EmptyString => false
     | String _ hay' => contains needle hay'
     end.

(** [s.rfind(c)]: index of the last occurrence, if any. *)
Fixpoint rfind (c : ascii) (s : string) : option nat :=
  match s with
  | EmptyString => None
  | String x s' =>
      match rfind c s' with
      | Some i => Some (S i)
      | None => if Ascii.eqb x c then Some O else None
      end
  end.

(** A path component that [pathlib] keeps: not empty and not ".". *)
Definition is_component (x : string) : bool :=
  negb (is_empty x || String.eqb x ".").

(** [pathlib.PurePosixPath(s).name]: the final component of the path,
    that is the last of the parts between slashes that is neither empty
    nor "."; the empty text when there is none. *)
Definition path_name (s : string) : string :=
  List.last (List.filter is_component (split_on "/" s)) EmptyString.

(** [pathlib.PurePosixPath(s).stem]: the final component without its last
    suffix; a leading or trailing dot starts no suffix. *)
Definition stem (s : string) : string :=
  let name := path_name s in
  match rfind "." name with
  | Some i =>
      if (Nat.ltb 0 i && Nat.ltb i (String.length name - 1))%bool
      then String.substring 0 i name
      else name
  | None => name
  end.

(** ** Integers and text *)

(** [str(n)] for an int. *)
Definition str_of_int (n : Z) : string :=
  NilZero.string_of_int (Z.to_int n).

(** [f"{n:02d}"] *)
Definition fmt_02d (n : Z) : string :=
  if (0 <=? n) && (n <? 10) then "0" ++ str_of_int n else str_of_int n.

(** [f"{n:04d}"] (used for the %Y directive of strftime). *)
Definition fmt_04d (n : Z) : string :=
  if (0 <=? n) && (n <? 10) then "000" ++ str_of_int n
  else if (0 <=? n) && (n <? 100) then "00" ++ str_of_int n
  else if (0 <=? n) && (n <? 1000) then "0" ++ str_of_int n
  else str_of_int n.

(** Digits of an int literal: single underscores are allowed between
    digits only. *)
Fixpoint int_digits (s : string) (acc : Z) (after_digit : bool) : option Z :=
  match s with
  | EmptyString => if after_digit then Some acc else None
  | String c s' =>
      match digit_val c with
      | Some d => int_digits s' (10 * acc + d) true
      | None =>
          if Ascii.eqb c "_" && after_digit then int_digits s' acc false
          else None
      end
  end.

(** [int(s)] for a str, base 10; [None] when it raises ValueError. *)
Definition int_of_str (s : string) : option Z :=
  match strip s with
  | String "+" r => int_digits r 0 false
  | String "-" r => option_map Z.opp (int_digits r 0 false)
  | t => int_digits t 0 false
  end.

(** ** Floats *)

(** A Python float: finite (the rational it denotes), infinite or NaN. *)
Inductive pyfloat : Type :=
| Fin (q : Q)
| Inf (negative : bool)
| NaNf.

(** [int(x)] for a float: truncation toward zero; raises on inf and nan. *)
Definition int_of_float (x : pyfloat) : result Z :=
  match x with
  | Fin q => Ok (Z.quot (Qnum q) (Zpos (Qden q)))
  | Inf _ => Error IntOfInfinity
  | NaNf => Error IntOfNaN
  end.

(** ** datetime *)

(** The calendar fields of a [datetime]; the converter reads no others. *)
Record datetime : Type := mkdate { year : Z; month : Z; day : Z }.

Definition is_leap (y : Z) : bool :=
  (y mod 4 =? 0) && (negb (y mod 100 =? 0) || (y mod 400 =? 0)).

Definition days_in_month (y m : Z) : Z :=
  if m =? 2 then (if is_leap y then 29 else 28)
  else if (m =? 4) || (m =? 6) || (m =? 9) || (m =? 11) then 30
  else 31.

(** The checks of the [datetime] constructor. *)
Definition valid_date (y m d : Z) : bool :=
  (1 <=? y) && (y <=? 9999) && (1 <=? m) && (m <=? 12)
  && (1 <=? d) && (d <=? days_in_month y m).

(** [a <= b] on datetimes with equal time of day. *)
Definition dt_leb (a b : datetime) : bool :=
  (year a <? year b)
  || ((year a =? year b)
      && ((month a <? month b)
          || ((month a =? month b) && (day a <=? day b)))).

Definition days_before_year (y : Z) : Z :=
  let p := y - 1 in p * 365 + p / 4 - p / 100 + p / 400.

Fixpoint days_before_month_nat (y : Z) (m : nat) : Z :=
  match m with
  | O => 0
  | S k => days_before_month_nat y k + days_in_month y (Z.of_nat m)
  end.

Definition days_before_month (y m : Z) : Z :=
  days_before_month_nat y (Z.to_nat (m - 1)).

(** [_ymd2ord]: the proleptic Gregorian ordinal, 0001-01-01 being day 1. *)
Definition ymd2ord (y m d : Z) : Z :=
  days_before_year y + days_before_month y m + d.

Definition toordinal (dt : datetime) : Z :=
  ymd2ord (year dt) (month dt) (day dt).

(** [_isoweek1monday]: ordinal of the Monday that starts ISO week 1. *)
Definition isoweek1monday (y : Z) : Z :=
  let firstday := ymd2ord y 1 1 in
  let firstweekday := (firstday + 6) mod 7 in
  let week1monday := firstday - firstweekday in
  if 3 <? firstweekday then week1monday + 7 else week1monday.

(** [dt.isocalendar()]: (ISO year, ISO week, ISO weekday). *)
Definition isocalendar (dt : datetime) : Z * Z * Z :=
  let y := year dt in
  let today := toordinal dt in
  let week1monday := isoweek1monday y in
  let week := (today - week1monday) / 7 in
  let wday := (today - week1monday) mod 7 in
  if week <? 0 then
    let y' := y - 1 in
    let w1 := isoweek1monday y' in
    (y', (today - w1) / 7 + 1, (today - w1) mod 7 + 1)
  else if (52 <=? week) && (isoweek1monday (y + 1) <=? today) then
    (y + 1, 1, wday + 1)
  else (y, week + 1, wday + 1).

(** [dt.strftime('%d.%m')] *)
Definition strftime_dm (dt : datetime) : string :=
  fmt_02d (day dt) ++ "." ++ fmt_02d (month dt).

(** [dt.strftime('%d.%m.%Y')] *)
Definition strftime_dmY (dt : datetime) : string :=
  strftime_dm dt ++ "." ++ fmt_04d (year dt).

End Py.

(* ================================================================== *)
(** * Backtracking regular expressions ([re.match], [re.search]) *)

Module Re.

(** The fragment of Python's syntax the converter and [strptime] use.
    [Opt] and [StarC] are greedy; [Alt] prefers its left branch. *)
Inductive re : Type :=
| Chr (p : ascii -> bool)        (* one character of a class *)
| Seq (a b : re)
| Alt (a b : re)
| Opt (a : re)                   (* a? *)
| StarC (p : ascii -> bool)      (* [class]* *)
| Grp (name : string) (a : re).  (* capturing group *)

Definition captures : Type := list (string * string).

(** One way of matching a prefix: the text consumed, the text left and
    the groups captured on the way. *)
Definition match_state : Type := (string * string * captures)%type.

(** All the ways [p*] can match at the start of [s], longest first. *)
Fixpoint star_chars (p : ascii -> bool) (s : string) : list (string * string) :=
  match s with
  | EmptyString => [(EmptyString, EmptyString)]
  | String c s' =>
      if p c
      then (map (fun '(m, r) => (String c m, r)) (star_chars p s')
              ++ [(EmptyString, s)])%list
      else [(EmptyString, s)]
  end.

(** All the ways [r] can match at the start of [s], in the order a
    backtracking matcher tries them; the head is the match it reports. *)
Fixpoint rmatch (r : re) (s : string) : list match_state :=
  match r with
  | Chr p =>
      match s with
      | String c s' => if p c then [(String c EmptyString, s', [])] else []
      | EmptyString => []
      end
  | Seq a b =>
      flat_map (fun '(m1, s1, g1) =>
                  map (fun '(m2, s2, g2) => (m1 ++ m2, s2, (g1 ++ g2)%list))
                      (rmatch b s1))
               (rmatch a s)
  | Alt a b => (rmatch a s ++ rmatch b s)%list
  | Opt a => (rmatch a s ++ [(EmptyString, s, [])])%list
  | StarC p => map (fun '(m, r) => (m, r, [])) (star_chars p s)
  | Grp name a =>
      map (fun '(m, s', g) => (m, s', (g ++ [(name, m)])%list)) (rmatch a s)
  end.

(** [re.match(r, s)] *)
Definition rematch (r : re) (s : string) : option match_state :=
  match rmatch r s with
  | m :: _ => Some m
  | [] => None
  end.

(** [re.search(r, s)]: the match at the leftmost position that has one. *)
Fixpoint search (r : re) (s : string) : option match_state :=
  match rmatch r s with
  | m :: _ => Some m
  | [] =>
      match s with
      | EmptyString => None
      | String _ s' => search r s'
      end
  end.

(** [m.group(name)] *)
Fixpoint group (name : string) (g : captures) : option string :=
  match g with
  | [] => None
  | (n, v) :: g' => if String.eqb n name then Some v else group name g'
  end.

Definition lit (c : ascii) : re := Chr (Ascii.eqb c).
Definition digit : re := Chr Py.is_digit.

Fixpoint all_chars (p : ascii -> bool) (s : string) : bool :=
  match s with
  | EmptyString => true
  | String c s' => p c && all_chars p s'
  end.

Fixpoint has_group (r : re) : bool :=
  match r with
  | Chr _ => false
  | Seq a b => has_group a || has_group b
  | Alt a b => has_group a || has_group b
  | Opt a => has_group a
  | StarC _ => false
  | Grp _ _ => true
  end.

(** [c] is not the character [x]. *)
Definition other_than (x : ascii) (c : ascii) : bool := negb (Ascii.eqb c x).

(** The language of a pattern: [derives r m g] when [r] can match exactly
    the text [m], capturing [g]. *)
Inductive derives : re -> string -> captures -> Prop :=
| D_chr p c : p c = true -> derives (Chr p) (String c EmptyString) []
| D_seq a b m1 m2 g1 g2 :
    derives a m1 g1 -> derives b m2 g2 ->
    derives (Seq a b) (m1 ++ m2) (g1 ++ g2)%list
| D_alt_l a b m g : derives a m g -> derives (Alt a b) m g
| D_alt_r a b m g : derives b m g -> derives (Alt a b) m g
| D_opt_some a m g : derives a m g -> derives (Opt a) m g
| D_opt_none a : derives (Opt a) EmptyString []
| D_star p m : all_chars p m = true -> derives (StarC p) m []
| D_grp n a m g : derives a m g -> derives (Grp n a) m (g ++ [(n, m)])%list.

End Re.

(* ================================================================== *)
(** * [datetime.strptime] for the two formats the converter uses *)

Module Strptime.
Import Py Re.

(** The year directive of the format: [%Y] or [%y]. *)
Inductive year_directive : Type := Y4 | Y2.

(** %d : 3[0-1]|[1-2]\d|0[1-9]|[1-9]| [1-9] *)
Definition re_d : re :=
  Alt (Seq (lit "3") (Chr (in_range "0" "1")))
 (Alt (Seq (Chr (in_range "1" "2")) digit)
 (Alt (Seq (lit "0") (Chr (in_range "1" "9")))
 (Alt (Chr (in_range "1" "9"))
      (Seq (lit " ") (Chr (in_range "1" "9")))))).

(** %m : 1[0-2]|0[1-9]|[1-9] *)
Definition re_m : re :=
  Alt (Seq (lit "1") (Chr (in_range "0" "2")))
 (Alt (Seq (lit "0") (Chr (in_range "1" "9")))
      (Chr (in_range "1" "9"))).

(** %Y : \d\d\d\d    %y : \d\d *)
Definition re_year (yd : year_directive) : re :=
  match yd with
  | Y4 => Seq digit (Seq digit (Seq digit digit))
  | Y2 => Seq digit digit
  end.

(** The regex of the format "%d.%m.%Y" (or "%d.%m.%y"). *)
Definition format_regex (yd : year_directive) : re :=
  Seq (Grp "d" re_d)
 (Seq (lit ".")
 (Seq (Grp "m" re_m)
 (Seq (lit ".")
      (Grp "y" (re_year yd))))).

(** Two-digit years: 69..99 are 1969..1999, 0..68 are 2000..2068. *)
Definition full_year (yd : year_directive) (y : Z) : Z :=
  match yd with
  | Y4 => y
  | Y2 => if y <=? 68 then 2000 + y else 1900 + y
  end.

Definition group_int (name : string) (g : captures) : option Z :=
  match group name g with
  | Some v => int_of_str v
  | None => None
  end.

(** [datetime.strptime(s, "%d.%m.%Y")] for [Y4] and
    [datetime.strptime(s, "%d.%m.%y")] for [Y2]: the format regex must
    match at the start, nothing may remain, and the fields must name a
    real date. *)
Definition strptime (s : string) (yd : year_directive) : result datetime :=
  match rematch (format_regex yd) s with
  | None => Error StrptimeError
  | Some (_, rest, g) =>
      if is_empty rest then
        match group_int "d" g, group_int "m" g, group_int "y" g with
        | Some d, Some m, Some y =>
            let y' := full_year yd y in
            if valid_date y' m d then Ok (mkdate y' m d)
            else Error StrptimeError
        | _, _, _ => Error StrptimeError
        end
      else Error StrptimeError
  end.

End Strptime.

(* ================================================================== *)
(** * The data frame read from the workbook *)

Import Py.

(** What a cell of [pd.read_excel(path, header=None)] can hold, as far as
    the converter tells cells apart: empty, text, a point in time, a
    number.  A float is finite, infinite or nan; nan is what pandas puts
    in an empty cell, so every float nan is [NaN].  A workbook stores
    numbers as doubles, so an [Int] cell is exact as a float. *)
Inductive Cell : Type :=
| NaN                          (* empty cell, float nan: pd.isna(c) *)
| Str (s : string)             (* str *)
| Timestamp (d : datetime)     (* pd.Timestamp or datetime.datetime, in the
                                  range pd.to_datetime of line 155 takes *)
| Int (n : Z)                  (* int *)
| Float (x : Q)                (* finite float *)
| FloatInf (negative : bool).  (* float inf, float -inf *)

(** Rows of cells; every row of a frame has [shape1] cells. *)
Definition Row : Type := list Cell.
Definition DataFrame : Type := list Row.

(** [df.shape[1]] *)
Definition shape1 (df : DataFrame) : nat :=
  match df with
  | [] => O
  | r :: _ => List.length r
  end.

Definition rectangular (df : DataFrame) : Prop :=
  Forall (fun r => List.length r = shape1 df) df.

(** [df.iloc[i, j]]: raises IndexError outside the frame. *)
Definition iloc (df : DataFrame) (i j : nat) : result Cell :=
  match nth_error df i with
  | None => Error IndexError
  | Some r =>
      match nth_error r j with
      | Some c => Ok c
      | None => Error IndexError
      end
  end.

(** [row[j] if len(row) > j else None]; [None] and NaN are told apart by
    nothing the converter does, so both are [NaN]. *)
Definition cell_at (row : Row) (j : nat) : Cell := nth j row NaN.

(** [pd.isna(c)] and [pd.notna(c)] *)
Definition isna (c : Cell) : bool :=
  match c with
  | NaN => true
  | _ => false
  end.

Definition notna (c : Cell) : bool := negb (isna c).

(** [int(c)]; ValueError, TypeError and OverflowError are [None]. *)
Definition int_of_cell (c : Cell) : option Z :=
  match c with
  | NaN => None
  | Str s => int_of_str s
  | Timestamp _ => None
  | Int n => Some n
  | Float x => Some (Z.quot (Qnum x) (Zpos (Qden x)))
  | FloatInf _ => None
  end.

(** The library conversions whose full definition is outside the
    repository: [float(s)] of a str ([None] when it raises) and [str(x)]
    of a float and of a timestamp. *)
Class Builtins : Type := {
  float_of_str : string -> option pyfloat;
  str_of_float : Q -> string;
  str_of_timestamp : datetime -> string
}.

(** [float(c)]; ValueError and TypeError are [None]. *)
Definition float_of_cell `{Builtins} (c : Cell) : option pyfloat :=
  match c with
  | NaN => Some NaNf
  | Str s => float_of_str s
  | Timestamp _ => None
  | Int n => Some (Fin (inject_Z n))
  | Float x => Some (Fin x)
  | FloatInf negative => Some (Inf negative)
  end.

(** [str(c)] for a cell that is not NaN. *)
Definition str_of_cell `{Builtins} (c : Cell) : string :=
  match c with
  | NaN => "nan"
  | Str s => s
  | Timestamp d => str_of_timestamp d
  | Int n => str_of_int n
  | Float x => str_of_float x
  | FloatInf negative => if negative then "-inf" else "inf"
  end.

(* ================================================================== *)
(** * class AusbildungsnachweisConverter *)

(** The pattern of [parse_dates_from_filename]:
    _(\d{2}\.\d{2}\.?)(?:\.\d{2})?\s*[-]\s*(\d{2}[.\-]\d{2}\.?)(?:\.\d{2})? *)
Definition filename_regex : Re.re :=
  let d2 := Re.Seq Re.digit Re.digit in
  let dot := Re.lit "." in
  let dash := Re.lit "-" in
  let yy := Re.Opt (Re.Seq dot d2) in
  let ws := Re.StarC is_space in
  Re.Seq (Re.lit "_")
 (Re.Seq (Re.Grp "1" (Re.Seq d2 (Re.Seq dot (Re.Seq d2 (Re.Opt dot)))))
 (Re.Seq yy
 (Re.Seq ws
 (Re.Seq dash
 (Re.Seq ws
 (Re.Seq (Re.Grp "2"
            (Re.Seq d2 (Re.Seq (Re.Alt dot dash) (Re.Seq d2 (Re.Opt dot)))))
         yy)))))).

(** The text DD.MM of the digits [a b] and [c d]. *)
Definition date_token (a b c d : ascii) : string :=
  String a (String b (String "." (String c (String d EmptyString)))).

(** [parse_dates_from_filename]: [None] stands for the triple of Nones. *)
Definition parse_dates_from_filename (filename : string)
  : option (string * string * string) :=
  let base := stem filename in
  match Re.search filename_regex base with
  | None => None
  | Some (_, _, g) =>
      match Re.group "1" g, Re.group "2" g with
      | Some start_raw, Some end_raw =>
          let start_raw := rstrip_char "." start_raw in
          let end_raw := rstrip_char "." (replace_char "-" "." end_raw) in
          Some (start_raw, end_raw, base)
      | _, _ => None
      end
  end.

(** [parse_date] *)
Definition parse_date (date_str default_year : string) : result datetime :=
  let parts := split_on "." date_str in
  if Nat.eqb (List.length parts) 3 then
    Strptime.strptime date_str Strptime.Y2
  else if Nat.eqb (List.length parts) 2 then
    Strptime.strptime (date_str ++ "." ++ default_year) Strptime.Y4
  else Error (InvalidDateFormat date_str).

(** [clean_text] *)
Definition clean_text `{Builtins} (text : Cell) : string :=
  if isna text then ""
  else
    let text := strip (str_of_cell text) in
    join " " (split_ws text).

(** ** [convert_excel_to_markdown] *)

(** Lines 74-82: the reporting year, from the cell at row 2, column 11,
    else from the file name, else the configured default. *)
Definition resolve_year (default_year name : string) (df : DataFrame)
  : result string :=
  let from_name := if contains ".24" name then "2024" else default_year in
  if Nat.ltb 11 (shape1 df) then
    c <- iloc df 2 11 ;;
    if negb (isna c) then
      match int_of_cell c with
      | Some n => Ok (str_of_int n)
      | None => Ok from_name
      end
    else Ok from_name
  else Ok from_name.

Definition default_name : string := "Nicolay, Dimitrios".
Definition default_course : string := "Fachinformatiker SI - U27B (IHK)".

(** Lines 90-96: a header field from column 7 of row [i], else its
    default. *)
Definition header_field `{Builtins} (df : DataFrame) (i : nat)
  (default : string) : result string :=
  v <- (if Nat.ltb 7 (shape1 df)
        then c <- iloc df i 7 ;; Ok (clean_text c)
        else Ok default) ;;
  Ok (if is_empty v then default else v).

(** [isinstance(cell, str) and "Tag" in cell] *)
Definition is_tag_cell (c : Cell) : bool :=
  match c with
  | Str s => contains "Tag" s
  | _ => false
  end.

(** Lines 101-106: the loop that looks for the marker row, at row [i]. *)
Fixpoint find_tag_row (wide : bool) (rows : list Row) (i : nat) : option nat :=
  match rows with
  | [] => None
  | r :: rows' =>
      let cell := if wide then cell_at r 1 else NaN in
      if is_tag_cell cell then Some (S i) else find_tag_row wide rows' (S i)
  end.

(** Lines 100-109 *)
Definition data_start_row (df : DataFrame) : nat :=
  match find_tag_row (Nat.ltb 1 (shape1 df)) df 0 with
  | Some k => k
  | None => O
  end.

Definition nl : string := String "010" EmptyString.

(** List append, written apart from the [++] of strings. *)
Infix "+++" := List.app (right associativity, at level 60).

(** Lines 112-120: the head of the document. *)
Definition header_lines (iso_week : Z) (start_dt end_dt : datetime)
  (name course year : string) : list string :=
  [ "# KW" ++ fmt_02d iso_week ++ " - Ausbildungsnachweis ("
      ++ strftime_dmY start_dt ++ " - " ++ strftime_dmY end_dt ++ ")";
    "";
    "**Name:** " ++ name ++ "  ";
    "**Ausbildung:** " ++ course ++ "  ";
    "**Jahr:** " ++ year ++ "  ";
    "";
    "---";
    "" ].

(** One day as [flush_day] writes it. *)
Record DailyRecord : Type := mkrecord {
  rec_date : datetime;
  rec_activities : list string;
  rec_hours : option pyfloat
}.

(** The variables the row loop and [flush_day] share (lines 112,
    122-124).  [emitted] is a ghost log of the days written so far: the
    source keeps them only as text in [md_lines]. *)
Record State : Type := mkstate {
  current_date : option datetime;
  daily_activities : list string;
  pending_hours : option pyfloat;
  md_lines : list string;
  emitted : list DailyRecord
}.

Definition init_state (lines : list string) : State :=
  mkstate None [] None lines [].

(** Lines 155-157 and 171-173: the three assignments after a flush. *)
Definition open_day (d : option datetime) (st : State) : State :=
  mkstate d [] None (md_lines st) (emitted st).

(** Lines 126-143 *)
Definition flush_day (st : State) : result State :=
  match current_date st, daily_activities st with
  | None, _ => Ok st
  | Some _, [] => Ok st
  | Some d, acts =>
      let lines :=
        md_lines st +++ ["## " ++ strftime_dmY d; ""]
          +++ map (fun activity => "- " ++ activity) acts in
      lines <- match pending_hours st with
               | Some h =>
                   n <- int_of_float h ;;
                   Ok (lines +++ [""; "**Stunden:** " ++ str_of_int n])
               | None => Ok lines
               end ;;
      Ok (mkstate (current_date st) (daily_activities st) (pending_hours st)
            (lines +++ [""])
            (emitted st +++ [mkrecord d acts (pending_hours st)]))
  end.

(** Lines 160-163: a non-empty activity text joins the buffer, whether
    or not a day is open. *)
Definition add_activity `{Builtins} (st : State) (activity_cell : Cell) : State :=
  if notna activity_cell then
    let activity_text := clean_text activity_cell in
    if negb (is_empty activity_text) then
      mkstate (current_date st) (daily_activities st +++ [activity_text])
        (pending_hours st) (md_lines st) (emitted st)
    else st
  else st.

(** Lines 166-169: [float(hours_cell)] under a bare [try/except]; a
    failed conversion leaves [pending_hours] at None. *)
Definition set_hours `{Builtins} (st : State) (hours_cell : Cell) : State :=
  mkstate (current_date st) (daily_activities st)
    (float_of_cell hours_cell) (md_lines st) (emitted st).

(** [isinstance(c, (pd.Timestamp, datetime))] *)
Definition is_timestamp (c : Cell) : bool :=
  match c with
  | Timestamp _ => true
  | _ => false
  end.

(** Lines 147-173: the body of the row loop. *)
Definition process_row `{Builtins} (st : State) (row : Row) : result State :=
  let date_cell := cell_at row 1 in
  let activity_cell := cell_at row 2 in
  let hours_cell := cell_at row 11 in
  match date_cell with
  | Timestamp d =>
      st <- flush_day st ;;
      Ok (open_day (Some d) st)
  | _ =>
      let st := add_activity st activity_cell in
      match current_date st with
      | Some _ =>
          if notna hours_cell then
            st <- flush_day (set_hours st hours_cell) ;;
            Ok (open_day None st)
          else Ok st
      | None => Ok st
      end
  end.

(** Lines 146-173: the row loop. *)
Fixpoint scan_rows `{Builtins} (st : State) (rows : list Row) : result State :=
  match rows with
  | [] => Ok st
  | row :: rows' =>
      st <- process_row st row ;;
      scan_rows st rows'
  end.

(** Lines 146-175: the row loop and the last flush. *)
Definition run_rows `{Builtins} (st : State) (rows : list Row) : result State :=
  st <- scan_rows st rows ;;
  flush_day st.

(** Lines 84-85: both ends of the reporting range. *)
Definition date_range (start_raw end_raw actual_year : string)
  : result (datetime * datetime) :=
  start_dt <- parse_date start_raw actual_year ;;
  end_dt <- parse_date end_raw actual_year ;;
  Ok (start_dt, end_dt).

(** Line 177 *)
Definition out_filename (iso_week : Z) (start_dt end_dt : datetime) : string :=
  str_of_int (year start_dt) ++ "-KW" ++ fmt_02d iso_week
    ++ "-Ausbildungsnachweis-" ++ strftime_dm start_dt ++ "-"
    ++ strftime_dm end_dt ++ ".md".

(** Lines 89-175: header fields, marker row, head of the document and
    the rows, giving the final [md_lines]. *)
Definition build_lines `{Builtins} (df : DataFrame) (actual_year : string)
  (iso_week : Z) (start_dt end_dt : datetime) : result State :=
  name <- header_field df 0 default_name ;;
  course <- header_field df 1 default_course ;;
  let year := actual_year in
  let lines := header_lines iso_week start_dt end_dt name course year in
  run_rows (init_state lines) (skipn (data_start_row df) df).

(** Lines 67-85: the tokens of the file name, the reporting year and the
    two dates. *)
Definition resolve_dates (default_year name : string) (df : DataFrame)
  : result (string * datetime * datetime) :=
  match parse_dates_from_filename name with
  | None => Error CannotParseFilename
  | Some (start_raw, end_raw, base) =>
      if is_empty start_raw then Error CannotParseFilename
      else
        actual_year <- resolve_year default_year name df ;;
        '(start_dt, end_dt) <- date_range start_raw end_raw actual_year ;;
        Ok (actual_year, start_dt, end_dt)
  end.

(** [convert_excel_to_markdown]; [name] is [excel_path.name], [df] what
    [pd.read_excel(excel_path, header=None)] returned and [default_year]
    the attribute [self.default_year]. *)
Definition convert_excel_to_markdown `{Builtins} (default_year : string)
  (name : string) (df : DataFrame) : result (string * string) :=
  '(actual_year, start_dt, end_dt) <- resolve_dates default_year name df ;;
  let '(iso_year, iso_week, _) := isocalendar start_dt in
  st <- build_lines df actual_year iso_week start_dt end_dt ;;
  Ok (out_filename iso_week start_dt end_dt, strip (join nl (md_lines st))).

(** The days the converter writes for [df], in order. *)
Definition aggregate `{Builtins} (df : DataFrame) : result (list DailyRecord) :=
  st <- run_rows (init_state []) (skipn (data_start_row df) df) ;;
  Ok (emitted st).

(** [content.split("\n")[0]] *)
Fixpoint first_line (s : string) : string :=
  match s with
  | EmptyString => EmptyString
  | String c s' =>
      if Ascii.eqb c "010" then EmptyString else String c (first_line s')
  end.

(** What a run leaves for its caller to see: the lines and the days. *)
Definition output (st : State) : list string * list DailyRecord :=
  (md_lines st, emitted st).

Definition result_map {A B : Type} (f : A -> B) (m : result A) : result B :=
  x <- m ;; Ok (f x).

(** The lines [flush_day] writes for one day. *)
Definition section_lines (r : DailyRecord) : list string :=
  ["## " ++ strftime_dmY (rec_date r); ""]
    +++ map (fun activity => "- " ++ activity) (rec_activities r)
    +++ match rec_hours r with
        | Some h =>
            match int_of_float h with
            | Ok n => [""; "**Stunden:** " ++ str_of_int n]
            | Error _ => []
            end
        | None => []
        end
    +++ [""].

(** A flush that writes: the section of the day is appended to the
    lines and the day is logged. *)
Definition flushed (st : State) (d : datetime) : State :=
  let r := mkrecord d (daily_activities st) (pending_hours st) in
  mkstate (current_date st) (daily_activities st) (pending_hours st)
    (md_lines st +++ section_lines r) (emitted st +++ [r]).

(** Hours that [flush_day] can write: none, or a finite number. *)
Definition renderable (h : option pyfloat) : bool :=
  match h with
  | None => true
  | Some (Fin _) => true
  | Some _ => false
  end.

(** An hours cell the row loop can take without raising: an empty one
    (it is not converted), or one whose value [flush_day] can write. *)
Definition writable_hours `{Builtins} (c : Cell) : bool :=
  isna c || renderable (float_of_cell c).

(** ** Row shapes of a regular sheet *)

(** [int] and [float] cells that hold a number: every numeric cell but
    the empty one. *)
Definition is_numeric (c : Cell) : bool :=
  match c with
  | Int _ => true
  | Float _ => true
  | FloatInf _ => true
  | _ => false
  end.

(** The value [float(c)] of a numeric cell. *)
Definition numeric_value (c : Cell) : option pyfloat :=
  match c with
  | Int n => Some (Fin (inject_Z n))
  | Float x => Some (Fin x)
  | FloatInf negative => Some (Inf negative)
  | _ => None
  end.

(** A row that opens the day [d]. *)
Definition date_row (d : datetime) (r : Row) : Prop :=
  cell_at r 1 = Timestamp d.

(** A row that carries the activity text [a] and nothing else. *)
Definition activity_row `{Builtins} (a : string) (r : Row) : Prop :=
  cell_at r 1 = NaN /\ cell_at r 2 = Str a
  /\ clean_text (Str a) <> "" /\ cell_at r 11 = NaN.

(** A row that carries the numeric hours cell [h] and nothing else. *)
Definition hours_row (h : Cell) (r : Row) : Prop :=
  cell_at r 1 = NaN /\ cell_at r 2 = NaN
  /\ cell_at r 11 = h /\ is_numeric h = true.

(** A row with no timestamp and no activity text left after cleaning. *)
Definition no_activity_row `{Builtins} (r : Row) : Prop :=
  is_timestamp (cell_at r 1) = false /\ clean_text (cell_at r 2) = "".

(** One day of a regular sheet: its date, its activity texts, its hours. *)
Record DayGroup : Type := mkgroup {
  g_date : datetime;
  g_texts : list string;
  g_hours : Cell
}.

(** The rows of a day: the date row, one row per activity (at least
    one), the hours row. *)
Inductive group_rows `{Builtins} (g : DayGroup) : list Row -> Prop :=
| group_rows_intro (drow hrow : Row) (arows : list Row) :
    date_row (g_date g) drow ->
    g_texts g <> [] ->
    Forall2 activity_row (g_texts g) arows ->
    hours_row (g_hours g) hrow ->
    group_rows g (drow :: arows +++ [hrow]).

(** A day whose hours cell holds a finite number. *)
Definition finite_hours (g : DayGroup) : bool :=
  renderable (numeric_value (g_hours g)).

(** The record a day is expected to give. *)
Definition record_of `{Builtins} (g : DayGroup) : DailyRecord :=
  mkrecord (g_date g)
    (map (fun a => clean_text (Str a)) (g_texts g))
    (numeric_value (g_hours g)).

(** No usable year in the metadata cell: the frame has at most 11
    columns, or the cell at row 2, column 11 is empty or no integer. *)
Definition no_year_override (df : DataFrame) : bool :=
  negb (Nat.ltb 11 (shape1 df))
  || match iloc df 2 11 with
     | Ok c => isna c || match int_of_cell c with Some _ => false | None => true end
     | Error _ => false
     end.

(** The fallback chain for the reporting year as the specification words
    it: the cell at row 2, column 11 if the sheet has one that is present
    and converts to an integer; else "2024" if the file name contains
    ".24"; else the default year. *)
Definition year_by_fallback_chain (default_year name : string)
  (df : DataFrame) : string :=
  let from_name := if contains ".24" name then "2024" else default_year in
  match iloc df 2 11 with
  | Ok c =>
      if isna c then from_name
      else match int_of_cell c with
           | Some n => str_of_int n
           | None => from_name
           end
  | Error _ => from_name
  end.

(** ** Sample values *)

(** A stand-in for the library conversions: integers, "inf" and "nan"
    as floats; text forms in the style of Python's. *)
Definition sample_float_of_str (s : string) : option pyfloat :=
  if String.eqb (strip s) "inf" then Some (Inf false)
  else if String.eqb (strip s) "nan" then Some NaNf
  else option_map (fun n => Fin (inject_Z n)) (int_of_str s).

Definition sample_builtins : Builtins :=
  {| float_of_str := sample_float_of_str;
     str_of_float :=
       fun x => str_of_int (Z.quot (Qnum x) (Zpos (Qden x))) ++ ".0";
     str_of_timestamp :=
       fun d => fmt_04d (year d) ++ "-" ++ fmt_02d (month d) ++ "-"
                  ++ fmt_02d (day d) ++ " 00:00:00" |}.

(** A row of 12 cells with the given date, activity and hours cells. *)
Definition sample_row (date_cell activity_cell hours_cell : Cell) : Row :=
  [NaN; date_cell; activity_cell; NaN; NaN; NaN; NaN; NaN; NaN; NaN; NaN;
   hours_cell].

Definition sample_name : string := "AusbildungsnachweisU27_03.03-07.03.xlsx".

(** Two regular days, the first one as in the second end-to-end example
    of the specification. *)
Definition sample_chunks : list (list Row) :=
  [ [ sample_row (Timestamp (mkdate 2025 3 3)) NaN NaN;
      sample_row NaN (Str "Review tickets") NaN;
      sample_row NaN (Str "Write  report ") NaN;
      sample_row NaN NaN (Int 8) ];
    [ sample_row (Timestamp (mkdate 2025 3 4)) NaN NaN;
      sample_row NaN (Str "Deploy") NaN;
      sample_row NaN NaN (Float (15 # 2)) ] ].

Definition sample_sheet : DataFrame := List.concat sample_chunks.

Definition sample_groups : list DayGroup :=
  [ mkgroup (mkdate 2025 3 3) ["Review tickets"; "Write  report "] (Int 8);
    mkgroup (mkdate 2025 3 4) ["Deploy"] (Float (15 # 2)) ].

(** A date row that also holds an activity text and an hours value. *)
Definition sample_date_row : Row :=
  sample_row (Timestamp (mkdate 2025 3 4)) (Str "ignored") (Int 5).

(** A row with an activity text and hours that are no number. *)
Definition sample_bad_hours_row : Row :=
  sample_row NaN (Str "Write report") (Str "acht").

(** A row with an activity text and hours. *)
Definition sample_both_row : Row :=
  sample_row NaN (Str "Write report") (Int 8).

(** A day with a date and hours but only blank activity text. *)
Definition sample_empty_day : list Row :=
  [ sample_row (Timestamp (mkdate 2025 3 5)) NaN NaN;
    sample_row NaN (Str "   ") NaN;
    sample_row NaN NaN (Int 8) ].

(** A regular day whose hours cell holds float inf. *)
Definition inf_hours_group : DayGroup :=
  mkgroup (mkdate 2025 3 5) ["Deploy"] (FloatInf false).

Definition inf_hours_day : list Row :=
  [ sample_row (Timestamp (mkdate 2025 3 5)) NaN NaN;
    sample_row NaN (Str "Deploy") NaN;
    sample_row NaN NaN (FloatInf false) ].

(** The hours row of that day. *)
Definition inf_hours_row : Row := sample_row NaN NaN (FloatInf false).

(** A sheet of two rows and twelve columns: it has no row 2. *)
Definition short_sheet : DataFrame :=
  [ sample_row NaN NaN (Str "Std");
    sample_row NaN NaN (Int 8) ].

(** An open day with one activity so far. *)
Definition sample_open : State :=
  mkstate (Some (mkdate 2025 3 3)) ["Review tickets"] None ["---"; ""] [].

(** ** Further notions for the properties of the whole conversion *)

(** The timestamps of the date column, in row order. *)
Definition date_cells (rows : list Row) : list datetime :=
  flat_map (fun r => match cell_at r 1 with
                     | Timestamp d => [d]
                     | _ => []
                     end) rows.

(** [l1] is [l2] with some of its elements left out. *)
Inductive subseq {A : Type} : list A -> list A -> Prop :=
| subseq_nil : subseq [] []
| subseq_skip x l1 l2 : subseq l1 l2 -> subseq l1 (x :: l2)
| subseq_take x l1 l2 : subseq l1 l2 -> subseq (x :: l1) (x :: l2).

(** [st] with the lines [l] put before its own. *)
Definition prefixed (l : list string) (st : State) : State :=
  mkstate (current_date st) (daily_activities st) (pending_hours st)
    (l +++ md_lines st) (emitted st).

(** The (month, day) that a token DD.MM names, as numbers. *)
Definition token_month_day (tok : string) : option (Z * Z) :=
  match split_on "." tok with
  | [dd; mm] =>
      match int_of_str mm, int_of_str dd with
      | Some m, Some d => Some (m, d)
      | _, _ => None
      end
  | _ => None
  end.

(** The (month, day) of [t1] does not come after the (month, day) of
    [t2]. *)
Definition token_leb (t1 t2 : string) : bool :=
  match token_month_day t1, token_month_day t2 with
  | Some (m1, d1), Some (m2, d2) =>
      (m1 <? m2) || ((m1 =? m2) && (d1 <=? d2))
  | _, _ => false
  end.

(** The week number that line 87 takes from [isocalendar]. *)
Definition iso_week_of (dt : datetime) : Z := snd (fst (isocalendar dt)).

(** [r] matches at the start of [s], and the first way it does consumes
    [m], leaves [rest] and captures [g]. *)
Definition first_match (r : Re.re) (s m rest : string) (g : Re.captures) : Prop :=
  exists others, Re.rmatch r s = (m, rest, g) :: others.

(** A sheet whose row 2 is the hours row of its first day. *)
Definition hours_in_row_2 : DataFrame :=
  [ sample_row (Timestamp (mkdate 2025 3 3)) NaN NaN;
    sample_row NaN (Str "Review tickets") NaN;
    sample_row NaN NaN (Int 8) ].

(* ================================================================== *)
(** * Worked examples *)

Example strptime_examples :
  Strptime.strptime "03.03.2025" Strptime.Y4 = Ok (mkdate 2025 3 3)
  /\ Strptime.strptime "3.3.25" Strptime.Y2 = Ok (mkdate 2025 3 3)
  /\ Strptime.strptime "03.03.69" Strptime.Y2 = Ok (mkdate 1969 3 3)
  /\ Strptime.strptime "03.03.68" Strptime.Y2 = Ok (mkdate 2068 3 3)
  /\ Strptime.strptime "29.02.2024" Strptime.Y4 = Ok (mkdate 2024 2 29)
  /\ Strptime.strptime "29.02.2025" Strptime.Y4 = Error StrptimeError
  /\ Strptime.strptime "03.13.2025" Strptime.Y4 = Error StrptimeError
  /\ Strptime.strptime "03.03.20255" Strptime.Y4 = Error StrptimeError
  /\ Strptime.strptime "03.03.0000" Strptime.Y4 = Error StrptimeError.
Proof. vm_compute. repeat split. Qed.

Example isocalendar_examples :
  isocalendar (mkdate 2025 3 3) = (2025, 10, 1)
  /\ isocalendar (mkdate 2024 12 30) = (2025, 1, 1)
  /\ isocalendar (mkdate 2021 1 3) = (2020, 53, 7)
  /\ isocalendar (mkdate 2020 12 31) = (2020, 53, 4)
  /\ isocalendar (mkdate 2026 1 1) = (2026, 1, 4)
  /\ isocalendar (mkdate 2016 1 3) = (2015, 53, 7).
Proof. vm_compute. repeat split. Qed.

Example parse_dates_from_filename_examples :
  parse_dates_from_filename sample_name
  = Some ("03.03", "07.03", "AusbildungsnachweisU27_03.03-07.03")
  /\ parse_dates_from_filename "AusbildungsnachweisU27_03.03.25-07.03.25.xlsx"
     = Some ("03.03", "07.03", "AusbildungsnachweisU27_03.03.25-07.03.25")
  /\ parse_dates_from_filename "AusbildungsnachweisU27_03.03. - 07-03.xlsx"
     = Some ("03.03", "07.03", "AusbildungsnachweisU27_03.03. - 07-03")
  /\ parse_dates_from_filename "Ausbildungsnachweis.xlsx" = None.
Proof. vm_compute. repeat split. Qed.

Example parse_date_examples :
  parse_date "03.03.25" "2031" = Ok (mkdate 2025 3 3)
  /\ parse_date "03.03" "2031" = Ok (mkdate 2031 3 3)
  /\ parse_date "03" "2031" = Error (InvalidDateFormat "03")
  /\ parse_date "03.03.20.25" "2031" = Error (InvalidDateFormat "03.03.20.25")
  /\ parse_date "31.04" "2031" = Error StrptimeError.
Proof. vm_compute. repeat split. Qed.

(** The first day of the sample sheet: one record, and the section the
    specification shows for it. *)
Example one_day_example :
  @run_rows sample_builtins (init_state [])
    (match sample_chunks with day :: _ => day | [] => [] end)
  = Ok (mkstate None [] None
          [ "## 03.03.2025"; ""; "- Review tickets"; "- Write report"; "";
            "**Stunden:** 8"; "" ]
          [ mkrecord (mkdate 2025 3 3) ["Review tickets"; "Write report"]
              (Some (Fin (inject_Z 8))) ]).
Proof. vm_compute. reflexivity. Qed.

(** Hours text that float() accepts as infinity is no parse failure: the
    value reaches int() in flush_day, which raises. *)
Example infinite_hours_raise :
  @process_row sample_builtins sample_open (sample_row NaN NaN (Str "inf"))
  = Error IntOfInfinity.
Proof. vm_compute. reflexivity. Qed.

(** A sheet whose last day has float inf in its hours cell: int() of it
    raises in flush_day and the conversion of the file fails with it,
    whatever the library conversions are. *)
Example infinite_hours_fail_the_file :
  forall B : Builtins,
    @convert_excel_to_markdown B "2025" sample_name
      (sample_sheet +++ inf_hours_day)
    = Error IntOfInfinity.
Proof. intros B. vm_compute. reflexivity. Qed.

(* ================================================================== *)
(** * Properties of the pattern matcher *)

Lemma append_assoc (a b c : string) : ((a ++ b) ++ c = a ++ (b ++ c))%string.
Proof.
  induction a as [|x a IH]; simpl; [reflexivity | rewrite IH; reflexivity].
Qed.

Lemma append_empty_r (a : string) : (a ++ "")%string = a.
Proof.
  induction a as [|x a IH]; simpl; [reflexivity | rewrite IH; reflexivity].
Qed.

Lemma star_chars_sound (p : ascii -> bool) (s m rest : string) :
  In (m, rest) (Re.star_chars p s) ->
  s = (m ++ rest)%string /\ Re.all_chars p m = true.
Proof.
  revert m rest. induction s as [|c s IH]; intros m rest Hin; simpl in Hin.
  - destruct Hin as [H|[]]. inversion H. split; reflexivity.
  - destruct (p c) eqn:Hp.
    + apply in_app_or in Hin. destruct Hin as [Hin|[H|[]]].
      * apply in_map_iff in Hin. destruct Hin as [[m' r'] [E Hin]].
        inversion E. subst. destruct (IH _ _ Hin) as [Hs Hall].
        split; [simpl; rewrite <- Hs; reflexivity | simpl; rewrite Hp; exact Hall].
      * inversion H. split; reflexivity.
    + destruct Hin as [H|[]]. inversion H. split; reflexivity.
Qed.

(** Every way the matcher finds is a word of the pattern's language,
    split off the front of the text. *)
Lemma rmatch_sound (r : Re.re) (s m rest : string) (g : Re.captures) :
  In (m, rest, g) (Re.rmatch r s) ->
  s = (m ++ rest)%string /\ Re.derives r m g.
Proof.
  revert s m rest g.
  induction r as [p|a IHa b IHb|a IHa b IHb|a IHa|p|n a IHa];
    intros s m rest g Hin; simpl in Hin.
  - destruct s as [|c s]; [contradiction|].
    destruct (p c) eqn:Hp; [|contradiction].
    destruct Hin as [H|[]]. inversion H. subst.
    split; [reflexivity | constructor; exact Hp].
  - apply in_flat_map in Hin. destruct Hin as [[[m1 s1] g1] [H1 Hin]].
    apply in_map_iff in Hin. destruct Hin as [[[m2 s2] g2] [E H2]].
    inversion E. subst.
    destruct (IHa _ _ _ _ H1) as [E1 D1].
    destruct (IHb _ _ _ _ H2) as [E2 D2].
    split; [rewrite append_assoc, <- E2; exact E1 | constructor; assumption].
  - apply in_app_or in Hin. destruct Hin as [H|H].
    + destruct (IHa _ _ _ _ H) as [E D]. split; [exact E | apply Re.D_alt_l; exact D].
    + destruct (IHb _ _ _ _ H) as [E D]. split; [exact E | apply Re.D_alt_r; exact D].
  - apply in_app_or in Hin. destruct Hin as [H|[H|[]]].
    + destruct (IHa _ _ _ _ H) as [E D]. split; [exact E | apply Re.D_opt_some; exact D].
    + inversion H. subst. split; [reflexivity | apply Re.D_opt_none].
  - apply in_map_iff in Hin. destruct Hin as [[m' r'] [E Hin]].
    inversion E. subst. destruct (star_chars_sound _ _ _ _ Hin) as [Hs Hall].
    split; [exact Hs | constructor; exact Hall].
  - apply in_map_iff in Hin. destruct Hin as [[[m' s'] g'] [E Hin]].
    inversion E. subst. destruct (IHa _ _ _ _ Hin) as [Hs D].
    split; [exact Hs | constructor; exact D].
Qed.

Lemma rematch_sound (r : Re.re) (s m rest : string) (g : Re.captures) :
  Re.rematch r s = Some (m, rest, g) ->
  s = (m ++ rest)%string /\ Re.derives r m g.
Proof.
  unfold Re.rematch. destruct (Re.rmatch r s) as [|x l] eqn:E; [discriminate|].
  intros H. inversion H. subst x. apply rmatch_sound. rewrite E. left. reflexivity.
Qed.

Lemma search_sound (r : Re.re) (s m rest : string) (g : Re.captures) :
  Re.search r s = Some (m, rest, g) -> Re.derives r m g.
Proof.
  induction s as [|c s IH]; simpl.
  - destruct (Re.rmatch r "") as [|x l] eqn:E; [discriminate|].
    intros H. inversion H. subst x.
    apply (rmatch_sound r "" m rest g). rewrite E. left. reflexivity.
  - destruct (Re.rmatch r (String c s)) as [|x l] eqn:E; [exact IH|].
    intros H. inversion H. subst x.
    apply (rmatch_sound r (String c s) m rest g). rewrite E. left. reflexivity.
Qed.

(* ================================================================== *)
(** * Properties of the row state machine *)

Section Aggregator.
Context {B : Builtins}.

Lemma bind_ok_inv {X Y : Type} (m : result X) (k : X -> result Y) (y : Y) :
  bind m k = Ok y -> exists x, m = Ok x /\ k x = Ok y.
Proof.
  destruct m as [x|e]; simpl; intros Hk.
  - exists x. split; [reflexivity | exact Hk].
  - discriminate Hk.
Qed.

Lemma flush_day_idle (st : State) :
  current_date st = None -> flush_day st = Ok st.
Proof.
  intros Hd. unfold flush_day. rewrite Hd. reflexivity.
Qed.

Lemma flush_day_no_activity (st : State) :
  daily_activities st = [] -> flush_day st = Ok st.
Proof.
  intros Ha. unfold flush_day. rewrite Ha.
  destruct (current_date st); reflexivity.
Qed.

Lemma flush_day_emit (st : State) (d : datetime) :
  current_date st = Some d ->
  daily_activities st <> [] ->
  renderable (pending_hours st) = true ->
  flush_day st = Ok (flushed st d).
Proof.
  intros Hd Ha Hh. unfold flush_day, flushed, section_lines. rewrite Hd.
  destruct (daily_activities st) as [|a acts] eqn:Ea; [contradiction|].
  destruct (pending_hours st) as [[q| |]|]; simpl in Hh; try discriminate Hh;
    simpl; f_equal; f_equal; repeat rewrite <- app_assoc; reflexivity.
Qed.

Lemma flush_day_inv (st st' : State) :
  flush_day st = Ok st' ->
  (st' = st /\ (current_date st = None \/ daily_activities st = []))
  \/ (exists d, current_date st = Some d /\ daily_activities st <> []
                /\ st' = flushed st d).
Proof.
  unfold flush_day, flushed, section_lines.
  destruct (current_date st) as [d|] eqn:Hd.
  - destruct (daily_activities st) as [|a acts] eqn:Ea.
    + intros H. inversion H. left. split; [reflexivity | right; reflexivity].
    + intros H. right. exists d. split; [reflexivity|]. split; [discriminate|].
      destruct (pending_hours st) as [[q| |]|]; simpl in H;
        try discriminate H; inversion H; simpl;
        f_equal; repeat rewrite <- app_assoc; reflexivity.
  - intros H. inversion H. left. split; [reflexivity | left; reflexivity].
Qed.

Lemma scan_rows_app (st : State) (r1 r2 : list Row) :
  scan_rows st (r1 +++ r2) = (st' <- scan_rows st r1 ;; scan_rows st' r2).
Proof.
  revert st. induction r1 as [|r r1 IH]; intros st; simpl.
  - reflexivity.
  - destruct (process_row st r) as [st1|e]; simpl; [apply IH | reflexivity].
Qed.

Lemma process_row_date (st : State) (row : Row) (d : datetime) :
  cell_at row 1 = Timestamp d ->
  process_row st row = (s <- flush_day st ;; Ok (open_day (Some d) s)).
Proof.
  intros Hd. unfold process_row. rewrite Hd. reflexivity.
Qed.

Lemma process_row_other (st : State) (row : Row) :
  is_timestamp (cell_at row 1) = false ->
  process_row st row =
    let st1 := add_activity st (cell_at row 2) in
    match current_date st1 with
    | Some _ =>
        if notna (cell_at row 11) then
          s <- flush_day (set_hours st1 (cell_at row 11)) ;;
          Ok (open_day None s)
        else Ok st1
    | None => Ok st1
    end.
Proof.
  intros Hd. unfold process_row.
  destruct (cell_at row 1); simpl in Hd; try discriminate Hd; reflexivity.
Qed.

Lemma add_activity_fields (st : State) (c : Cell) :
  current_date (add_activity st c) = current_date st
  /\ pending_hours (add_activity st c) = pending_hours st
  /\ md_lines (add_activity st c) = md_lines st
  /\ emitted (add_activity st c) = emitted st.
Proof.
  unfold add_activity. destruct (notna c); [|repeat split].
  destruct (negb (is_empty (clean_text c))); repeat split.
Qed.

Lemma add_activity_text (st : State) (c : Cell) :
  notna c = true -> clean_text c <> "" ->
  daily_activities (add_activity st c) = daily_activities st +++ [clean_text c].
Proof.
  intros Hn Ht. unfold add_activity. rewrite Hn.
  destruct (clean_text c) as [|x t]; [contradiction | reflexivity].
Qed.

Lemma add_activity_blank (st : State) (c : Cell) :
  clean_text c = "" -> add_activity st c = st.
Proof.
  intros Ht. unfold add_activity. rewrite Ht. simpl.
  destruct (notna c); reflexivity.
Qed.

(** C9: in a row whose date column holds a timestamp only the date
    transition happens: the previous day is flushed and the new day is
    opened with an empty buffer and no hours; an activity text or an hours
    value in the same row changes nothing (the row acts like the row that
    holds the date cell alone). *)
Theorem date_row_only_date_transition (st : State) (row : Row) (d : datetime) :
  cell_at row 1 = Timestamp d ->
  process_row st row = (s <- flush_day st ;; Ok (open_day (Some d) s))
  /\ process_row st row = process_row st [NaN; Timestamp d]
  /\ (forall st', process_row st row = Ok st' ->
        current_date st' = Some d /\ daily_activities st' = []
        /\ pending_hours st' = None
        /\ result_map output (flush_day st) = Ok (output st')).
Proof.
  intros Hd. pose proof (process_row_date st row d Hd) as E.
  split; [exact E|]. split.
  - rewrite E. symmetry. apply process_row_date. reflexivity.
  - intros st' H. rewrite E in H.
    apply bind_ok_inv in H. destruct H as [s [Hs Hk]].
    inversion Hk. subst st'. simpl.
    repeat split. unfold result_map. rewrite Hs. reflexivity.
Qed.


(** An hours cell on which float() raises is taken as no hours: the row
    is processed without an exception, the day is flushed with its hours
    unset (its section has no hours line) and the machine is idle again. *)
Lemma failed_float_swallowed (st : State) (row : Row) (d : datetime) :
  current_date st = Some d ->
  is_timestamp (cell_at row 1) = false ->
  notna (cell_at row 11) = true ->
  float_of_cell (cell_at row 11) = None ->
  let acts := daily_activities (add_activity st (cell_at row 2)) in
  let r := mkrecord d acts None in
  exists st',
    process_row st row = Ok st'
    /\ current_date st' = None /\ daily_activities st' = []
    /\ pending_hours st' = None
    /\ (acts <> [] ->
          emitted st' = emitted st +++ [r]
          /\ md_lines st' = md_lines st +++ section_lines r)
    /\ (acts = [] -> output st' = output st).
Proof.
  intros Hd Hts Hh Hf. cbv zeta.
  pose proof (process_row_other st row Hts) as E. cbv zeta in E.
  destruct (add_activity_fields st (cell_at row 2)) as [F1 [F2 [F3 F4]]].
  rewrite F1, Hd, Hh in E.
  set (st1 := add_activity st (cell_at row 2)) in *.
  set (st2 := set_hours st1 (cell_at row 11)) in *.
  assert (Hcd : current_date st2 = Some d).
  { unfold st2. simpl. rewrite F1. exact Hd. }
  assert (Hph : pending_hours st2 = None) by (unfold st2; simpl; exact Hf).
  assert (Hda : daily_activities st2 = daily_activities st1) by reflexivity.
  destruct (daily_activities st1) as [|a l] eqn:Ea.
  - exists (open_day None st2). split.
    { rewrite E, (flush_day_no_activity st2 Hda). reflexivity. }
    simpl. do 3 (split; [reflexivity|]). split.
    + intros H. contradiction.
    + intros _. unfold output. simpl. rewrite F3, F4. reflexivity.
  - exists (open_day None (flushed st2 d)). split.
    { rewrite E, (flush_day_emit st2 d Hcd).
      - reflexivity.
      - rewrite Hda. discriminate.
      - rewrite Hph. reflexivity. }
    simpl. do 3 (split; [reflexivity|]). split.
    + intros _. rewrite F3, F4, Hf, Ea. split; reflexivity.
    + intros H. discriminate H.
Qed.

(** A flush of a day with activities and hours that are no finite number
    raises what int() raises on them. *)
Lemma flush_day_raises (st : State) (d : datetime) (h : pyfloat) :
  current_date st = Some d ->
  daily_activities st <> [] ->
  pending_hours st = Some h ->
  renderable (Some h) = false ->
  exists e, int_of_float h = Error e /\ flush_day st = Error e
            /\ (e = IntOfInfinity \/ e = IntOfNaN).
Proof.
  intros Hd Ha Hp Hr. unfold flush_day. rewrite Hd, Hp.
  destruct (daily_activities st) as [|a l]; [contradiction|].
  destruct h as [q|n|]; simpl in Hr; [discriminate Hr| |].
  - exists IntOfInfinity. repeat split. left. reflexivity.
  - exists IntOfNaN. repeat split. right. reflexivity.
Qed.

(** C8 (where the code departs from it): while a day is open, an hours
    cell on which float() raises is swallowed: the row is processed
    without an exception, the day is flushed with its hours unset and the
    machine is idle again.  An hours cell that float() turns into
    infinity or nan (a float inf cell, or such a text) is not: when the
    day has an activity, int() of the value raises in flush_day (line
    141), outside the try block of lines 166-169; the row raises, and with
    it the run over any sheet that holds the row at that place. *)
Theorem hours_failure_beyond_float_raises (st : State) (row : Row)
  (d : datetime) :
  current_date st = Some d ->
  is_timestamp (cell_at row 1) = false ->
  notna (cell_at row 11) = true ->
  let acts := daily_activities (add_activity st (cell_at row 2)) in
  (float_of_cell (cell_at row 11) = None ->
     exists st',
       process_row st row = Ok st'
       /\ current_date st' = None /\ daily_activities st' = []
       /\ pending_hours st' = None
       /\ (acts <> [] ->
             emitted st' = emitted st +++ [mkrecord d acts None]
             /\ md_lines st'
                = md_lines st +++ section_lines (mkrecord d acts None))
       /\ (acts = [] -> output st' = output st))
  /\ (forall h,
        float_of_cell (cell_at row 11) = Some h ->
        renderable (Some h) = false ->
        acts <> [] ->
        exists e,
          int_of_float h = Error e
          /\ (e = IntOfInfinity \/ e = IntOfNaN)
          /\ process_row st row = Error e
          /\ (forall lines pre rest,
                scan_rows (init_state lines) pre = Ok st ->
                run_rows (init_state lines) (pre +++ row :: rest) = Error e)).
Proof.
  intros Hd Hts Hh. cbv zeta. split.
  - intros Hf. exact (failed_float_swallowed st row d Hd Hts Hh Hf).
  - intros h Hf Hr Hacts.
    pose proof (process_row_other st row Hts) as E. cbv zeta in E.
    destruct (add_activity_fields st (cell_at row 2)) as [F1 _].
    rewrite F1, Hd, Hh in E.
    destruct (flush_day_raises
                (set_hours (add_activity st (cell_at row 2)) (cell_at row 11))
                d h) as [e [He [Hfl Hcase]]].
    + simpl. rewrite F1. exact Hd.
    + exact Hacts.
    + exact Hf.
    + exact Hr.
    + rewrite Hfl in E. simpl in E.
      exists e. split; [exact He|]. split; [exact Hcase|].
      split; [exact E|].
      intros lines pre rest Hpre. unfold run_rows.
      rewrite scan_rows_app, Hpre. simpl. rewrite E. reflexivity.
Qed.

(** Rows whose hours cells are empty, fail to convert, or convert to a
    finite number, never make the run raise. *)
Lemma run_rows_total (rows : list Row) (st : State) :
  renderable (pending_hours st) = true ->
  Forall (fun row => writable_hours (cell_at row 11) = true) rows ->
  exists st', run_rows st rows = Ok st'.
Proof.
  assert (Hflush : forall s, renderable (pending_hours s) = true ->
                   exists s', flush_day s = Ok s'
                              /\ pending_hours s' = pending_hours s).
  { intros s Hs. destruct (current_date s) as [d|] eqn:Hd.
    - destruct (daily_activities s) as [|a l] eqn:Ha.
      + exists s. split; [apply flush_day_no_activity; exact Ha | reflexivity].
      + exists (flushed s d). split; [|reflexivity].
        apply flush_day_emit; [exact Hd | rewrite Ha; discriminate | exact Hs].
    - exists s. split; [apply flush_day_idle; exact Hd | reflexivity]. }
  unfold run_rows. revert st.
  induction rows as [|row rows IH]; intros st Hst Hall; simpl.
  - destruct (Hflush st Hst) as [s' [Hs' _]]. exists s'. exact Hs'.
  - inversion Hall as [|x l Hrow Hrest]; subst.
    assert (Hstep : exists st1, process_row st row = Ok st1
                                /\ renderable (pending_hours st1) = true).
    { destruct (is_timestamp (cell_at row 1)) eqn:Hts.
      - destruct (cell_at row 1) as [| |d| | |] eqn:Hc; try discriminate Hts.
        rewrite (process_row_date st row d Hc).
        destruct (Hflush st Hst) as [s' [Hs' _]]. rewrite Hs'. simpl.
        exists (open_day (Some d) s'). split; reflexivity.
      - rewrite (process_row_other st row Hts). cbv zeta.
        destruct (add_activity_fields st (cell_at row 2)) as [F1 [F2 _]].
        destruct (current_date (add_activity st (cell_at row 2))).
        + unfold writable_hours, notna in *.
          destruct (isna (cell_at row 11)); simpl in Hrow |- *.
          * eexists. split; [reflexivity | rewrite F2; exact Hst].
          * destruct (Hflush (set_hours (add_activity st (cell_at row 2))
                                (cell_at row 11)) Hrow) as [s' [Hs' _]].
            rewrite Hs'. simpl. exists (open_day None s').
            split; reflexivity.
        + eexists. split; [reflexivity | rewrite F2; exact Hst]. }
    destruct Hstep as [st1 [H1 H2]]. rewrite H1. simpl.
    apply IH; assumption.
Qed.

(** The text written is the rendering of the days logged. *)
Lemma run_rows_sections (rows : list Row) (st st' : State) :
  run_rows st rows = Ok st' ->
  exists new,
    emitted st' = emitted st +++ new
    /\ md_lines st' = md_lines st +++ flat_map section_lines new
    /\ Forall (fun r => rec_activities r <> []) new.
Proof.
  assert (Hflush : forall s s', flush_day s = Ok s' ->
            exists new, emitted s' = emitted s +++ new
              /\ md_lines s' = md_lines s +++ flat_map section_lines new
              /\ Forall (fun r => rec_activities r <> []) new).
  { intros s s' H. apply flush_day_inv in H.
    destruct H as [[H _]|[d [Hd [Ha H]]]]; subst s'.
    - exists []. simpl. repeat rewrite app_nil_r. repeat split. constructor.
    - eexists [_]. simpl. rewrite app_nil_r. repeat split.
      constructor; [exact Ha | constructor]. }
  assert (Hjoin : forall (s1 s2 s3 : State) n1 n2,
            emitted s2 = emitted s1 +++ n1 ->
            md_lines s2 = md_lines s1 +++ flat_map section_lines n1 ->
            Forall (fun r => rec_activities r <> []) n1 ->
            emitted s3 = emitted s2 +++ n2 ->
            md_lines s3 = md_lines s2 +++ flat_map section_lines n2 ->
            Forall (fun r => rec_activities r <> []) n2 ->
            exists new, emitted s3 = emitted s1 +++ new
              /\ md_lines s3 = md_lines s1 +++ flat_map section_lines new
              /\ Forall (fun r => rec_activities r <> []) new).
  { intros s1 s2 s3 n1 n2 E1 M1 A1 E2 M2 A2. exists (n1 +++ n2).
    rewrite E2, E1, M2, M1, flat_map_app, !app_assoc.
    repeat split. apply Forall_app. split; assumption. }
  unfold run_rows. revert st.
  induction rows as [|row rows IH]; intros st H; simpl in H.
  - apply Hflush. exact H.
  - apply bind_ok_inv in H. destruct H as [s [Hs Hk]].
    apply bind_ok_inv in Hs. destruct Hs as [st1 [H1 Hs]].
    assert (Hrest : (s0 <- scan_rows st1 rows ;; flush_day s0) = Ok st').
    { rewrite Hs. simpl. exact Hk. }
    destruct (IH st1 Hrest) as [n2 [E2 [M2 A2]]].
    assert (Hstep : exists n1, emitted st1 = emitted st +++ n1
              /\ md_lines st1 = md_lines st +++ flat_map section_lines n1
              /\ Forall (fun r => rec_activities r <> []) n1).
    { destruct (is_timestamp (cell_at row 1)) eqn:Hts.
      - destruct (cell_at row 1) as [| |d| | |] eqn:Hc; try discriminate Hts.
        rewrite (process_row_date st row d Hc) in H1.
        apply bind_ok_inv in H1. destruct H1 as [s1 [Hf Hk1]].
        inversion Hk1. subst st1. simpl. apply Hflush. exact Hf.
      - rewrite (process_row_other st row Hts) in H1. cbv zeta in H1.
        destruct (add_activity_fields st (cell_at row 2)) as [F1 [F2 [F3 F4]]].
        assert (Hsame : forall x, Ok (add_activity st (cell_at row 2)) = Ok x ->
                  exists n1, emitted x = emitted st +++ n1
                    /\ md_lines x = md_lines st +++ flat_map section_lines n1
                    /\ Forall (fun r => rec_activities r <> []) n1).
        { intros x Hx. inversion Hx. exists []. simpl.
          rewrite F3, F4, !app_nil_r. repeat split. constructor. }
        destruct (current_date (add_activity st (cell_at row 2)));
          [|apply Hsame; exact H1].
        destruct (notna (cell_at row 11)); [|apply Hsame; exact H1].
        apply bind_ok_inv in H1. destruct H1 as [s1 [Hf Hk1]].
        inversion Hk1. subst st1. simpl.
        destruct (Hflush _ _ Hf) as [n1 [E1 [M1 A1]]].
        exists n1. simpl in E1, M1. rewrite F4 in E1. rewrite F3 in M1.
        repeat split; assumption. }
    destruct Hstep as [n1 [E1 [M1 A1]]].
    exact (Hjoin st st1 st' n1 n2 E1 M1 A1 E2 M2 A2).
Qed.

(** Rows without a timestamp and without activity text leave an empty
    day empty; at most they close it. *)
Lemma scan_rows_no_activity (rows : list Row) (cur : option datetime)
  (md : list string) (em : list DailyRecord) :
  Forall no_activity_row rows ->
  exists cur',
    scan_rows (mkstate cur [] None md em) rows = Ok (mkstate cur' [] None md em).
Proof.
  intros Hall. revert cur.
  induction Hall as [|row rows [Hts Hblank] Hrest IH]; intros cur.
  - exists cur. reflexivity.
  - simpl. rewrite (process_row_other _ row Hts). cbv zeta.
    rewrite (add_activity_blank _ _ Hblank). simpl.
    destruct cur as [d|]; [|apply IH].
    destruct (notna (cell_at row 11)); [|apply IH].
    simpl. apply IH.
Qed.

(** C3: a flush writes a day only if a date is set and the activity
    buffer is not empty; hence every day written by a run has at least one
    activity, and a day that is opened by a date cell and receives an
    hours value but no activity text left after cleaning writes nothing. *)
Theorem emission_needs_date_and_activity :
  (forall st st', flush_day st = Ok st' ->
     output st' <> output st ->
     (exists d, current_date st = Some d) /\ daily_activities st <> [])
  /\ (forall st rows st', run_rows st rows = Ok st' ->
        exists new, emitted st' = emitted st +++ new
                    /\ Forall (fun r => rec_activities r <> []) new)
  /\ (forall st d drow mids hrow,
        date_row d drow ->
        Forall no_activity_row (mids +++ [hrow]) ->
        notna (cell_at hrow 11) = true ->
        scan_rows st (drow :: mids +++ [hrow])
        = (s <- flush_day st ;; Ok (open_day None s))).
Proof.
  split; [|split].
  - intros st st' H Hout. apply flush_day_inv in H.
    destruct H as [[H _]|[d [Hd [Ha _]]]].
    + subst st'. contradiction Hout. reflexivity.
    + split; [exists d; exact Hd | exact Ha].
  - intros st rows st' H.
    destruct (run_rows_sections rows st st' H) as [new [E [_ A]]].
    exists new. split; assumption.
  - intros st d drow mids hrow Hd Hall Hh.
    change (drow :: mids +++ [hrow]) with ([drow] +++ mids +++ [hrow]).
    rewrite scan_rows_app. simpl.
    rewrite (process_row_date st drow d Hd).
    destruct (flush_day st) as [s|e]; [|reflexivity]. simpl.
    apply Forall_app in Hall. destruct Hall as [Hmids Hlast].
    inversion Hlast as [|x l [Hts Hblank] _]; subst.
    rewrite scan_rows_app. unfold open_day at 1.
    destruct (scan_rows_no_activity mids (Some d) (md_lines s) (emitted s) Hmids)
      as [cur' Hscan].
    rewrite Hscan. simpl.
    rewrite (process_row_other _ hrow Hts). cbv zeta.
    rewrite (add_activity_blank _ _ Hblank). simpl.
    destruct cur'; [rewrite Hh|]; reflexivity.
Qed.

(** While no day is open, the activity buffer is never read. *)
Lemma idle_buffer_irrelevant (rows : list Row) (s1 s2 : State) :
  current_date s1 = None -> current_date s2 = None ->
  output s1 = output s2 ->
  result_map output (run_rows s1 rows) = result_map output (run_rows s2 rows).
Proof.
  revert s1 s2. unfold run_rows.
  induction rows as [|row rows IH]; intros s1 s2 H1 H2 Hout; simpl.
  - rewrite (flush_day_idle s1 H1), (flush_day_idle s2 H2).
    unfold result_map. simpl. rewrite Hout. reflexivity.
  - unfold output in Hout. inversion Hout as [[Hmd Hem]].
    destruct (is_timestamp (cell_at row 1)) eqn:Hts.
    + destruct (cell_at row 1) as [| |d| | |] eqn:Hc; try discriminate Hts.
      rewrite (process_row_date s1 row d Hc), (process_row_date s2 row d Hc).
      rewrite (flush_day_idle s1 H1), (flush_day_idle s2 H2). simpl.
      unfold open_day. rewrite Hmd, Hem. reflexivity.
    + rewrite (process_row_other s1 row Hts), (process_row_other s2 row Hts).
      cbv zeta.
      destruct (add_activity_fields s1 (cell_at row 2)) as [F1 [_ [F3 F4]]].
      destruct (add_activity_fields s2 (cell_at row 2)) as [G1 [_ [G3 G4]]].
      rewrite F1, G1, H1, H2. simpl.
      apply IH.
      * rewrite F1. exact H1.
      * rewrite G1. exact H2.
      * unfold output. rewrite F3, F4, G3, G4, Hmd, Hem. reflexivity.
Qed.

(** Before the first date row the machine stays idle and writes nothing. *)
Lemma scan_rows_before_first_date (rows : list Row) (st : State) :
  current_date st = None ->
  Forall (fun r => is_timestamp (cell_at r 1) = false) rows ->
  exists st', scan_rows st rows = Ok st'
              /\ current_date st' = None /\ output st' = output st.
Proof.
  intros Hidle Hall. revert st Hidle.
  induction Hall as [|row rows Hts Hrest IH]; intros st Hidle; simpl.
  - exists st. repeat split. exact Hidle.
  - rewrite (process_row_other st row Hts). cbv zeta.
    destruct (add_activity_fields st (cell_at row 2)) as [F1 [_ [F3 F4]]].
    rewrite F1, Hidle. simpl.
    destruct (IH (add_activity st (cell_at row 2))) as [st' [Hs [Hc Ho]]].
    { rewrite F1. exact Hidle. }
    exists st'. split; [exact Hs|]. split; [exact Hc|].
    rewrite Ho. unfold output. rewrite F3, F4. reflexivity.
Qed.

(** C6: rows before the first date row are ignored, whatever activity
    text they hold: scanning them raises nothing, opens no day and writes
    nothing, and the output of the whole run is the output of the run
    without them. *)
Theorem activity_before_first_date_ignored (lines : list string)
  (pre post : list Row) :
  Forall (fun r => is_timestamp (cell_at r 1) = false) pre ->
  (exists st', scan_rows (init_state lines) pre = Ok st'
               /\ current_date st' = None /\ output st' = (lines, []))
  /\ result_map output (run_rows (init_state lines) (pre +++ post))
     = result_map output (run_rows (init_state lines) post).
Proof.
  intros Hpre.
  destruct (scan_rows_before_first_date pre (init_state lines) eq_refl Hpre)
    as [st' [Hs [Hc Ho]]].
  split.
  - exists st'. split; [exact Hs|]. split; [exact Hc | exact Ho].
  - unfold run_rows at 1. rewrite scan_rows_app, Hs. simpl.
    change (result_map output (run_rows st' post)
            = result_map output (run_rows (init_state lines) post)).
    apply idle_buffer_irrelevant; [exact Hc | reflexivity | exact Ho].
Qed.

Lemma scan_activity_rows (texts : list string) (arows : list Row) (st : State) :
  Forall2 activity_row texts arows ->
  scan_rows st arows =
    Ok (mkstate (current_date st)
          (daily_activities st +++ map (fun a => clean_text (Str a)) texts)
          (pending_hours st) (md_lines st) (emitted st)).
Proof.
  intros Hall. revert st.
  induction Hall as [|a row texts arows [Hc1 [Hc2 [Hne Hc11]]] Hrest IH];
    intros st; simpl.
  - rewrite app_nil_r. destruct st; reflexivity.
  - rewrite (process_row_other st row); [|rewrite Hc1; reflexivity].
    cbv zeta. rewrite Hc2, Hc11.
    destruct (add_activity_fields st (Str a)) as [F1 [F2 [F3 F4]]].
    pose proof (add_activity_text st (Str a) eq_refl Hne) as F5.
    assert (Hstep : (match current_date (add_activity st (Str a)) with
                     | Some _ =>
                         if notna NaN
                         then s <- flush_day (set_hours (add_activity st (Str a)) NaN) ;;
                              Ok (open_day None s)
                         else Ok (add_activity st (Str a))
                     | None => Ok (add_activity st (Str a))
                     end) = Ok (add_activity st (Str a))).
    { destruct (current_date (add_activity st (Str a))); reflexivity. }
    rewrite Hstep. simpl. rewrite IH, F1, F2, F3, F4, F5, <- app_assoc.
    reflexivity.
Qed.

Lemma numeric_value_float (h : Cell) :
  is_numeric h = true ->
  float_of_cell h = numeric_value h /\ notna h = true
  /\ (renderable (numeric_value h) = false ->
      exists negative, numeric_value h = Some (Inf negative)).
Proof.
  destruct h as [| | | | |negative]; simpl; intros H; try discriminate H;
    (split; [reflexivity|]); (split; [reflexivity|]);
    intros Hr; try discriminate Hr.
  exists negative. reflexivity.
Qed.

(** A regular day up to its hours row: the day is open and holds its
    activities. *)
Lemma scan_group_open (g : DayGroup) (drow : Row) (arows : list Row)
  (md : list string) (em : list DailyRecord) :
  date_row (g_date g) drow ->
  Forall2 activity_row (g_texts g) arows ->
  scan_rows (mkstate None [] None md em) (drow :: arows) =
    Ok (mkstate (Some (g_date g))
          (map (fun a => clean_text (Str a)) (g_texts g)) None md em).
Proof.
  intros Hd Hacts. simpl.
  rewrite (process_row_date _ drow (g_date g) Hd). simpl.
  rewrite (scan_activity_rows (g_texts g) arows _ Hacts). reflexivity.
Qed.

(** One regular day with finite hours, scanned from the idle state,
    writes exactly its record and leaves the machine idle. *)
Lemma scan_group (g : DayGroup) (rows : list Row)
  (md : list string) (em : list DailyRecord) :
  group_rows g rows ->
  finite_hours g = true ->
  scan_rows (mkstate None [] None md em) rows =
    Ok (mkstate None [] None (md +++ section_lines (record_of g))
          (em +++ [record_of g])).
Proof.
  intros Hg Hfin.
  destruct Hg as [drow hrow arows Hd Hne Hacts [Hc1 [Hc2 [Hc11 Hnum]]]].
  change (drow :: arows +++ [hrow]) with ((drow :: arows) +++ [hrow]).
  rewrite scan_rows_app, (scan_group_open g drow arows md em Hd Hacts).
  simpl.
  rewrite (process_row_other _ hrow); [|rewrite Hc1; reflexivity].
  cbv zeta. rewrite Hc2, Hc11. unfold add_activity at 1 2 3. simpl.
  destruct (numeric_value_float (g_hours g) Hnum) as [Hf [Hn _]].
  rewrite Hn.
  rewrite (flush_day_emit _ (g_date g)); simpl.
  - unfold flushed, record_of. simpl. rewrite Hf. reflexivity.
  - reflexivity.
  - destruct (g_texts g); [contradiction | discriminate].
  - rewrite Hf. exact Hfin.
Qed.

(** One regular day whose hours cell holds an infinite float: its hours
    row raises, whatever follows. *)
Lemma scan_group_infinite (g : DayGroup) (rows rest : list Row)
  (md : list string) (em : list DailyRecord) :
  group_rows g rows ->
  finite_hours g = false ->
  scan_rows (mkstate None [] None md em) (rows +++ rest) = Error IntOfInfinity.
Proof.
  intros Hg Hfin.
  destruct Hg as [drow hrow arows Hd Hne Hacts [Hc1 [Hc2 [Hc11 Hnum]]]].
  change (drow :: arows +++ [hrow]) with ((drow :: arows) +++ [hrow]).
  rewrite <- app_assoc.
  rewrite scan_rows_app, (scan_group_open g drow arows md em Hd Hacts).
  simpl.
  rewrite (process_row_other _ hrow); [|rewrite Hc1; reflexivity].
  cbv zeta. rewrite Hc2, Hc11. unfold add_activity at 1 2 3. simpl.
  destruct (numeric_value_float (g_hours g) Hnum) as [Hf [Hn Hinf]].
  destruct (Hinf Hfin) as [negative Hv].
  rewrite Hn. unfold flush_day, set_hours. simpl. rewrite Hf, Hv.
  destruct (g_texts g) as [|a texts]; [contradiction|]. reflexivity.
Qed.

Lemma scan_groups (groups : list DayGroup) (chunks : list (list Row))
  (md : list string) (em : list DailyRecord) :
  Forall2 group_rows groups chunks ->
  forallb finite_hours groups = true ->
  scan_rows (mkstate None [] None md em) (List.concat chunks) =
    Ok (mkstate None [] None
          (md +++ flat_map section_lines (map record_of groups))
          (em +++ map record_of groups)).
Proof.
  intros Hall. revert md em.
  induction Hall as [|g rows groups chunks Hg Hrest IH]; intros md em Hfin.
  - simpl. rewrite !app_nil_r. reflexivity.
  - simpl in Hfin. apply andb_true_iff in Hfin. destruct Hfin as [Hg1 Hfin].
    change (List.concat (rows :: chunks)) with (rows +++ List.concat chunks).
    rewrite scan_rows_app, (scan_group g rows md em Hg Hg1).
    cbn [bind]. rewrite (IH _ _ Hfin). cbn [map flat_map].
    rewrite <- !app_assoc. reflexivity.
Qed.

Lemma scan_groups_infinite (groups : list DayGroup) (chunks : list (list Row))
  (md : list string) (em : list DailyRecord) :
  Forall2 group_rows groups chunks ->
  forallb finite_hours groups = false ->
  scan_rows (mkstate None [] None md em) (List.concat chunks)
  = Error IntOfInfinity.
Proof.
  intros Hall. revert md em.
  induction Hall as [|g rows groups chunks Hg Hrest IH]; intros md em Hfin.
  - discriminate Hfin.
  - change (List.concat (rows :: chunks)) with (rows +++ List.concat chunks).
    simpl in Hfin. destruct (finite_hours g) eqn:Hg1.
    + rewrite scan_rows_app, (scan_group g rows md em Hg Hg1).
      cbn [bind]. apply IH. exact Hfin.
    + exact (scan_group_infinite g rows _ md em Hg Hg1).
Qed.

Lemma find_tag_row_none (wide : bool) (rows : list Row) (i : nat) :
  Forall (fun r => is_tag_cell (cell_at r 1) = false) rows ->
  find_tag_row wide rows i = None.
Proof.
  intros Hall. revert i.
  induction Hall as [|r rows Hr Hrest IH]; intros i; simpl.
  - reflexivity.
  - destruct wide; [rewrite Hr|]; simpl; apply IH.
Qed.

Lemma group_rows_no_tag (g : DayGroup) (rows : list Row) :
  group_rows g rows ->
  Forall (fun r => is_tag_cell (cell_at r 1) = false) rows.
Proof.
  intros Hg. destruct Hg as [drow hrow arows Hd Hne Hacts [Hc1 _]].
  constructor; [rewrite Hd; reflexivity|].
  apply Forall_app. split.
  - clear Hne. induction Hacts as [|a r texts arows [Ha _] _ IH];
      constructor; [rewrite Ha; reflexivity | exact IH].
  - constructor; [rewrite Hc1; reflexivity | constructor].
Qed.

(** C1 (where the code departs from it): on a sheet made of n regular
    days (a date row, one or more activity rows, an hours row with a
    number) the converter writes exactly n days, in sheet order; the k-th
    has the k-th date, the cleaned activity texts of that day in row order
    and that day's hours; the document gains exactly their sections.
    That holds when every hours cell holds a finite number.  When the
    hours cell of some day is an infinite float, int() of it raises
    OverflowError in flush_day (line 141): no day is returned. *)
Theorem regular_sheet_one_record_per_day (groups : list DayGroup)
  (chunks : list (list Row)) :
  Forall2 group_rows groups chunks ->
  (forallb finite_hours groups = true ->
     aggregate (List.concat chunks) = Ok (map record_of groups)
     /\ List.length (map record_of groups) = List.length groups
     /\ (forall lines,
           result_map md_lines
             (run_rows (init_state lines) (List.concat chunks))
           = Ok (lines +++ flat_map section_lines (map record_of groups))))
  /\ (forallb finite_hours groups = false ->
     aggregate (List.concat chunks) = Error IntOfInfinity
     /\ (forall lines,
           run_rows (init_state lines) (List.concat chunks)
           = Error IntOfInfinity)).
Proof.
  intros Hall.
  assert (Hstart : data_start_row (List.concat chunks) = O).
  { unfold data_start_row. rewrite find_tag_row_none; [reflexivity|].
    clear - Hall. induction Hall as [|g rows groups chunks Hg _ IH]; simpl.
    - constructor.
    - apply Forall_app. split; [exact (group_rows_no_tag g rows Hg) | exact IH]. }
  split.
  - intros Hfin. split; [|split].
    + unfold aggregate, run_rows, init_state. rewrite Hstart. simpl.
      rewrite (scan_groups groups chunks [] [] Hall Hfin). reflexivity.
    + apply length_map.
    + intros lines. unfold run_rows, init_state, result_map.
      rewrite (scan_groups groups chunks lines [] Hall Hfin). reflexivity.
  - intros Hinf. split.
    + unfold aggregate, run_rows, init_state. rewrite Hstart. simpl.
      rewrite (scan_groups_infinite groups chunks [] [] Hall Hinf). reflexivity.
    + intros lines. unfold run_rows, init_state.
      rewrite (scan_groups_infinite groups chunks lines [] Hall Hinf).
      reflexivity.
Qed.

End Aggregator.

(** ** The theorems above on the sample sheet *)

Lemma regular_sheet_one_record_per_day_witness :
  Forall2 (@group_rows sample_builtins)
    (sample_groups +++ [inf_hours_group]) (sample_chunks +++ [inf_hours_day])
  /\ forallb finite_hours sample_groups = true
  /\ @aggregate sample_builtins sample_sheet
     = Ok [ mkrecord (mkdate 2025 3 3) ["Review tickets"; "Write report"]
              (Some (Fin (inject_Z 8)));
            mkrecord (mkdate 2025 3 4) ["Deploy"] (Some (Fin (15 # 2))) ]
  /\ forallb finite_hours (sample_groups +++ [inf_hours_group]) = false
  /\ @aggregate sample_builtins (sample_sheet +++ inf_hours_day)
     = Error IntOfInfinity.
Proof.
  assert (H2 : Forall2 (@group_rows sample_builtins) sample_groups sample_chunks).
  { constructor; [|constructor; [|constructor]].
    - apply (@group_rows_intro sample_builtins _
               (sample_row (Timestamp (mkdate 2025 3 3)) NaN NaN)
               (sample_row NaN NaN (Int 8))
               [sample_row NaN (Str "Review tickets") NaN;
                sample_row NaN (Str "Write  report ") NaN]).
      + reflexivity.
      + discriminate.
      + repeat constructor; vm_compute; discriminate.
      + repeat split.
    - apply (@group_rows_intro sample_builtins _
               (sample_row (Timestamp (mkdate 2025 3 4)) NaN NaN)
               (sample_row NaN NaN (Float (15 # 2)))
               [sample_row NaN (Str "Deploy") NaN]).
      + reflexivity.
      + discriminate.
      + repeat constructor; vm_compute; discriminate.
      + repeat split. }
  assert (H3 : @group_rows sample_builtins inf_hours_group inf_hours_day).
  { apply (@group_rows_intro sample_builtins inf_hours_group
             (sample_row (Timestamp (mkdate 2025 3 5)) NaN NaN)
             (sample_row NaN NaN (FloatInf false))
             [sample_row NaN (Str "Deploy") NaN]).
    - reflexivity.
    - discriminate.
    - repeat constructor; vm_compute; discriminate.
    - repeat split. }
  assert (H : Forall2 (@group_rows sample_builtins)
                (sample_groups +++ [inf_hours_group])
                (sample_chunks +++ [inf_hours_day])).
  { apply Forall2_app; [exact H2 | constructor; [exact H3 | constructor]]. }
  split; [exact H|]. split; [reflexivity|]. split.
  - exact (proj1 (proj1 (@regular_sheet_one_record_per_day sample_builtins
                           sample_groups sample_chunks H2) eq_refl)).
  - split; [reflexivity|].
    exact (proj1 (proj2 (@regular_sheet_one_record_per_day sample_builtins
                           (sample_groups +++ [inf_hours_group])
                           (sample_chunks +++ [inf_hours_day]) H) eq_refl)).
Defined.

Lemma emission_needs_date_and_activity_witness :
  date_row (mkdate 2025 3 5) (sample_row (Timestamp (mkdate 2025 3 5)) NaN NaN)
  /\ Forall (@no_activity_row sample_builtins)
       ([sample_row NaN (Str "   ") NaN] +++ [sample_row NaN NaN (Int 8)])
  /\ notna (cell_at (sample_row NaN NaN (Int 8)) 11) = true
  /\ @scan_rows sample_builtins (init_state ["---"; ""]) sample_empty_day
     = Ok (init_state ["---"; ""]).
Proof.
  assert (H : Forall (@no_activity_row sample_builtins)
                ([sample_row NaN (Str "   ") NaN] +++ [sample_row NaN NaN (Int 8)])).
  { repeat constructor. }
  split; [reflexivity|]. split; [exact H|]. split; [reflexivity|].
  exact (proj2 (proj2 (@emission_needs_date_and_activity sample_builtins))
           (init_state ["---"; ""]) (mkdate 2025 3 5)
           (sample_row (Timestamp (mkdate 2025 3 5)) NaN NaN)
           [sample_row NaN (Str "   ") NaN] (sample_row NaN NaN (Int 8))
           eq_refl H eq_refl).
Defined.

Lemma activity_before_first_date_ignored_witness :
  Forall (fun r => is_timestamp (cell_at r 1) = false)
    [sample_row NaN (Str "stray") (Int 3)]
  /\ result_map output
       (@run_rows sample_builtins (init_state ["---"; ""])
          ([sample_row NaN (Str "stray") (Int 3)] +++ sample_sheet))
     = result_map output
         (@run_rows sample_builtins (init_state ["---"; ""]) sample_sheet).
Proof.
  assert (H : Forall (fun r => is_timestamp (cell_at r 1) = false)
                [sample_row NaN (Str "stray") (Int 3)]).
  { repeat constructor. }
  split; [exact H|].
  exact (proj2 (@activity_before_first_date_ignored sample_builtins
                  ["---"; ""] [sample_row NaN (Str "stray") (Int 3)]
                  sample_sheet H)).
Defined.

Lemma hours_failure_beyond_float_raises_witness :
  current_date sample_open = Some (mkdate 2025 3 3)
  /\ is_timestamp (cell_at inf_hours_row 1) = false
  /\ notna (cell_at inf_hours_row 11) = true
  /\ @float_of_cell sample_builtins (cell_at inf_hours_row 11)
     = Some (Inf false)
  /\ daily_activities
       (@add_activity sample_builtins sample_open (cell_at inf_hours_row 2))
     <> []
  /\ @process_row sample_builtins sample_open inf_hours_row
     = Error IntOfInfinity
  /\ @float_of_cell sample_builtins (cell_at sample_bad_hours_row 11) = None
  /\ exists st',
       @process_row sample_builtins sample_open sample_bad_hours_row = Ok st'
       /\ current_date st' = None /\ pending_hours st' = None.
Proof.
  assert (Ha : daily_activities
                 (@add_activity sample_builtins sample_open
                    (cell_at inf_hours_row 2)) <> []) by discriminate.
  do 4 (split; [reflexivity|]). split; [exact Ha|]. split.
  - destruct (proj2 (@hours_failure_beyond_float_raises sample_builtins
                       sample_open inf_hours_row (mkdate 2025 3 3)
                       eq_refl eq_refl eq_refl)
                (Inf false) eq_refl eq_refl Ha) as [e [He [_ [Hp _]]]].
    simpl in He. inversion He. subst e. exact Hp.
  - split; [reflexivity|].
    destruct (proj1 (@hours_failure_beyond_float_raises sample_builtins
                       sample_open sample_bad_hours_row (mkdate 2025 3 3)
                       eq_refl eq_refl eq_refl) eq_refl)
      as [st' [H1 [H2 [_ [H4 _]]]]].
    exists st'. repeat split; assumption.
Defined.

Lemma date_row_only_date_transition_witness :
  cell_at sample_date_row 1 = Timestamp (mkdate 2025 3 4)
  /\ @process_row sample_builtins sample_open sample_date_row
     = @process_row sample_builtins sample_open
         [NaN; Timestamp (mkdate 2025 3 4)].
Proof.
  split; [reflexivity|].
  exact (proj1 (proj2 (@date_row_only_date_transition sample_builtins
                         sample_open sample_date_row (mkdate 2025 3 4)
                         eq_refl))).
Defined.


(* ================================================================== *)
(** * Properties of the date resolver *)

Lemma derives_no_group (r : Re.re) (m : string) (g : Re.captures) :
  Re.derives r m g -> Re.has_group r = false -> g = [].
Proof.
  intros D. induction D; simpl; intros Hg; try reflexivity.
  - apply orb_false_iff in Hg. destruct Hg as [Ha Hb].
    rewrite (IHD1 Ha), (IHD2 Hb). reflexivity.
  - apply orb_false_iff in Hg. apply IHD. tauto.
  - apply orb_false_iff in Hg. apply IHD. tauto.
  - apply IHD. exact Hg.
  - discriminate Hg.
Qed.

Lemma in_range_excludes (lo hi c x : ascii) :
  in_range lo hi c = true -> in_range lo hi x = false ->
  Re.other_than x c = true.
Proof.
  intros Hc Hx. unfold Re.other_than.
  destruct (Ascii.eqb c x) eqn:E; [|reflexivity].
  apply Ascii.eqb_eq in E. subst x. rewrite Hc in Hx. discriminate Hx.
Qed.

Lemma lit_char (x c : ascii) : Ascii.eqb x c = true -> c = x.
Proof. intros H. apply Ascii.eqb_eq in H. symmetry. exact H. Qed.

Lemma digit_cases (c : ascii) :
  is_digit c = true ->
  In c ["0"; "1"; "2"; "3"; "4"; "5"; "6"; "7"; "8"; "9"]%char.
Proof.
  intros H.
  destruct c as [[] [] [] [] [] [] [] []]; try discriminate H; clear H;
    simpl; auto 12.
Qed.

(** ** Splitting at a separator *)

Lemma split_on_nonempty (c : ascii) (s : string) : split_on c s <> [].
Proof.
  destruct s as [|x s]; simpl; [discriminate|].
  destruct (Ascii.eqb x c); [discriminate|].
  destruct (split_on c s); discriminate.
Qed.

Lemma split_on_app (c : ascii) (a b : string) :
  split_on c (a ++ String c b) = split_on c a +++ split_on c b.
Proof.
  induction a as [|x a IH]; simpl.
  - rewrite Ascii.eqb_refl. reflexivity.
  - destruct (Ascii.eqb x c); [rewrite IH; reflexivity|].
    rewrite IH. destruct (split_on c a) as [|h t] eqn:E.
    + contradiction (split_on_nonempty c a E).
    + reflexivity.
Qed.

Lemma split_on_single (c : ascii) (y z : string) :
  split_on c y = [z] -> y = z.
Proof.
  revert z. induction y as [|x y IH]; intros z; simpl.
  - intros H. inversion H. reflexivity.
  - destruct (Ascii.eqb x c).
    + intros H. inversion H as [[Hz Hn]].
      contradiction (split_on_nonempty c y Hn).
    + destruct (split_on c y) as [|h t] eqn:E.
      * contradiction (split_on_nonempty c y E).
      * intros H. inversion H. subst. rewrite (IH h eq_refl). reflexivity.
Qed.

Lemma split_on_free (c : ascii) (a : string) :
  Re.all_chars (Re.other_than c) a = true -> split_on c a = [a].
Proof.
  induction a as [|x a IH]; simpl; [reflexivity|].
  intros H. apply andb_true_iff in H. destruct H as [Hx Ha].
  unfold Re.other_than in Hx. apply negb_true_iff in Hx. rewrite Hx.
  rewrite (IH Ha). reflexivity.
Qed.

(** ** The language of the strptime directives *)

Ltac invert_derives :=
  repeat match goal with
  | H : Re.derives (Re.Seq _ _) _ _ |- _ => inversion H; clear H; subst
  | H : Re.derives (Re.Alt _ _) _ _ |- _ => inversion H; clear H; subst
  | H : Re.derives (Re.Chr _) _ _ |- _ => inversion H; clear H; subst
  | H : Re.derives (Re.Opt _) _ _ |- _ => inversion H; clear H; subst
  | H : Re.derives (Re.Grp _ _) _ _ |- _ => inversion H; clear H; subst
  | H : Re.derives (Re.StarC _) _ _ |- _ => inversion H; clear H; subst
  end.

(** Turns what is known of each character into the fact that it is not
    the character [x]. *)
Ltac chars_other_than x :=
  repeat match goal with
  | H : Ascii.eqb _ ?c = true |- _ => apply lit_char in H; subst c
  | H : in_range ?lo ?hi ?c = true |- _ =>
      rewrite (in_range_excludes lo hi c x H eq_refl); clear H
  | H : is_digit ?c = true |- _ =>
      rewrite (in_range_excludes "0" "9" c x H eq_refl); clear H
  end.

Lemma day_text_free (md : string) (g : Re.captures) :
  Re.derives Strptime.re_d md g ->
  Re.all_chars (Re.other_than ".") md = true.
Proof.
  unfold Strptime.re_d, Re.lit, Re.digit. intros D.
  invert_derives; simpl; chars_other_than "."%char; reflexivity.
Qed.

Lemma month_text_free (mm : string) (g : Re.captures) :
  Re.derives Strptime.re_m mm g ->
  Re.all_chars (Re.other_than ".") mm = true.
Proof.
  unfold Strptime.re_m, Re.lit, Re.digit. intros D.
  invert_derives; simpl; chars_other_than "."%char; reflexivity.
Qed.

Lemma year_text_free (yd : Strptime.year_directive) (my : string)
  (g : Re.captures) :
  Re.derives (Strptime.re_year yd) my g ->
  Re.all_chars (Re.other_than ".") my = true.
Proof.
  destruct yd; unfold Strptime.re_year, Re.digit; intros D;
    invert_derives; simpl; chars_other_than "."%char; reflexivity.
Qed.

Lemma two_digit_int (a b : ascii) :
  is_digit a = true -> is_digit b = true ->
  exists v, int_of_str (String a (String b "")) = Some v /\ 0 <= v <= 99.
Proof.
  intros Ha Hb. apply digit_cases in Ha, Hb. simpl in Ha, Hb.
  repeat (destruct Ha as [Ha|Ha]); try contradiction; subst a;
    repeat (destruct Hb as [Hb|Hb]); try contradiction; subst b;
    eexists; (split; [vm_compute; reflexivity | lia]).
Qed.

Lemma two_digit_year (my : string) (g : Re.captures) :
  Re.derives (Strptime.re_year Strptime.Y2) my g ->
  exists v, int_of_str my = Some v /\ 0 <= v <= 99.
Proof.
  unfold Strptime.re_year, Re.digit. intros D. invert_derives.
  apply two_digit_int; assumption.
Qed.

(** What a successful [strptime] has read: three dot-separated fields,
    the day, the month and the year, naming a real date. *)
Lemma strptime_fields (s : string) (yd : Strptime.year_directive)
  (dt : datetime) :
  Strptime.strptime s yd = Ok dt ->
  exists md mm my yv,
    split_on "." s = [md; mm; my]
    /\ int_of_str md = Some (day dt)
    /\ int_of_str mm = Some (month dt)
    /\ int_of_str my = Some yv
    /\ year dt = Strptime.full_year yd yv
    /\ (yd = Strptime.Y2 -> 0 <= yv <= 99)
    /\ valid_date (year dt) (month dt) (day dt) = true.
Proof.
  unfold Strptime.strptime.
  destruct (Re.rematch (Strptime.format_regex yd) s) as [[[m rest] g]|] eqn:E;
    [|discriminate].
  apply rematch_sound in E. destruct E as [Hs D].
  destruct rest as [|x rest]; [|discriminate]. simpl.
  rewrite append_empty_r in Hs. subst m.
  unfold Strptime.format_regex, Re.lit in D.
  inversion D as [|a1 b1 md r1 gd' g1 Dd D1| | | | | |]; subst. clear D.
  inversion Dd as [| | | | | | |n1 a md' gd Dd']; subst. clear Dd.
  inversion D1 as [|a2 b2 p1 r2 gp1 g2 Dp1 D2| | | | | |]; subst. clear D1.
  inversion Dp1 as [p c1 Hc1| | | | | | |]; subst. clear Dp1.
  inversion D2 as [|a3 b3 mm r3 gm' g3 Dm D3| | | | | |]; subst. clear D2.
  inversion Dm as [| | | | | | |n2 a mm' gm Dm']; subst. clear Dm.
  inversion D3 as [|a4 b4 p2 my gp2 gy' Dp2 Dy| | | | | |]; subst. clear D3.
  inversion Dp2 as [p c2 Hc2| | | | | | |]; subst. clear Dp2.
  inversion Dy as [| | | | | | |n3 a my' gy Dy']; subst. clear Dy.
  apply lit_char in Hc1, Hc2. subst c1 c2.
  rewrite (derives_no_group _ _ _ Dd' eq_refl).
  rewrite (derives_no_group _ _ _ Dm' eq_refl).
  rewrite (derives_no_group _ _ _ Dy'); [|destruct yd; reflexivity].
  unfold Strptime.group_int. simpl.
  destruct (int_of_str md) as [d|] eqn:Ed; [|discriminate].
  destruct (int_of_str mm) as [mo|] eqn:Em; [|discriminate].
  destruct (int_of_str my) as [yv|] eqn:Ey; [|discriminate].
  destruct (valid_date (Strptime.full_year yd yv) mo d) eqn:Ev; [|discriminate].
  intros H. inversion H. subst dt. simpl.
  exists md, mm, my, yv.
  split.
  { rewrite (split_on_app "." md), (split_on_free "." md (day_text_free _ _ Dd')).
    simpl. rewrite (split_on_app "." mm), (split_on_free "." mm (month_text_free _ _ Dm')).
    simpl. rewrite (split_on_free "." my (year_text_free _ _ _ Dy')). reflexivity. }
  split; [exact Ed|]. split; [exact Em|]. split; [exact Ey|].
  split; [reflexivity|]. split; [|exact Ev].
  intros Hyd. subst yd. destruct (two_digit_year _ _ Dy') as [v [Hv Hr]].
  rewrite Ey in Hv. inversion Hv. subst. exact Hr.
Qed.

(** A token of two parts that parses is day.month in the given year. *)
Lemma parse_date_two_parts (tok y : string) (dt : datetime) :
  List.length (split_on "." tok) = 2%nat ->
  parse_date tok y = Ok dt ->
  exists p1 p2,
    split_on "." tok = [p1; p2]
    /\ int_of_str p1 = Some (day dt)
    /\ int_of_str p2 = Some (month dt)
    /\ int_of_str y = Some (year dt).
Proof.
  intros Hlen Hdt. unfold parse_date in Hdt. rewrite Hlen in Hdt.
  cbn [Nat.eqb] in Hdt.
  destruct (strptime_fields _ _ _ Hdt)
    as [md [mm [my [yv [Hs [Hd [Hm [Hy [Hyr _]]]]]]]]].
  change (tok ++ "." ++ y)%string with (tok ++ String "." y)%string in Hs.
  rewrite split_on_app in Hs.
  destruct (split_on "." tok) as [|p1 [|p2 [|p3 l]]]; try discriminate Hlen.
  simpl in Hs. inversion Hs as [[H1 H2 H3]]. subst p1 p2.
  apply split_on_single in H3. subst my.
  exists md, mm. repeat split; try assumption.
  rewrite Hy, Hyr. reflexivity.
Qed.

(** ** The tokens of a file name *)

Lemma digit_not (c x : ascii) :
  is_digit c = true -> is_digit x = false -> Ascii.eqb c x = false.
Proof.
  intros Hc Hx. apply negb_true_iff.
  exact (in_range_excludes "0" "9" c x Hc Hx).
Qed.

Lemma start_token_shape (a b c d : ascii) (t : string) :
  is_digit a = true -> is_digit b = true ->
  is_digit c = true -> is_digit d = true ->
  t = "" \/ t = "." ->
  rstrip_char "." (String a (String b (String "." (String c (String d t)))))
  = date_token a b c d.
Proof.
  intros Ha Hb Hc Hd Ht. unfold date_token.
  destruct Ht; subst t; simpl; rewrite (digit_not d "." Hd eq_refl); reflexivity.
Qed.

Lemma end_token_shape (a b c d x : ascii) (t : string) :
  is_digit a = true -> is_digit b = true ->
  is_digit c = true -> is_digit d = true ->
  x = "."%char \/ x = "-"%char ->
  t = "" \/ t = "." ->
  rstrip_char "."
    (replace_char "-" "."
       (String a (String b (String x (String c (String d t))))))
  = date_token a b c d.
Proof.
  intros Ha Hb Hc Hd Hx Ht. unfold date_token.
  destruct Hx; subst x; destruct Ht; subst t; simpl;
    rewrite (digit_not a "-" Ha eq_refl), (digit_not b "-" Hb eq_refl),
            (digit_not c "-" Hc eq_refl), (digit_not d "-" Hd eq_refl),
            (digit_not d "." Hd eq_refl);
    reflexivity.
Qed.

(** Both tokens taken from a file name are of the form DD.MM. *)
Lemma filename_tokens (name start_raw end_raw base : string) :
  parse_dates_from_filename name = Some (start_raw, end_raw, base) ->
  exists a b c d a' b' c' d',
    is_digit a = true /\ is_digit b = true
    /\ is_digit c = true /\ is_digit d = true
    /\ is_digit a' = true /\ is_digit b' = true
    /\ is_digit c' = true /\ is_digit d' = true
    /\ start_raw = date_token a b c d /\ end_raw = date_token a' b' c' d'.
Proof.
  unfold parse_dates_from_filename.
  destruct (Re.search filename_regex (stem name)) as [[[m rest] g]|] eqn:E;
    [|discriminate].
  apply search_sound in E.
  cbv beta zeta delta [filename_regex Re.lit Re.digit] in E.
  invert_derives;
    repeat match goal with
    | H : Ascii.eqb _ ?c = true |- _ => apply lit_char in H; subst c
    end;
    cbn [Re.group List.app String.append String.eqb Ascii.eqb Bool.eqb andb];
    rewrite start_token_shape by auto;
    rewrite end_token_shape by auto;
    intros H; injection H as E1 E2 E3; subst start_raw end_raw;
    do 8 eexists;
    repeat split; assumption.
Qed.

Lemma date_token_two_parts (a b c d : ascii) :
  is_digit a = true -> is_digit b = true ->
  is_digit c = true -> is_digit d = true ->
  List.length (split_on "." (date_token a b c d)) = 2%nat.
Proof.
  intros Ha Hb Hc Hd. unfold date_token. simpl.
  rewrite (digit_not a "." Ha eq_refl), (digit_not b "." Hb eq_refl),
          (digit_not c "." Hc eq_refl), (digit_not d "." Hd eq_refl).
  reflexivity.
Qed.

(** ** What [strptime] reads from two-digit fields *)

Lemma rmatch_day_field (a b : ascii) (K : Re.re) (rest : string) (v : Z) :
  is_digit a = true -> is_digit b = true ->
  int_of_str (String a (String b "")) = Some v ->
  Re.rmatch (Re.Seq (Re.Grp "d" Strptime.re_d) (Re.Seq (Re.lit ".") K))
    (String a (String b (String "." rest)))
  = if (1 <=? v) && (v <=? 31)
    then map (fun '(m, s, g) =>
                (String a (String b (String "." m)), s,
                 ("d", String a (String b "")) :: g))
           (Re.rmatch K rest)
    else [].
Proof.
  intros Ha Hb. apply digit_cases in Ha, Hb. simpl in Ha, Hb.
  repeat (destruct Ha as [Ha|Ha]); try contradiction; subst a;
    repeat (destruct Hb as [Hb|Hb]); try contradiction; subst b;
    intros Hv; vm_compute in Hv; inversion Hv; subst v; clear Hv;
    simpl; rewrite ?app_nil_r, ?map_map; try reflexivity;
    apply map_ext; intros [[m s] g]; reflexivity.
Qed.

Lemma rmatch_month_field (a b : ascii) (K : Re.re) (rest : string) (v : Z) :
  is_digit a = true -> is_digit b = true ->
  int_of_str (String a (String b "")) = Some v ->
  Re.rmatch (Re.Seq (Re.Grp "m" Strptime.re_m) (Re.Seq (Re.lit ".") K))
    (String a (String b (String "." rest)))
  = if (1 <=? v) && (v <=? 12)
    then map (fun '(m, s, g) =>
                (String a (String b (String "." m)), s,
                 ("m", String a (String b "")) :: g))
           (Re.rmatch K rest)
    else [].
Proof.
  intros Ha Hb. apply digit_cases in Ha, Hb. simpl in Ha, Hb.
  repeat (destruct Ha as [Ha|Ha]); try contradiction; subst a;
    repeat (destruct Hb as [Hb|Hb]); try contradiction; subst b;
    intros Hv; vm_compute in Hv; inversion Hv; subst v; clear Hv;
    simpl; rewrite ?app_nil_r, ?map_map; try reflexivity;
    apply map_ext; intros [[m s] g]; reflexivity.
Qed.

Lemma rmatch_year4 (y1 y2 y3 y4 : ascii) :
  is_digit y1 = true -> is_digit y2 = true ->
  is_digit y3 = true -> is_digit y4 = true ->
  let yt := String y1 (String y2 (String y3 (String y4 ""))) in
  Re.rmatch (Re.Grp "y" (Strptime.re_year Strptime.Y4)) yt
  = [(yt, "", [("y", yt)])].
Proof.
  intros H1 H2 H3 H4. cbv zeta.
  cbn [Re.rmatch Strptime.re_year Re.digit flat_map map List.app].
  rewrite H1. cbn [Re.rmatch flat_map map List.app]. rewrite H2.
  cbn [Re.rmatch flat_map map List.app]. rewrite H3.
  cbn [Re.rmatch flat_map map List.app]. rewrite H4. reflexivity.
Qed.

Lemma rmatch_year2 (y1 y2 : ascii) :
  is_digit y1 = true -> is_digit y2 = true ->
  let yt := String y1 (String y2 "") in
  Re.rmatch (Re.Grp "y" (Strptime.re_year Strptime.Y2)) yt
  = [(yt, "", [("y", yt)])].
Proof.
  intros H1 H2. cbv zeta.
  cbn [Re.rmatch Strptime.re_year Re.digit flat_map map List.app].
  rewrite H1. cbn [Re.rmatch flat_map map List.app]. rewrite H2. reflexivity.
Qed.

Lemma days_in_month_max (y m : Z) : days_in_month y m <= 31.
Proof.
  unfold days_in_month.
  destruct (m =? 2); [destruct (is_leap y); lia|].
  destruct ((m =? 4) || (m =? 6) || (m =? 9) || (m =? 11)); lia.
Qed.

Lemma valid_date_day_range (y m d : Z) :
  (1 <=? d) && (d <=? 31) = false -> valid_date y m d = false.
Proof.
  intros H. unfold valid_date. pose proof (days_in_month_max y m) as Hmax.
  apply andb_false_iff in H.
  destruct H as [H|H]; [apply Z.leb_gt in H | apply Z.leb_gt in H].
  - replace (1 <=? d) with false by (symmetry; apply Z.leb_gt; lia).
    rewrite andb_false_r. reflexivity.
  - replace (d <=? days_in_month y m) with false
      by (symmetry; apply Z.leb_gt; lia).
    rewrite andb_false_r. reflexivity.
Qed.

Lemma valid_date_month_range (y m d : Z) :
  (1 <=? m) && (m <=? 12) = false -> valid_date y m d = false.
Proof.
  intros H. unfold valid_date.
  destruct (1 <=? y); [|reflexivity]. destruct (y <=? 9999); [|reflexivity].
  simpl. destruct (1 <=? m); simpl in H |- *; [|reflexivity].
  rewrite H. reflexivity.
Qed.

(** [strptime] on a text of two-digit day and month fields and a year
    field of the directive's width: the date of those numbers when there
    is such a date, the ValueError otherwise. *)
Lemma strptime_two_digit_fields (yd : Strptime.year_directive)
  (a b c d : ascii) (yt : string) (dd mm yv : Z) :
  is_digit a = true -> is_digit b = true ->
  is_digit c = true -> is_digit d = true ->
  Re.rmatch (Re.Grp "y" (Strptime.re_year yd)) yt = [(yt, "", [("y", yt)])] ->
  int_of_str (String a (String b "")) = Some dd ->
  int_of_str (String c (String d "")) = Some mm ->
  int_of_str yt = Some yv ->
  Strptime.strptime
    (String a (String b (String "." (String c (String d (String "." yt))))))
    yd
  = if valid_date (Strptime.full_year yd yv) mm dd
    then Ok (mkdate (Strptime.full_year yd yv) mm dd)
    else Error StrptimeError.
Proof.
  intros Ha Hb Hc Hd Hy Hdd Hmm Hyv.
  unfold Strptime.strptime, Re.rematch, Strptime.format_regex.
  rewrite (rmatch_day_field a b _ _ dd Ha Hb Hdd).
  destruct ((1 <=? dd) && (dd <=? 31)) eqn:Rd.
  - rewrite (rmatch_month_field c d _ _ mm Hc Hd Hmm).
    destruct ((1 <=? mm) && (mm <=? 12)) eqn:Rm.
    + rewrite Hy. cbn [map is_empty].
      unfold Strptime.group_int.
      cbn [Re.group String.eqb Ascii.eqb Bool.eqb andb].
      rewrite Hdd, Hmm, Hyv. reflexivity.
    + cbn [map]. rewrite (valid_date_month_range _ mm dd Rm). reflexivity.
  - rewrite (valid_date_day_range _ mm dd Rd). reflexivity.
Qed.

Lemma three_part_token (a b c d e f : ascii) :
  is_digit a = true -> is_digit b = true ->
  is_digit c = true -> is_digit d = true ->
  is_digit e = true -> is_digit f = true ->
  List.length
    (split_on "."
       (String a (String b (String "." (String c (String d
          (String "." (String e (String f "")))))))))
  = 3%nat.
Proof.
  intros Ha Hb Hc Hd He Hf. simpl.
  rewrite (digit_not a "." Ha eq_refl), (digit_not b "." Hb eq_refl),
          (digit_not c "." Hc eq_refl), (digit_not d "." Hd eq_refl),
          (digit_not e "." He eq_refl), (digit_not f "." Hf eq_refl).
  reflexivity.
Qed.

(** [parse_date] on a token DD.MM and a year text of four digits. *)
Lemma parse_date_day_month (a b c d y1 y2 y3 y4 : ascii) (dd mm yv : Z) :
  is_digit a = true -> is_digit b = true ->
  is_digit c = true -> is_digit d = true ->
  is_digit y1 = true -> is_digit y2 = true ->
  is_digit y3 = true -> is_digit y4 = true ->
  int_of_str (String a (String b "")) = Some dd ->
  int_of_str (String c (String d "")) = Some mm ->
  int_of_str (String y1 (String y2 (String y3 (String y4 "")))) = Some yv ->
  parse_date (date_token a b c d)
    (String y1 (String y2 (String y3 (String y4 ""))))
  = if valid_date yv mm dd then Ok (mkdate yv mm dd) else Error StrptimeError.
Proof.
  intros Ha Hb Hc Hd H1 H2 H3 H4 Hdd Hmm Hyv. unfold parse_date.
  rewrite (date_token_two_parts a b c d Ha Hb Hc Hd). cbn [Nat.eqb].
  exact (strptime_two_digit_fields Strptime.Y4 a b c d _ dd mm yv
           Ha Hb Hc Hd (rmatch_year4 y1 y2 y3 y4 H1 H2 H3 H4) Hdd Hmm Hyv).
Qed.

(** [parse_date] on a token DD.MM.YY. *)
Lemma parse_date_day_month_year (a b c d e f : ascii) (y : string)
  (dd mm yv : Z) :
  is_digit a = true -> is_digit b = true ->
  is_digit c = true -> is_digit d = true ->
  is_digit e = true -> is_digit f = true ->
  int_of_str (String a (String b "")) = Some dd ->
  int_of_str (String c (String d "")) = Some mm ->
  int_of_str (String e (String f "")) = Some yv ->
  let yyyy := if yv <=? 68 then 2000 + yv else 1900 + yv in
  parse_date
    (String a (String b (String "." (String c (String d
       (String "." (String e (String f ""))))))))
    y
  = if valid_date yyyy mm dd then Ok (mkdate yyyy mm dd)
    else Error StrptimeError.
Proof.
  intros Ha Hb Hc Hd He Hf Hdd Hmm Hyv. cbv zeta. unfold parse_date.
  rewrite (three_part_token a b c d e f Ha Hb Hc Hd He Hf). cbn [Nat.eqb].
  exact (strptime_two_digit_fields Strptime.Y2 a b c d _ dd mm yv
           Ha Hb Hc Hd (rmatch_year2 e f He Hf) Hdd Hmm Hyv).
Qed.

(** C7: [parse_date] reads a token with exactly three dot-separated
    parts as day.month.two-digit-year, a token with exactly two parts as
    day.month in the given year, and raises the format error on any other
    number of parts.  A token DD.MM.YY gives the date of that day and
    month in the year 1969..2068 that YY names, and a token DD.MM with a
    year text of four digits the date of that day, month and year, when
    there is such a date; when there is none, strptime raises. *)
Theorem parse_date_rule (tok y : string) :
  let parts := split_on "." tok in
  (List.length parts = 3%nat ->
     parse_date tok y = Strptime.strptime tok Strptime.Y2
     /\ forall dt, parse_date tok y = Ok dt ->
          exists p1 p2 p3 yv,
            parts = [p1; p2; p3]
            /\ int_of_str p1 = Some (day dt)
            /\ int_of_str p2 = Some (month dt)
            /\ int_of_str p3 = Some yv /\ 0 <= yv <= 99
            /\ year dt = (if yv <=? 68 then 2000 + yv else 1900 + yv))
  /\ (List.length parts = 2%nat ->
     parse_date tok y = Strptime.strptime (tok ++ "." ++ y) Strptime.Y4
     /\ forall dt, parse_date tok y = Ok dt ->
          exists p1 p2,
            parts = [p1; p2]
            /\ int_of_str p1 = Some (day dt)
            /\ int_of_str p2 = Some (month dt)
            /\ int_of_str y = Some (year dt))
  /\ (List.length parts <> 3%nat -> List.length parts <> 2%nat ->
     parse_date tok y = Error (InvalidDateFormat tok))
  /\ (forall a b c d e f dd mm yv,
        is_digit a = true -> is_digit b = true ->
        is_digit c = true -> is_digit d = true ->
        is_digit e = true -> is_digit f = true ->
        tok = String a (String b (String "." (String c (String d
                (String "." (String e (String f ""))))))) ->
        int_of_str (String a (String b "")) = Some dd ->
        int_of_str (String c (String d "")) = Some mm ->
        int_of_str (String e (String f "")) = Some yv ->
        let yyyy := if yv <=? 68 then 2000 + yv else 1900 + yv in
        parse_date tok y
        = if valid_date yyyy mm dd then Ok (mkdate yyyy mm dd)
          else Error StrptimeError)
  /\ (forall a b c d y1 y2 y3 y4 dd mm yv,
        is_digit a = true -> is_digit b = true ->
        is_digit c = true -> is_digit d = true ->
        is_digit y1 = true -> is_digit y2 = true ->
        is_digit y3 = true -> is_digit y4 = true ->
        tok = date_token a b c d ->
        y = String y1 (String y2 (String y3 (String y4 ""))) ->
        int_of_str (String a (String b "")) = Some dd ->
        int_of_str (String c (String d "")) = Some mm ->
        int_of_str y = Some yv ->
        parse_date tok y
        = if valid_date yv mm dd then Ok (mkdate yv mm dd)
          else Error StrptimeError).
Proof.
  cbv zeta. split; [|split; [|split; [|split]]].
  - intros Hlen.
    assert (E : parse_date tok y = Strptime.strptime tok Strptime.Y2).
    { unfold parse_date. rewrite Hlen. reflexivity. }
    split; [exact E|]. intros dt Hdt. rewrite E in Hdt.
    destruct (strptime_fields _ _ _ Hdt)
      as [md [mm [my [yv [Hs [Hd [Hm [Hy [Hyr [Hr _]]]]]]]]]].
    exists md, mm, my, yv. repeat split; try assumption; apply Hr; reflexivity.
  - intros Hlen.
    assert (E : parse_date tok y
                = Strptime.strptime (tok ++ "." ++ y) Strptime.Y4).
    { unfold parse_date. rewrite Hlen. reflexivity. }
    split; [exact E|]. intros dt Hdt.
    exact (parse_date_two_parts tok y dt Hlen Hdt).
  - intros H3 H2. unfold parse_date.
    apply Nat.eqb_neq in H3, H2. rewrite H3, H2. reflexivity.
  - intros a b c d e f dd mm yv Ha Hb Hc Hd He Hf Htok Hdd Hmm Hyv. subst tok.
    exact (parse_date_day_month_year a b c d e f y dd mm yv
             Ha Hb Hc Hd He Hf Hdd Hmm Hyv).
  - intros a b c d y1 y2 y3 y4 dd mm yv Ha Hb Hc Hd H1 H2 H3 H4 Htok Hy
      Hdd Hmm Hyv.
    subst tok y.
    exact (parse_date_day_month a b c d y1 y2 y3 y4 dd mm yv
             Ha Hb Hc Hd H1 H2 H3 H4 Hdd Hmm Hyv).
Qed.

Lemma parse_date_rule_witness :
  parse_date "03.03" "2025" = Ok (mkdate 2025 3 3)
  /\ parse_date "03.03.25" "2031" = Ok (mkdate 2025 3 3)
  /\ parse_date "31.04" "2025" = Error StrptimeError.
Proof.
  split; [|split].
  - exact (proj2 (proj2 (proj2 (proj2 (parse_date_rule "03.03" "2025"))))
             "0" "3" "0" "3" "2" "0" "2" "5" 3 3 2025
             eq_refl eq_refl eq_refl eq_refl eq_refl eq_refl eq_refl eq_refl
             eq_refl eq_refl eq_refl eq_refl eq_refl)%char.
  - exact (proj1 (proj2 (proj2 (proj2 (parse_date_rule "03.03.25" "2031"))))
             "0" "3" "0" "3" "2" "5" 3 3 25
             eq_refl eq_refl eq_refl eq_refl eq_refl eq_refl
             eq_refl eq_refl eq_refl eq_refl)%char.
  - exact (proj2 (proj2 (proj2 (proj2 (parse_date_rule "31.04" "2025"))))
             "3" "1" "0" "4" "2" "0" "2" "5" 31 4 2025
             eq_refl eq_refl eq_refl eq_refl eq_refl eq_refl eq_refl eq_refl
             eq_refl eq_refl eq_refl eq_refl eq_refl)%char.
Defined.

(** ** The reporting year *)

(** Where the metadata cell can be looked up, the year follows the
    fallback chain: the cell, else the file name, else the default. *)
Lemma resolve_year_chain (default_year name : string) (df : DataFrame) :
  rectangular df ->
  (shape1 df <= 11 \/ 3 <= List.length df)%nat ->
  resolve_year default_year name df
  = Ok (year_by_fallback_chain default_year name df).
Proof.
  intros Hrect Hsize. unfold resolve_year, year_by_fallback_chain.
  destruct (Nat.ltb 11 (shape1 df)) eqn:Hw.
  - apply Nat.ltb_lt in Hw.
    destruct Hsize as [Hs|Hs]; [lia|].
    unfold iloc.
    destruct (nth_error df 2) as [r|] eqn:Er.
    + assert (Hlen : List.length r = shape1 df).
      { apply nth_error_In in Er.
        exact (proj1 (Forall_forall _ _) Hrect r Er). }
      destruct (nth_error r 11) as [c|] eqn:Ec.
      * simpl. destruct (isna c); simpl; [reflexivity|].
        destruct (int_of_cell c); reflexivity.
      * apply nth_error_None in Ec. lia.
    + apply nth_error_None in Er. lia.
  - apply Nat.ltb_ge in Hw. unfold iloc.
    destruct (nth_error df 2) as [r|] eqn:Er; [|reflexivity].
    assert (Hlen : List.length r = shape1 df).
    { apply nth_error_In in Er.
      exact (proj1 (Forall_forall _ _) Hrect r Er). }
    destruct (nth_error r 11) as [c|] eqn:Ec; [|reflexivity].
    assert (11 < List.length r)%nat.
    { apply nth_error_Some. rewrite Ec. discriminate. }
    lia.
Qed.

(** C4 (where the code departs from it): on a sheet with more than 11
    columns and fewer than 3 rows the year lookup raises IndexError
    instead of falling back to the file name or the default year, and the
    whole conversion fails with it. *)
Theorem year_lookup_raises_on_short_sheet :
  rectangular short_sheet
  /\ shape1 short_sheet = 12%nat /\ List.length short_sheet = 2%nat
  /\ year_by_fallback_chain "2025" sample_name short_sheet = "2025"
  /\ resolve_year "2025" sample_name short_sheet = Error IndexError
  /\ (forall B : Builtins,
        @convert_excel_to_markdown B "2025" sample_name short_sheet
        = Error IndexError).
Proof.
  split; [repeat constructor|].
  repeat split; vm_compute; reflexivity.
Qed.

(** ** The first line of the document *)

Lemma is_empty_app (a b : string) :
  is_empty b = false -> is_empty (a ++ b) = false.
Proof.
  intros H. destruct a; [exact H | reflexivity].
Qed.

Lemma rstrip_app (a b : string) :
  rstrip (a ++ b) = if is_empty (rstrip b) then rstrip a else (a ++ rstrip b)%string.
Proof.
  induction a as [|c a IH]; simpl.
  - destruct (rstrip b); reflexivity.
  - rewrite IH. destruct (is_empty (rstrip b)) eqn:E; [reflexivity|].
    rewrite (is_empty_app a _ E). reflexivity.
Qed.

Lemma first_line_app (a b : string) :
  Re.all_chars (Re.other_than "010") a = true ->
  first_line (a ++ String "010" b) = a.
Proof.
  induction a as [|c a IH]; simpl; [reflexivity|].
  intros H. apply andb_true_iff in H. destruct H as [Hc Ha].
  unfold Re.other_than in Hc. apply negb_true_iff in Hc.
  rewrite Hc, (IH Ha). reflexivity.
Qed.

Lemma first_line_whole (a : string) :
  Re.all_chars (Re.other_than "010") a = true -> first_line a = a.
Proof.
  induction a as [|c a IH]; simpl; [reflexivity|].
  intros H. apply andb_true_iff in H. destruct H as [Hc Ha].
  unfold Re.other_than in Hc. apply negb_true_iff in Hc.
  rewrite Hc, (IH Ha). reflexivity.
Qed.

(** The first line of the stripped, joined lines is the first of them,
    when that one holds no line break and no white space at its ends. *)
Lemma first_line_of_document (title : string) (rest : list string) :
  Re.all_chars (Re.other_than "010") title = true ->
  lstrip title = title -> rstrip title = title -> title <> "" ->
  first_line (strip (join nl (title :: rest))) = title.
Proof.
  intros Hnl Hl Hr Hne.
  assert (Hlapp : forall x, lstrip (title ++ x) = (title ++ x)%string).
  { intros x. destruct title as [|c t]; [contradiction|].
    simpl in *. destruct (is_space c); [|reflexivity].
    exfalso. clear - Hl.
    assert (Hlen : forall s, (String.length (lstrip s) <= String.length s)%nat).
    { induction s as [|y s IH]; simpl; [lia|].
      destruct (is_space y); simpl; lia. }
    pose proof (Hlen t) as Ht. rewrite Hl in Ht. simpl in Ht. lia. }
  unfold strip, join. destruct rest as [|l rest'].
  - simpl. rewrite Hl, Hr. apply first_line_whole. exact Hnl.
  - change (String.concat nl (title :: l :: rest'))
      with (title ++ String "010" (String.concat nl (l :: rest')))%string.
    rewrite Hlapp, rstrip_app.
    destruct (is_empty (rstrip (String "010" (String.concat nl (l :: rest')))))
      eqn:E.
    + rewrite Hr. apply first_line_whole. exact Hnl.
    + cbn [rstrip] in E |- *.
      destruct (is_empty (rstrip (String.concat nl (l :: rest'))));
        simpl in E |- *.
      * discriminate E.
      * apply first_line_app. exact Hnl.
Qed.

(** Under no year override the sample file name resolves with the
    default year. *)
Lemma resolve_year_default (name default_year : string) (df : DataFrame) :
  no_year_override df = true ->
  contains ".24" name = false ->
  resolve_year default_year name df = Ok default_year.
Proof.
  intros Hno H24. unfold resolve_year, no_year_override in *. rewrite H24.
  destruct (Nat.ltb 11 (shape1 df)); [|reflexivity]. simpl in Hno.
  destruct (iloc df 2 11) as [c|e]; [|discriminate Hno]. simpl.
  destruct (isna c); [reflexivity|]. simpl in *.
  destruct (int_of_cell c); [discriminate Hno | reflexivity].
Qed.

Section EndToEnd.
Context {B : Builtins}.

Lemma build_lines_head (df : DataFrame) (actual_year : string) (iso_week : Z)
  (start_dt end_dt : datetime) (st : State) :
  build_lines df actual_year iso_week start_dt end_dt = Ok st ->
  exists rest,
    md_lines st
    = ("# KW" ++ fmt_02d iso_week ++ " - Ausbildungsnachweis ("
         ++ strftime_dmY start_dt ++ " - " ++ strftime_dmY end_dt ++ ")")%string
      :: rest.
Proof.
  unfold build_lines. intros H.
  apply bind_ok_inv in H. destruct H as [name [_ H]].
  apply bind_ok_inv in H. destruct H as [course [_ H]].
  destruct (run_rows_sections _ _ _ H) as [new [_ [Hmd _]]].
  rewrite Hmd. unfold init_state, header_lines. simpl. eexists. reflexivity.
Qed.

(** Header cells that exist and hours cells that are empty or hold what
    flush_day can write are all the conversion of the sheet needs. *)
Lemma build_lines_total (df : DataFrame) (actual_year : string) (iso_week : Z)
  (start_dt end_dt : datetime) :
  (shape1 df <= 7 \/ exists c0 c1, iloc df 0 7 = Ok c0 /\ iloc df 1 7 = Ok c1)%nat ->
  Forall (fun row => writable_hours (cell_at row 11) = true) df ->
  exists st, build_lines df actual_year iso_week start_dt end_dt = Ok st.
Proof.
  intros Hhead Hrows. unfold build_lines.
  assert (Hf : forall i d, (i = 0 \/ i = 1)%nat ->
                 exists v, header_field df i d = Ok v).
  { intros i d Hi. unfold header_field.
    destruct (Nat.ltb 7 (shape1 df)) eqn:Hw.
    - apply Nat.ltb_lt in Hw. destruct Hhead as [Hs|[c0 [c1 [H0 H1]]]]; [lia|].
      destruct Hi; subst i; [rewrite H0 | rewrite H1]; simpl; eexists; reflexivity.
    - simpl. eexists. reflexivity. }
  destruct (Hf 0%nat default_name) as [n Hn]; [left; reflexivity|].
  destruct (Hf 1%nat default_course) as [c Hc]; [right; reflexivity|].
  rewrite Hn, Hc. cbn [bind].
  apply run_rows_total; [reflexivity|].
  clear - Hrows. revert Hrows. generalize (data_start_row df) as k.
  induction df as [|r df IH]; intros k Hrows.
  - destruct k; constructor.
  - destruct k; [exact Hrows|]. simpl. inversion Hrows. apply IH. assumption.
Qed.

(** C5: for the file name AusbildungsnachweisU27_03.03-07.03.xlsx, the
    default year 2025 and a sheet without a year override, the resolver
    gives 2025-03-03 to 2025-03-07, ISO week 10 of ISO year 2025; the
    conversion returns the file name
    2025-KW10-Ausbildungsnachweis-03.03-07.03.md and a document whose
    first line is the title with week and both dates.  The conversion
    completes whenever the header cells exist and every hours cell is
    empty, unparsable or finite; otherwise it raises what the sheet
    makes it raise. *)
Theorem sample_file_end_to_end (df : DataFrame) :
  no_year_override df = true ->
  resolve_dates "2025" sample_name df
  = Ok ("2025", mkdate 2025 3 3, mkdate 2025 3 7)
  /\ isocalendar (mkdate 2025 3 3) = (2025, 10, 1)
  /\ match build_lines df "2025" 10 (mkdate 2025 3 3) (mkdate 2025 3 7) with
     | Ok _ =>
         exists content,
           convert_excel_to_markdown "2025" sample_name df
           = Ok ("2025-KW10-Ausbildungsnachweis-03.03-07.03.md", content)
           /\ first_line content
              = "# KW10 - Ausbildungsnachweis (03.03.2025 - 07.03.2025)"
     | Error e => convert_excel_to_markdown "2025" sample_name df = Error e
     end
  /\ ((shape1 df <= 7
       \/ exists c0 c1, iloc df 0 7 = Ok c0 /\ iloc df 1 7 = Ok c1)%nat ->
      Forall (fun row => writable_hours (cell_at row 11) = true) df ->
      exists st,
        build_lines df "2025" 10 (mkdate 2025 3 3) (mkdate 2025 3 7) = Ok st).
Proof.
  intros Hno.
  assert (Hres : resolve_dates "2025" sample_name df
                 = Ok ("2025", mkdate 2025 3 3, mkdate 2025 3 7)).
  { unfold resolve_dates.
    replace (parse_dates_from_filename sample_name)
      with (Some ("03.03", "07.03", "AusbildungsnachweisU27_03.03-07.03"))
      by (vm_compute; reflexivity).
    cbn [is_empty].
    rewrite (resolve_year_default sample_name "2025" df Hno eq_refl).
    cbn [bind].
    replace (date_range "03.03" "07.03" "2025")
      with (Ok (mkdate 2025 3 3, mkdate 2025 3 7))
      by (vm_compute; reflexivity).
    reflexivity. }
  assert (Hiso : isocalendar (mkdate 2025 3 3) = (2025, 10, 1))
    by (vm_compute; reflexivity).
  split; [exact Hres|]. split; [exact Hiso|].
  split; [|apply build_lines_total].
  unfold convert_excel_to_markdown. rewrite Hres. cbn [bind]. rewrite Hiso.
  destruct (build_lines df "2025" 10 (mkdate 2025 3 3) (mkdate 2025 3 7))
    as [st|e] eqn:Eb; [|reflexivity].
  cbn [bind]. exists (strip (join nl (md_lines st))). split.
  - vm_compute out_filename. reflexivity.
  - destruct (build_lines_head _ _ _ _ _ _ Eb) as [rest Hmd]. rewrite Hmd.
    replace ("# KW" ++ fmt_02d 10 ++ " - Ausbildungsnachweis ("
               ++ strftime_dmY (mkdate 2025 3 3) ++ " - "
               ++ strftime_dmY (mkdate 2025 3 7) ++ ")")%string
      with "# KW10 - Ausbildungsnachweis (03.03.2025 - 07.03.2025)"
      by (vm_compute; reflexivity).
    apply first_line_of_document; try (vm_compute; reflexivity).
    discriminate.
Qed.

End EndToEnd.

Lemma sample_file_end_to_end_witness :
  no_year_override sample_sheet = true
  /\ exists content,
       @convert_excel_to_markdown sample_builtins "2025" sample_name sample_sheet
       = Ok ("2025-KW10-Ausbildungsnachweis-03.03-07.03.md", content)
       /\ first_line content
          = "# KW10 - Ausbildungsnachweis (03.03.2025 - 07.03.2025)".
Proof.
  split; [reflexivity|].
  pose proof (proj1 (proj2 (proj2 (@sample_file_end_to_end sample_builtins
                                      sample_sheet eq_refl)))) as H.
  destruct (@build_lines sample_builtins sample_sheet "2025" 10
              (mkdate 2025 3 3) (mkdate 2025 3 7)) as [st|e] eqn:E.
  - exact H.
  - vm_compute in E. discriminate E.
Defined.

(* ================================================================== *)
(** * Further properties: text cleaning *)

(** A word: not empty and free of white space. *)
Lemma split_ws_words (s : string) :
  Forall (fun w => w <> "" /\ Re.all_chars (fun c => negb (is_space c)) w = true)
    (split_ws s).
Proof.
  induction s as [|c s IH]; simpl; [constructor|].
  destruct (is_space c) eqn:Hc; [exact IH|].
  destruct s as [|c' s'].
  - constructor; [|constructor]. split; [discriminate|]. simpl. rewrite Hc. reflexivity.
  - destruct (is_space c') eqn:Hc'.
    + constructor; [|exact IH]. split; [discriminate|]. simpl. rewrite Hc. reflexivity.
    + destruct (split_ws (String c' s')) as [|w ws] eqn:E.
      * constructor; [|constructor]. split; [discriminate|].
        simpl. rewrite Hc. reflexivity.
      * inversion IH as [|x l [Hw1 Hw2] Hrest]; subst.
        constructor; [|exact Hrest]. split; [discriminate|].
        simpl. rewrite Hc. exact Hw2.
Qed.

Lemma split_ws_cons2 (c c' : ascii) (s : string) :
  is_space c = false -> is_space c' = false ->
  split_ws (String c (String c' s))
  = match split_ws (String c' s) with
    | w :: ws => String c w :: ws
    | [] => [String c ""]
    end.
Proof.
  intros Hc Hc'. simpl. rewrite Hc, Hc'. reflexivity.
Qed.

Lemma split_ws_word_then_space (w t : string) :
  w <> "" -> Re.all_chars (fun c => negb (is_space c)) w = true ->
  split_ws (w ++ String " " t) = w :: split_ws t.
Proof.
  induction w as [|c w IH]; intros Hne Hall; [contradiction|].
  simpl in Hall. apply andb_true_iff in Hall. destruct Hall as [Hc Hw].
  apply negb_true_iff in Hc.
  destruct w as [|c' w'].
  - simpl. rewrite Hc. reflexivity.
  - assert (Hc' : is_space c' = false).
    { simpl in Hw. apply andb_true_iff in Hw. destruct Hw as [Hw _].
      apply negb_true_iff. exact Hw. }
    change ((String c (String c' w') ++ String " " t)%string)
      with (String c (String c' (w' ++ String " " t))).
    rewrite (split_ws_cons2 c c' _ Hc Hc').
    change (String c' (w' ++ String " " t))
      with ((String c' w' ++ String " " t)%string).
    rewrite (IH ltac:(discriminate) Hw). reflexivity.
Qed.

Lemma split_ws_one_word (w : string) :
  w <> "" -> Re.all_chars (fun c => negb (is_space c)) w = true ->
  split_ws w = [w].
Proof.
  induction w as [|c w IH]; intros Hne Hall; [contradiction|].
  simpl in Hall. apply andb_true_iff in Hall. destruct Hall as [Hc Hw].
  apply negb_true_iff in Hc.
  destruct w as [|c' w'].
  - simpl. rewrite Hc. reflexivity.
  - assert (Hc' : is_space c' = false).
    { simpl in Hw. apply andb_true_iff in Hw. destruct Hw as [Hw _].
      apply negb_true_iff. exact Hw. }
    rewrite (split_ws_cons2 c c' _ Hc Hc').
    rewrite (IH ltac:(discriminate) Hw). reflexivity.
Qed.

Lemma split_ws_join (ws : list string) :
  Forall (fun w => w <> "" /\ Re.all_chars (fun c => negb (is_space c)) w = true) ws ->
  split_ws (join " " ws) = ws.
Proof.
  unfold join. induction 1 as [|w ws [Hne Hall] Hrest IH]; [reflexivity|].
  destruct ws as [|w' ws'].
  - simpl. apply split_ws_one_word; assumption.
  - change (String.concat " " (w :: w' :: ws'))
      with (w ++ String " " (String.concat " " (w' :: ws')))%string.
    rewrite (split_ws_word_then_space w _ Hne Hall), IH. reflexivity.
Qed.

Lemma rstrip_word (w : string) :
  Re.all_chars (fun c => negb (is_space c)) w = true -> rstrip w = w.
Proof.
  induction w as [|c w IH]; simpl; [reflexivity|].
  intros H. apply andb_true_iff in H. destruct H as [Hc Hw].
  apply negb_true_iff in Hc. rewrite (IH Hw), Hc, andb_false_r. reflexivity.
Qed.

Lemma strip_join (ws : list string) :
  Forall (fun w => w <> "" /\ Re.all_chars (fun c => negb (is_space c)) w = true) ws ->
  strip (join " " ws) = join " " ws.
Proof.
  intros Hall. unfold strip.
  assert (Hl : lstrip (join " " ws) = join " " ws).
  { unfold join. destruct Hall as [|w ws [Hne Hw] Hrest]; [reflexivity|].
    destruct w as [|c w]; [contradiction|].
    simpl in Hw. apply andb_true_iff in Hw. destruct Hw as [Hc _].
    apply negb_true_iff in Hc.
    destruct ws; simpl; rewrite Hc; reflexivity. }
  rewrite Hl. clear Hl. unfold join.
  induction Hall as [|w ws [Hne Hw] Hrest IH]; [reflexivity|].
  destruct ws as [|w' ws'].
  - simpl. apply rstrip_word. exact Hw.
  - change (String.concat " " (w :: w' :: ws'))
      with (w ++ String " " (String.concat " " (w' :: ws')))%string.
    assert (IH' := IH).
    assert (Hne' : is_empty (String.concat " " (w' :: ws')) = false).
    { inversion Hrest as [|x l [Hx _] _]; subst.
      destruct w' as [|c' w'']; [contradiction|]. destruct ws'; reflexivity. }
    rewrite rstrip_app. cbn [rstrip]. rewrite IH', Hne'. reflexivity.
Qed.

Lemma split_ws_lstrip (s : string) : split_ws (lstrip s) = split_ws s.
Proof.
  induction s as [|c s IH]; [reflexivity|].
  cbn [lstrip]. destruct (is_space c) eqn:Hc; [|reflexivity].
  rewrite IH. simpl. rewrite Hc. reflexivity.
Qed.

(** How [split_ws] goes on after a character that is no white space. *)
Lemma split_ws_after_char (c : ascii) (x : string) :
  is_space c = false ->
  split_ws (String c x)
  = match x with
    | String c' _ =>
        if is_space c' then String c "" :: split_ws x
        else match split_ws x with
             | w :: ws => String c w :: ws
             | [] => [String c ""]
             end
    | EmptyString => [String c ""]
    end.
Proof. intros Hc. simpl. rewrite Hc. reflexivity. Qed.

Lemma split_ws_rstrip (s : string) : split_ws (rstrip s) = split_ws s.
Proof.
  induction s as [|c s IH]; [reflexivity|].
  cbn [rstrip]. destruct (is_space c) eqn:Hc.
  - destruct (is_empty (rstrip s)) eqn:Er; simpl.
    + rewrite Hc, <- IH. destruct (rstrip s); [reflexivity | discriminate Er].
    + rewrite Hc. exact IH.
  - rewrite andb_false_r.
    rewrite (split_ws_after_char c (rstrip s) Hc), (split_ws_after_char c s Hc).
    rewrite IH.
    destruct s as [|c' s']; [reflexivity|].
    cbn [rstrip] in *.
    destruct (is_space c') eqn:Hc'.
    + destruct (is_empty (rstrip s') && true)%bool.
      * simpl in IH. simpl. rewrite Hc' in *. rewrite <- IH. reflexivity.
      * rewrite Hc'. reflexivity.
    + rewrite andb_false_r, Hc'. reflexivity.
Qed.

Lemma join_words_chars (ws : list string) :
  Forall (fun w => w <> "" /\ Re.all_chars (fun c => negb (is_space c)) w = true) ws ->
  Re.all_chars (fun c => negb (is_space c) || Ascii.eqb c " ") (join " " ws) = true.
Proof.
  assert (Hw : forall w t,
            Re.all_chars (fun c => negb (is_space c)) w = true ->
            Re.all_chars (fun c => negb (is_space c) || Ascii.eqb c " ") t = true ->
            Re.all_chars (fun c => negb (is_space c) || Ascii.eqb c " ") (w ++ t)
            = true).
  { induction w as [|c w IHw]; intros t Hw Ht; [exact Ht|].
    simpl in Hw |- *. apply andb_true_iff in Hw. destruct Hw as [Hc Hw].
    rewrite Hc. simpl. exact (IHw t Hw Ht). }
  unfold join. induction 1 as [|w ws [_ Hall] Hrest IH]; [reflexivity|].
  destruct ws as [|w' ws'].
  - simpl. rewrite <- (append_empty_r w). apply Hw; [exact Hall | reflexivity].
  - change (String.concat " " (w :: w' :: ws'))
      with (w ++ String " " (String.concat " " (w' :: ws')))%string.
    apply Hw; [exact Hall|]. simpl. exact IH.
Qed.

Lemma rstrip_rstrip (s : string) : rstrip (rstrip s) = rstrip s.
Proof.
  induction s as [|c s IH]; [reflexivity|].
  cbn [rstrip].
  destruct (is_empty (rstrip s) && is_space c)%bool eqn:E; [reflexivity|].
  cbn [rstrip]. rewrite IH, E. reflexivity.
Qed.

Lemma lstrip_rstrip_lstrip (s : string) :
  lstrip (rstrip (lstrip s)) = rstrip (lstrip s).
Proof.
  induction s as [|c s IH]; [reflexivity|].
  cbn [lstrip]. destruct (is_space c) eqn:Hc; [exact IH|].
  cbn [rstrip]. rewrite Hc, andb_false_r. cbn [lstrip]. rewrite Hc. reflexivity.
Qed.

Lemma strip_strip (s : string) : strip (strip s) = strip s.
Proof.
  unfold strip. rewrite lstrip_rstrip_lstrip. apply rstrip_rstrip.
Qed.

Section TextCleaning.
Context {B : Builtins}.

(** X1: cleaning keeps the words of the text, in order, and leaves no
    white space but single blanks between them: no line break, no tab, no
    blank at either end. *)
Theorem clean_text_keeps_words (c : Cell) :
  isna c = false ->
  split_ws (clean_text c) = split_ws (str_of_cell c)
  /\ clean_text c = join " " (split_ws (str_of_cell c))
  /\ Re.all_chars (fun ch => negb (is_space ch) || Ascii.eqb ch " ")
       (clean_text c) = true
  /\ strip (clean_text c) = clean_text c.
Proof.
  intros Hn. unfold clean_text. rewrite Hn.
  assert (E : split_ws (strip (str_of_cell c)) = split_ws (str_of_cell c)).
  { unfold strip. rewrite split_ws_rstrip. apply split_ws_lstrip. }
  pose proof (split_ws_words (strip (str_of_cell c))) as Hw.
  split; [rewrite (split_ws_join _ Hw); exact E|].
  split; [rewrite E; reflexivity|].
  split; [exact (join_words_chars _ Hw) | exact (strip_join _ Hw)].
Qed.

(** X2: the document returned has no white space at its ends: the blank
    line that every section ends with is stripped from the last one. *)
Theorem document_is_stripped (default_year name : string) (df : DataFrame)
  (fn content : string) :
  convert_excel_to_markdown default_year name df = Ok (fn, content) ->
  strip content = content.
Proof.
  unfold convert_excel_to_markdown. intros H.
  apply bind_ok_inv in H. destruct H as [[[y s] e] [_ H]].
  destruct (isocalendar s) as [[iy w] wd].
  apply bind_ok_inv in H. destruct H as [st [_ H]].
  inversion H. apply strip_strip.
Qed.

(** X3: cleaning is idempotent: a cleaned text put back into a cell
    cleans to itself. *)
Theorem clean_text_idempotent (c : Cell) :
  clean_text (Str (clean_text c)) = clean_text c.
Proof.
  unfold clean_text at 1. cbn [isna str_of_cell].
  unfold clean_text. destruct (isna c); [reflexivity|].
  set (ws := split_ws (strip (str_of_cell c))).
  pose proof (split_ws_words (strip (str_of_cell c))) as Hw. fold ws in Hw.
  rewrite (strip_join ws Hw), (split_ws_join ws Hw). reflexivity.
Qed.

End TextCleaning.

Lemma clean_text_keeps_words_witness :
  isna (Str "  Write   report ") = false
  /\ @clean_text sample_builtins (Str "  Write   report ") = "Write report".
Proof.
  split; [reflexivity|].
  rewrite (proj1 (proj2 (@clean_text_keeps_words sample_builtins
                           (Str "  Write   report ") eq_refl))).
  reflexivity.
Defined.

Lemma document_is_stripped_witness :
  (exists content,
     @convert_excel_to_markdown sample_builtins "2025" sample_name sample_sheet
     = Ok ("2025-KW10-Ausbildungsnachweis-03.03-07.03.md", content)
     /\ strip content = content).
Proof.
  destruct (@convert_excel_to_markdown sample_builtins "2025" sample_name
              sample_sheet) as [[fn content]|e] eqn:E.
  - exists content.
    pose proof (@document_is_stripped sample_builtins _ _ _ _ _ E) as Hs.
    vm_compute in E. inversion E. subst.
    split; [reflexivity | exact Hs].
  - vm_compute in E. discriminate E.
Defined.

(* ================================================================== *)
(** * Further properties: the row state machine *)

Lemma subseq_nil_l {A : Type} (l : list A) : subseq [] l.
Proof. induction l; [apply subseq_nil | apply subseq_skip; assumption]. Qed.

Lemma subseq_refl {A : Type} (l : list A) : subseq l l.
Proof. induction l; [apply subseq_nil | apply subseq_take; assumption]. Qed.

Lemma subseq_app {A : Type} (a b c d : list A) :
  subseq a b -> subseq c d -> subseq (a +++ c) (b +++ d).
Proof.
  intros H. induction H; simpl; intros Hc;
    [exact Hc | apply subseq_skip; auto | apply subseq_take; auto].
Qed.

Lemma subseq_length {A : Type} (a b : list A) :
  subseq a b -> (List.length a <= List.length b)%nat.
Proof. intros H. induction H; simpl; lia. Qed.

Lemma subseq_In {A : Type} (a b : list A) (x : A) :
  subseq a b -> In x a -> In x b.
Proof.
  intros H. induction H; simpl; intros Hin; [exact Hin | right; auto|].
  destruct Hin as [Hx|Hx]; [left; exact Hx | right; auto].
Qed.

Section MoreAggregator.
Context {B : Builtins}.

(** ** Rows after an hours row *)

(** X4: once an hours cell has closed a day, every row up to the next
    date row is ignored, whatever it holds. *)
Theorem rows_after_hours_row_ignored (st : State) (hrow : Row)
  (junk rest : list Row) (d : datetime) :
  current_date st = Some d ->
  is_timestamp (cell_at hrow 1) = false ->
  notna (cell_at hrow 11) = true ->
  Forall (fun r => is_timestamp (cell_at r 1) = false) junk ->
  result_map output (run_rows st (hrow :: junk +++ rest))
  = result_map output (run_rows st (hrow :: rest)).
Proof.
  intros Hd Hts Hh Hjunk. unfold run_rows. simpl.
  rewrite (process_row_other st hrow Hts). cbv zeta.
  destruct (add_activity_fields st (cell_at hrow 2)) as [F1 _].
  rewrite F1, Hd, Hh.
  destruct (flush_day (set_hours (add_activity st (cell_at hrow 2))
                         (cell_at hrow 11))) as [s|e]; [|reflexivity].
  cbn [bind].
  destruct (scan_rows_before_first_date junk (open_day None s) eq_refl Hjunk)
    as [s' [Hs [Hc Ho]]].
  rewrite scan_rows_app, Hs. cbn [bind].
  exact (idle_buffer_irrelevant rest s' (open_day None s) Hc eq_refl Ho).
Qed.

(** ** Hours are written only by the row that holds them *)

Lemma process_row_pending (st st' : State) (row : Row) :
  pending_hours st = None -> process_row st row = Ok st' ->
  pending_hours st' = None.
Proof.
  intros Hp H.
  destruct (is_timestamp (cell_at row 1)) eqn:Hts.
  - destruct (cell_at row 1) as [| |d| | |] eqn:Hc; try discriminate Hts.
    rewrite (process_row_date st row d Hc) in H.
    apply bind_ok_inv in H. destruct H as [s [_ H]]. inversion H. reflexivity.
  - rewrite (process_row_other st row Hts) in H. cbv zeta in H.
    destruct (add_activity_fields st (cell_at row 2)) as [_ [F2 _]].
    destruct (current_date (add_activity st (cell_at row 2))).
    + destruct (notna (cell_at row 11)).
      * apply bind_ok_inv in H. destruct H as [s [_ H]]. inversion H. reflexivity.
      * inversion H. subst st'. rewrite F2. exact Hp.
    + inversion H. subst st'. rewrite F2. exact Hp.
Qed.

Lemma scan_rows_pending (rows : list Row) (st st' : State) :
  pending_hours st = None -> scan_rows st rows = Ok st' ->
  pending_hours st' = None.
Proof.
  revert st. induction rows as [|row rows IH]; intros st Hp H; simpl in H.
  - inversion H. subst st'. exact Hp.
  - apply bind_ok_inv in H. destruct H as [s [Hs H]].
    exact (IH s (process_row_pending st s row Hp Hs) H).
Qed.

(** X5: between rows no hours are pending, so a day that is closed by the
    next date row or by the end of the sheet is written without hours and
    without an hours line; only an hours cell in the closing row itself
    puts hours on a day. *)
Theorem hours_only_from_closing_row (lines : list string) (rows : list Row)
  (st : State) :
  scan_rows (init_state lines) rows = Ok st ->
  pending_hours st = None
  /\ (exists st', flush_day st = Ok st')
  /\ (forall st', flush_day st = Ok st' ->
        st' = st
        \/ exists d, current_date st = Some d
             /\ emitted st' = emitted st +++ [mkrecord d (daily_activities st) None]
             /\ md_lines st'
                = md_lines st
                  +++ ["## " ++ strftime_dmY d; ""]
                  +++ map (fun a => "- " ++ a) (daily_activities st)
                  +++ [""])
  /\ (forall drow d st', cell_at drow 1 = Timestamp d ->
        process_row st drow = Ok st' ->
        Forall (fun r => rec_hours r = None)
          (skipn (List.length (emitted st)) (emitted st'))).
Proof.
  intros Hscan.
  pose proof (scan_rows_pending rows (init_state lines) st eq_refl Hscan) as Hp.
  assert (Hfl : forall st', flush_day st = Ok st' ->
            st' = st
            \/ exists d, current_date st = Some d
                 /\ emitted st' = emitted st +++ [mkrecord d (daily_activities st) None]
                 /\ md_lines st'
                    = md_lines st
                      +++ ["## " ++ strftime_dmY d; ""]
                      +++ map (fun a => "- " ++ a) (daily_activities st)
                      +++ [""]).
  { intros st' H. apply flush_day_inv in H.
    destruct H as [[H _]|[d [Hd [_ H]]]]; [left; exact H|].
    right. exists d. split; [exact Hd|]. subst st'.
    unfold flushed, section_lines. simpl. rewrite Hp. simpl.
    split; reflexivity. }
  split; [exact Hp|]. split; [|split; [exact Hfl|]].
  - destruct (current_date st) as [d|] eqn:Hd.
    + destruct (daily_activities st) as [|a l] eqn:Ha.
      * exists st. apply flush_day_no_activity. exact Ha.
      * exists (flushed st d). apply flush_day_emit;
          [exact Hd | rewrite Ha; discriminate | rewrite Hp; reflexivity].
    + exists st. apply flush_day_idle. exact Hd.
  - intros drow d st' Hc H. rewrite (process_row_date st drow d Hc) in H.
    apply bind_ok_inv in H. destruct H as [s [Hs H]]. inversion H. subst st'.
    simpl. destruct (Hfl s Hs) as [E|[d' [_ [E _]]]].
    + subst s. rewrite skipn_all. constructor.
    + rewrite E, skipn_app, skipn_all, Nat.sub_diag. simpl.
      constructor; [reflexivity | constructor].
Qed.

(** ** The activities written *)

Lemma add_activity_clean (st : State) (c : Cell) :
  Forall (fun a => a <> "" /\ join " " (split_ws a) = a) (daily_activities st) ->
  Forall (fun a => a <> "" /\ join " " (split_ws a) = a)
    (daily_activities (add_activity st c)).
Proof.
  intros H. unfold add_activity. destruct (notna c) eqn:Hn; [|exact H].
  destruct (clean_text c) as [|x t] eqn:E; simpl; [exact H|].
  apply Forall_app. split; [exact H|]. constructor; [|constructor].
  split; [discriminate|]. rewrite <- E. unfold clean_text.
  destruct (isna c); [reflexivity|].
  rewrite (split_ws_join _ (split_ws_words _)). reflexivity.
Qed.

Lemma flush_day_clean (st st' : State) :
  flush_day st = Ok st' ->
  Forall (fun a => a <> "" /\ join " " (split_ws a) = a) (daily_activities st) ->
  Forall (fun r => Forall (fun a => a <> "" /\ join " " (split_ws a) = a)
                     (rec_activities r)) (emitted st) ->
  Forall (fun r => Forall (fun a => a <> "" /\ join " " (split_ws a) = a)
                     (rec_activities r)) (emitted st').
Proof.
  intros H Ha He. apply flush_day_inv in H.
  destruct H as [[H _]|[d [_ [_ H]]]]; subst st'; [exact He|].
  simpl. apply Forall_app. split; [exact He|].
  constructor; [exact Ha | constructor].
Qed.

(** X6: every activity of every day written is a cleaned text: it is not
    empty and consists of words separated by single blanks, so it has no
    line break and fills exactly one bullet line. *)
Theorem written_activities_are_clean (lines : list string) (rows : list Row)
  (st : State) :
  run_rows (init_state lines) rows = Ok st ->
  Forall (fun r =>
            rec_activities r <> []
            /\ Forall (fun a => a <> "" /\ join " " (split_ws a) = a
                                /\ clean_text (Str a) = a)
                 (rec_activities r))
    (emitted st).
Proof.
  intros H.
  assert (Hgen : forall rows s s',
            Forall (fun a => a <> "" /\ join " " (split_ws a) = a)
              (daily_activities s) ->
            Forall (fun r => Forall (fun a => a <> "" /\ join " " (split_ws a) = a)
                               (rec_activities r)) (emitted s) ->
            run_rows s rows = Ok s' ->
            Forall (fun r => Forall (fun a => a <> "" /\ join " " (split_ws a) = a)
                               (rec_activities r)) (emitted s')).
  { clear. unfold run_rows.
    induction rows as [|row rows IH]; intros s s' Ha He H; simpl in H.
    - exact (flush_day_clean s s' H Ha He).
    - apply bind_ok_inv in H. destruct H as [s2 [Hs2 H]].
      apply bind_ok_inv in Hs2. destruct Hs2 as [s1 [Hs1 Hs2]].
      assert (Hrest : (x <- scan_rows s1 rows ;; flush_day x) = Ok s').
      { rewrite Hs2. exact H. }
      assert (Hstep : Forall (fun a => a <> "" /\ join " " (split_ws a) = a)
                        (daily_activities s1)
                      /\ Forall (fun r => Forall (fun a => a <> ""
                                    /\ join " " (split_ws a) = a)
                                   (rec_activities r)) (emitted s1)).
      { destruct (is_timestamp (cell_at row 1)) eqn:Hts.
        - destruct (cell_at row 1) as [| |d| | |] eqn:Hc; try discriminate Hts.
          rewrite (process_row_date s row d Hc) in Hs1.
          apply bind_ok_inv in Hs1. destruct Hs1 as [f [Hf Hs1]].
          inversion Hs1. subst s1. simpl.
          split; [constructor | exact (flush_day_clean s f Hf Ha He)].
        - rewrite (process_row_other s row Hts) in Hs1. cbv zeta in Hs1.
          pose proof (add_activity_clean s (cell_at row 2) Ha) as Ha'.
          destruct (add_activity_fields s (cell_at row 2)) as [_ [_ [_ F4]]].
          assert (Hkeep : forall x, Ok (add_activity s (cell_at row 2)) = Ok x ->
                    Forall (fun a => a <> "" /\ join " " (split_ws a) = a)
                      (daily_activities x)
                    /\ Forall (fun r => Forall (fun a => a <> ""
                                   /\ join " " (split_ws a) = a)
                                  (rec_activities r)) (emitted x)).
          { intros x Hx. inversion Hx. split; [exact Ha' | rewrite F4; exact He]. }
          destruct (current_date (add_activity s (cell_at row 2)));
            [|exact (Hkeep _ Hs1)].
          destruct (notna (cell_at row 11)); [|exact (Hkeep _ Hs1)].
          apply bind_ok_inv in Hs1. destruct Hs1 as [f [Hf Hs1]].
          inversion Hs1. subst s1. simpl. split; [constructor|].
          apply (flush_day_clean _ f Hf); simpl; [exact Ha' | rewrite F4; exact He]. }
      exact (IH s1 s' (proj1 Hstep) (proj2 Hstep) Hrest). }
  pose proof (Hgen rows (init_state lines) st (Forall_nil _) (Forall_nil _) H)
    as Hclean.
  destruct (run_rows_sections rows _ _ H) as [new [E [_ Hne]]].
  simpl in E. rewrite E in Hclean |- *. clear E.
  induction Hne as [|r new Hr Hnew IH]; [constructor|].
  inversion Hclean as [|x l Hx Hl]; subst.
  constructor; [|exact (IH Hl)].
  split; [exact Hr|].
  eapply Forall_impl; [|exact Hx].
  intros a [Ha1 Ha2]. split; [exact Ha1|]. split; [exact Ha2|].
  unfold clean_text. cbn [isna str_of_cell].
  rewrite <- Ha2 at 1.
  rewrite (strip_join _ (split_ws_words a)), (split_ws_join _ (split_ws_words a)).
  exact Ha2.
Qed.

(** ** The days written and the date cells *)

Lemma flush_day_dates (st st' : State) (ds : list datetime) (d : datetime) :
  current_date st = Some d ->
  flush_day st = Ok st' ->
  subseq (map rec_date (emitted st)) ds ->
  subseq (map rec_date (emitted st')) (ds +++ [d]).
Proof.
  intros Hd H Hs. apply flush_day_inv in H.
  destruct H as [[H _]|[d' [Hd' [_ H]]]]; subst st'.
  - rewrite <- (app_nil_r (map rec_date (emitted st))).
    apply subseq_app; [exact Hs | apply subseq_nil_l].
  - rewrite Hd in Hd'. inversion Hd'. subst d'. simpl.
    rewrite map_app. apply subseq_app; [exact Hs | apply subseq_refl].
Qed.

Lemma process_row_dates (st st' : State) (row : Row) (ds : list datetime) :
  match current_date st with
  | Some d => exists ds', ds = ds' +++ [d]
                          /\ subseq (map rec_date (emitted st)) ds'
  | None => subseq (map rec_date (emitted st)) ds
  end ->
  process_row st row = Ok st' ->
  match current_date st' with
  | Some d => exists ds', ds +++ date_cells [row] = ds' +++ [d]
                          /\ subseq (map rec_date (emitted st')) ds'
  | None => subseq (map rec_date (emitted st')) (ds +++ date_cells [row])
  end.
Proof.
  intros Hinv H. unfold date_cells. cbn [flat_map]. rewrite app_nil_r.
  destruct (is_timestamp (cell_at row 1)) eqn:Hts.
  - destruct (cell_at row 1) as [| |d| | |] eqn:Hc; try discriminate Hts.
    rewrite (process_row_date st row d Hc) in H.
    apply bind_ok_inv in H. destruct H as [f [Hf H]]. inversion H. subst st'.
    simpl. exists ds. split; [reflexivity|].
    destruct (current_date st) as [d0|] eqn:Hd.
    + destruct Hinv as [ds' [E Hs]]. subst ds.
      exact (flush_day_dates st f ds' d0 Hd Hf Hs).
    + rewrite (flush_day_idle st Hd) in Hf. inversion Hf. subst f. exact Hinv.
  - assert (E : match cell_at row 1 with Timestamp d => [d] | _ => [] end = []).
    { destruct (cell_at row 1); try reflexivity. discriminate Hts. }
    rewrite E, app_nil_r.
    rewrite (process_row_other st row Hts) in H. cbv zeta in H.
    destruct (add_activity_fields st (cell_at row 2)) as [F1 [_ [_ F4]]].
    rewrite F1 in H.
    destruct (current_date st) as [d0|] eqn:Hd.
    + destruct (notna (cell_at row 11)).
      * apply bind_ok_inv in H. destruct H as [f [Hf H]]. inversion H. subst st'.
        simpl. destruct Hinv as [ds' [E' Hs]]. subst ds.
        apply (flush_day_dates
                 (set_hours (add_activity st (cell_at row 2)) (cell_at row 11))
                 f ds' d0); [simpl; exact F1 | exact Hf|].
        simpl. rewrite F4. exact Hs.
      * inversion H. subst st'. rewrite F1, F4. exact Hinv.
    + inversion H. subst st'. rewrite F1, F4. exact Hinv.
Qed.

Lemma date_cells_app (a b : list Row) :
  date_cells (a +++ b) = date_cells a +++ date_cells b.
Proof. unfold date_cells. apply flat_map_app. Qed.

Lemma date_cells_skipn (k : nat) (rows : list Row) :
  subseq (date_cells (skipn k rows)) (date_cells rows).
Proof.
  rewrite <- (firstn_skipn k rows) at 2. rewrite date_cells_app.
  rewrite <- (app_nil_l (date_cells (skipn k rows))) at 1.
  apply subseq_app; [apply subseq_nil_l | apply subseq_refl].
Qed.

Lemma subseq_trans {A : Type} (a b c : list A) :
  subseq a b -> subseq b c -> subseq a c.
Proof.
  intros Hab Hbc. revert a Hab.
  induction Hbc as [|x l1 l2 H IH|x l1 l2 H IH]; intros a Hab.
  - exact Hab.
  - apply subseq_skip. exact (IH a Hab).
  - inversion Hab; subst.
    + apply subseq_skip. apply IH. assumption.
    + apply subseq_take. apply IH. assumption.
Qed.

(** X7: the dates of the days written are date cells of the sheet, in
    sheet order and each used at most once: no day is made up, repeated or
    moved, and there are at most as many days as date rows. *)
Theorem written_days_follow_date_cells (df : DataFrame)
  (recs : list DailyRecord) :
  aggregate df = Ok recs ->
  subseq (map rec_date recs) (date_cells df)
  /\ (List.length recs <= List.length (date_cells df))%nat.
Proof.
  intros H. unfold aggregate, run_rows in H.
  apply bind_ok_inv in H. destruct H as [st [Hst H]]. inversion H. subst recs.
  apply bind_ok_inv in Hst. destruct Hst as [s [Hs Hf]].
  assert (Hgen : forall rows s0 s1 ds,
            match current_date s0 with
            | Some d => exists ds', ds = ds' +++ [d]
                                    /\ subseq (map rec_date (emitted s0)) ds'
            | None => subseq (map rec_date (emitted s0)) ds
            end ->
            scan_rows s0 rows = Ok s1 ->
            match current_date s1 with
            | Some d => exists ds', ds +++ date_cells rows = ds' +++ [d]
                                    /\ subseq (map rec_date (emitted s1)) ds'
            | None => subseq (map rec_date (emitted s1)) (ds +++ date_cells rows)
            end).
  { clear. induction rows as [|row rows IH]; intros s0 s1 ds Hinv H; simpl in H.
    - inversion H. subst s1. unfold date_cells. simpl. rewrite app_nil_r.
      exact Hinv.
    - apply bind_ok_inv in H. destruct H as [s [Hs H]].
      pose proof (process_row_dates s0 s row ds Hinv Hs) as Hinv'.
      pose proof (IH s s1 _ Hinv' H) as Hfin.
      change (row :: rows) with ([row] +++ rows).
      rewrite date_cells_app, app_assoc. exact Hfin. }
  pose proof (Hgen _ (init_state []) s [] (subseq_nil) Hs) as Hinv.
  simpl in Hinv.
  assert (Hsub : subseq (map rec_date (emitted st))
                   (date_cells (skipn (data_start_row df) df))).
  { destruct (current_date s) as [d|] eqn:Hd.
    - destruct Hinv as [ds' [E Hsub]]. rewrite E.
      exact (flush_day_dates s st ds' d Hd Hf Hsub).
    - rewrite (flush_day_idle s Hd) in Hf. inversion Hf. subst st. exact Hinv. }
  pose proof (subseq_trans _ _ _ Hsub (date_cells_skipn _ df)) as Hall.
  split; [exact Hall|].
  pose proof (subseq_length _ _ Hall) as Hlen.
  rewrite length_map in Hlen. exact Hlen.
Qed.

End MoreAggregator.

Lemma rows_after_hours_row_ignored_witness :
  current_date sample_open = Some (mkdate 2025 3 3)
  /\ is_timestamp (cell_at sample_both_row 1) = false
  /\ notna (cell_at sample_both_row 11) = true
  /\ @result_map State _ output
       (@run_rows sample_builtins sample_open
          (sample_both_row :: [sample_bad_hours_row] +++ [sample_date_row]))
     = result_map output
         (@run_rows sample_builtins sample_open
            (sample_both_row :: [sample_date_row])).
Proof.
  split; [reflexivity|]. split; [reflexivity|]. split; [reflexivity|].
  exact (@rows_after_hours_row_ignored sample_builtins sample_open
           sample_both_row [sample_bad_hours_row] [sample_date_row]
           (mkdate 2025 3 3) eq_refl eq_refl eq_refl
           (Forall_cons sample_bad_hours_row
              (eq_refl : is_timestamp (cell_at sample_bad_hours_row 1) = false)
              (Forall_nil _))).
Defined.

Lemma hours_only_from_closing_row_witness :
  exists st,
    @scan_rows sample_builtins (init_state []) (firstn 3 sample_sheet) = Ok st
    /\ pending_hours st = None.
Proof.
  destruct (@scan_rows sample_builtins (init_state []) (firstn 3 sample_sheet))
    as [st|e] eqn:E.
  - exists st. split; [reflexivity|].
    exact (proj1 (@hours_only_from_closing_row sample_builtins []
                    (firstn 3 sample_sheet) st E)).
  - vm_compute in E. discriminate E.
Defined.

Lemma written_activities_are_clean_witness :
  exists st,
    @run_rows sample_builtins (init_state []) sample_sheet = Ok st
    /\ Forall (fun r => rec_activities r <> []) (emitted st).
Proof.
  destruct (@run_rows sample_builtins (init_state []) sample_sheet)
    as [st|e] eqn:E.
  - exists st. split; [reflexivity|].
    pose proof (@written_activities_are_clean sample_builtins [] sample_sheet
                  st E) as H.
    apply (Forall_impl _ (fun r Hr => proj1 Hr) H).
  - vm_compute in E. discriminate E.
Defined.

Lemma written_days_follow_date_cells_witness :
  exists recs,
    @aggregate sample_builtins sample_sheet = Ok recs
    /\ subseq (map rec_date recs) (date_cells sample_sheet).
Proof.
  destruct (@aggregate sample_builtins sample_sheet) as [recs|e] eqn:E.
  - exists recs. split; [reflexivity|].
    exact (proj1 (@written_days_follow_date_cells sample_builtins
                    sample_sheet recs E)).
  - vm_compute in E. discriminate E.
Defined.

(* ================================================================== *)
(** * Further properties: the document and the marker row *)

Section Document.
Context {B : Builtins}.

Lemma flush_day_prefixed (l : list string) (st : State) :
  flush_day (prefixed l st) = result_map (prefixed l) (flush_day st).
Proof.
  destruct st as [cd da ph md em].
  unfold flush_day, prefixed, result_map. simpl.
  destruct cd as [d|]; [|reflexivity].
  destruct da as [|a da]; [reflexivity|].
  destruct ph as [h|]; simpl.
  - destruct (int_of_float h); simpl; [|reflexivity].
    f_equal. f_equal. rewrite <- !app_assoc. reflexivity.
  - f_equal. f_equal. rewrite <- !app_assoc. reflexivity.
Qed.

Lemma process_row_prefixed (l : list string) (st : State) (row : Row) :
  process_row (prefixed l st) row = result_map (prefixed l) (process_row st row).
Proof.
  destruct (is_timestamp (cell_at row 1)) eqn:Hts.
  - destruct (cell_at row 1) as [| |d| | |] eqn:Hc; try discriminate Hts.
    rewrite !(process_row_date _ row d Hc), flush_day_prefixed.
    unfold result_map. destruct (flush_day st) as [[cd da ph md em]|];
      reflexivity.
  - rewrite !(process_row_other _ row Hts). cbv zeta.
    assert (Ea : add_activity (prefixed l st) (cell_at row 2)
                 = prefixed l (add_activity st (cell_at row 2))).
    { unfold add_activity. destruct (notna (cell_at row 2)); [|reflexivity].
      destruct (negb (is_empty (clean_text (cell_at row 2)))); reflexivity. }
    rewrite Ea. cbn [prefixed current_date].
    destruct (current_date (add_activity st (cell_at row 2))) eqn:Hcd;
      [|reflexivity].
    destruct (notna (cell_at row 11)); [|reflexivity].
    change (set_hours (prefixed l (add_activity st (cell_at row 2)))
              (cell_at row 11))
      with (prefixed l (set_hours (add_activity st (cell_at row 2))
                          (cell_at row 11))).
    rewrite flush_day_prefixed. unfold result_map.
    destruct (flush_day _) as [[cd da ph md em]|]; reflexivity.
Qed.

(** The lines already written play no part in what a run adds. *)
Lemma run_rows_prefixed (l : list string) (rows : list Row) (st : State) :
  run_rows (prefixed l st) rows = result_map (prefixed l) (run_rows st rows).
Proof.
  unfold run_rows. revert st.
  induction rows as [|row rows IH]; intros st; simpl.
  - rewrite flush_day_prefixed. unfold result_map.
    destruct (flush_day st); reflexivity.
  - rewrite process_row_prefixed. unfold result_map at 1.
    destruct (process_row st row) as [s|e]; simpl; [|reflexivity].
    rewrite IH. reflexivity.
Qed.

(** X8: a conversion that succeeds returns the head of the document
    followed by one section per day of [aggregate], in order, joined by
    line breaks and stripped; its file name comes from the resolved dates
    alone. *)
Theorem document_is_head_and_sections (default_year name : string)
  (df : DataFrame) (fn content : string) :
  convert_excel_to_markdown default_year name df = Ok (fn, content) ->
  exists actual_year start_dt end_dt person course recs,
    resolve_dates default_year name df = Ok (actual_year, start_dt, end_dt)
    /\ header_field df 0 default_name = Ok person
    /\ header_field df 1 default_course = Ok course
    /\ aggregate df = Ok recs
    /\ fn = out_filename (iso_week_of start_dt) start_dt end_dt
    /\ content
       = strip (join nl
                  (header_lines (iso_week_of start_dt) start_dt end_dt
                     person course actual_year
                   +++ flat_map section_lines recs)).
Proof.
  unfold convert_excel_to_markdown. intros H.
  apply bind_ok_inv in H. destruct H as [[[y s] e] [Hres H]].
  destruct (isocalendar s) as [[iy w] wd] eqn:Eiso.
  apply bind_ok_inv in H. destruct H as [st [Hb H]].
  inversion H. subst fn content. clear H.
  unfold build_lines in Hb.
  apply bind_ok_inv in Hb. destruct Hb as [person [Hp Hb]].
  apply bind_ok_inv in Hb. destruct Hb as [course [Hc Hb]].
  set (lines := header_lines w s e person course y) in *.
  assert (Einit : forall l, init_state l = prefixed l (init_state [])).
  { intros l. unfold init_state, prefixed. cbn [md_lines current_date
      daily_activities pending_hours emitted]. rewrite app_nil_r. reflexivity. }
  rewrite (Einit lines), run_rows_prefixed in Hb.
  unfold result_map in Hb.
  apply bind_ok_inv in Hb. destruct Hb as [st0 [H0 Hb]].
  inversion Hb. subst st. clear Hb.
  destruct (run_rows_sections _ _ _ H0) as [new [En [Emd _]]].
  simpl in En, Emd.
  exists y, s, e, person, course, (emitted st0).
  unfold iso_week_of. rewrite Eiso. cbn [fst snd].
  split; [exact Hres|]. split; [exact Hp|]. split; [exact Hc|].
  split; [unfold aggregate; rewrite H0; reflexivity|].
  split; [reflexivity|].
  simpl. rewrite Emd, En. reflexivity.
Qed.

(** ** The marker row *)

Lemma find_tag_row_first (pre rest : list Row) (tag : Row) (i : nat) :
  Forall (fun r => is_tag_cell (cell_at r 1) = false) pre ->
  is_tag_cell (cell_at tag 1) = true ->
  find_tag_row true (pre +++ tag :: rest) i = Some (S (i + List.length pre)).
Proof.
  intros Hpre Htag. revert i.
  induction Hpre as [|r pre Hr Hrest IH]; intros i; simpl.
  - rewrite Htag. f_equal. lia.
  - rewrite Hr, IH. f_equal. lia.
Qed.

(** X9: on a sheet with at least two columns, everything up to and
    including the first row whose column 1 holds a text containing "Tag"
    is skipped, date rows included; the days written are those of the rows
    below it. *)
Theorem rows_up_to_marker_skipped (pre rest : list Row) (tag : Row) :
  (1 < shape1 (pre +++ tag :: rest))%nat ->
  Forall (fun r => is_tag_cell (cell_at r 1) = false) pre ->
  is_tag_cell (cell_at tag 1) = true ->
  data_start_row (pre +++ tag :: rest) = S (List.length pre)
  /\ skipn (data_start_row (pre +++ tag :: rest)) (pre +++ tag :: rest) = rest
  /\ aggregate (pre +++ tag :: rest)
     = (st <- run_rows (init_state []) rest ;; Ok (emitted st)).
Proof.
  intros Hw Hpre Htag.
  assert (Hs : data_start_row (pre +++ tag :: rest) = S (List.length pre)).
  { unfold data_start_row. apply Nat.ltb_lt in Hw. rewrite Hw.
    rewrite (find_tag_row_first pre rest tag 0 Hpre Htag). reflexivity. }
  assert (Hk : skipn (S (List.length pre)) (pre +++ tag :: rest) = rest).
  { clear. induction pre as [|r pre IH]; [reflexivity | exact IH]. }
  split; [exact Hs|]. split; [rewrite Hs; exact Hk|].
  unfold aggregate. rewrite Hs, Hk. reflexivity.
Qed.

End Document.

Lemma document_is_head_and_sections_witness :
  exists fn content recs,
    @convert_excel_to_markdown sample_builtins "2025" sample_name sample_sheet
    = Ok (fn, content)
    /\ @aggregate sample_builtins sample_sheet = Ok recs
    /\ fn = out_filename (iso_week_of (mkdate 2025 3 3))
              (mkdate 2025 3 3) (mkdate 2025 3 7).
Proof.
  destruct (@convert_excel_to_markdown sample_builtins "2025" sample_name
              sample_sheet) as [[fn content]|e] eqn:E.
  - destruct (@document_is_head_and_sections sample_builtins _ _ _ _ _ E)
      as (y & s & e & person & course & recs & Hres & _ & _ & Hagg & Hfn & _).
    exists fn, content, recs.
    split; [reflexivity|]. split; [exact Hagg|].
    vm_compute in Hres. inversion Hres. subst y s e. exact Hfn.
  - vm_compute in E. discriminate E.
Defined.

Lemma rows_up_to_marker_skipped_witness :
  (1 < shape1 ([sample_date_row] +++ sample_row (Str "Tag") NaN NaN
                 :: sample_sheet))%nat
  /\ is_tag_cell (cell_at (sample_row (Str "Tag") NaN NaN) 1) = true
  /\ data_start_row ([sample_date_row] +++ sample_row (Str "Tag") NaN NaN
                       :: sample_sheet) = 2%nat.
Proof.
  assert (Hw : (1 < shape1 ([sample_date_row]
                              +++ sample_row (Str "Tag") NaN NaN
                              :: sample_sheet))%nat) by (simpl; lia).
  assert (Ht : is_tag_cell (cell_at (sample_row (Str "Tag") NaN NaN) 1) = true)
    by reflexivity.
  split; [exact Hw|]. split; [exact Ht|].
  exact (proj1 (@rows_up_to_marker_skipped sample_builtins [sample_date_row]
                  sample_sheet (sample_row (Str "Tag") NaN NaN) Hw
                  (Forall_cons sample_date_row
                     (eq_refl : is_tag_cell (cell_at sample_date_row 1) = false)
                     (Forall_nil _)) Ht)).
Defined.

(* ================================================================== *)
(** * Further properties: the file name *)

Lemma rmatch_seq_nil (a b : Re.re) (s : string) :
  Re.rmatch a s = [] -> Re.rmatch (Re.Seq a b) s = [].
Proof. intros H. simpl. rewrite H. reflexivity. Qed.

Lemma filename_regex_needs_underscore (s : string) :
  match s with
  | String c _ => Re.other_than "_" c = true
  | EmptyString => True
  end ->
  Re.rmatch filename_regex s = [].
Proof.
  intros H. cbv beta zeta delta [filename_regex].
  apply rmatch_seq_nil. unfold Re.lit. cbn [Re.rmatch].
  destruct s as [|c s]; [reflexivity|].
  unfold Re.other_than in H. apply negb_true_iff in H.
  rewrite Ascii.eqb_sym, H. reflexivity.
Qed.

(** The search passes over a prefix without underscore. *)
Lemma search_skips_prefix (p s : string) :
  Re.all_chars (Re.other_than "_") p = true ->
  Re.search filename_regex (p ++ s) = Re.search filename_regex s.
Proof.
  induction p as [|c p IH]; intros H; [reflexivity|].
  simpl in H. apply andb_true_iff in H. destruct H as [Hc Hp].
  change ((String c p ++ s)%string) with (String c (p ++ s)).
  cbn [Re.search].
  rewrite (filename_regex_needs_underscore (String c (p ++ s)) Hc).
  exact (IH Hp).
Qed.

Lemma search_without_underscore (s : string) :
  Re.all_chars (Re.other_than "_") s = true ->
  Re.search filename_regex s = None.
Proof.
  intros H. rewrite <- (append_empty_r s), (search_skips_prefix s "" H).
  reflexivity.
Qed.

Lemma all_chars_substring0 (p : ascii -> bool) (n : nat) (s : string) :
  Re.all_chars p s = true -> Re.all_chars p (String.substring 0 n s) = true.
Proof.
  revert s. induction n as [|n IH]; intros s H.
  - destruct s; reflexivity.
  - destruct s as [|c s]; [reflexivity|].
    simpl in H |- *. apply andb_true_iff in H. destruct H as [Hc Hs].
    rewrite Hc. exact (IH s Hs).
Qed.

Lemma all_chars_split_on (p : ascii -> bool) (c : ascii) (s : string) :
  Re.all_chars p s = true ->
  Forall (fun x => Re.all_chars p x = true) (split_on c s).
Proof.
  induction s as [|x s IH]; simpl; intros H.
  - repeat constructor.
  - apply andb_true_iff in H. destruct H as [Hx Hs]. specialize (IH Hs).
    destruct (Ascii.eqb x c).
    + constructor; [reflexivity | exact IH].
    + destruct (split_on c s) as [|h t].
      * repeat constructor. simpl. rewrite Hx. reflexivity.
      * inversion IH as [|h' t' Hh Ht]; subst.
        constructor; [simpl; rewrite Hx; exact Hh | exact Ht].
Qed.

(** The final component of a path is made of characters of the path. *)
Lemma all_chars_path_name (p : ascii -> bool) (s : string) :
  Re.all_chars p s = true -> Re.all_chars p (path_name s) = true.
Proof.
  intros H. unfold path_name.
  assert (Hf : Forall (fun x => Re.all_chars p x = true)
                 (List.filter is_component (split_on "/" s))).
  { apply Forall_forall. intros x Hx. apply filter_In in Hx.
    destruct Hx as [Hx _].
    exact (proj1 (Forall_forall _ _) (all_chars_split_on p "/" s H) x Hx). }
  induction Hf as [|x l Hx Hl IH]; [reflexivity|].
  destruct l as [|y l]; [exact Hx | exact IH].
Qed.

(** A text without a slash that is a component is its own final
    component. *)
Lemma path_name_plain (s : string) :
  Re.all_chars (Re.other_than "/") s = true ->
  is_component s = true ->
  path_name s = s.
Proof.
  intros H Hc. unfold path_name. rewrite (split_on_free "/" s H).
  simpl. rewrite Hc. reflexivity.
Qed.

Lemma all_chars_stem (p : ascii -> bool) (name : string) :
  Re.all_chars p name = true -> Re.all_chars p (stem name) = true.
Proof.
  intros H. apply all_chars_path_name in H. unfold stem. cbv zeta.
  destruct (rfind "." (path_name name)) as [i|]; [|exact H].
  destruct (Nat.ltb 0 i && Nat.ltb i (String.length (path_name name) - 1))%bool;
    [apply all_chars_substring0; exact H | exact H].
Qed.

(** X10: a file name without an underscore is rejected before the sheet is
    looked at: the conversion raises the ValueError of line 69. *)
Theorem name_without_underscore_rejected (name : string) :
  Re.all_chars (Re.other_than "_") name = true ->
  parse_dates_from_filename name = None
  /\ forall (B : Builtins) (default_year : string) (df : DataFrame),
       @convert_excel_to_markdown B default_year name df
       = Error CannotParseFilename.
Proof.
  intros H.
  assert (Hp : parse_dates_from_filename name = None).
  { unfold parse_dates_from_filename.
    rewrite (search_without_underscore _ (all_chars_stem _ _ H)). reflexivity. }
  split; [exact Hp|]. intros B dy df.
  unfold convert_excel_to_markdown, resolve_dates. rewrite Hp. reflexivity.
Qed.

Lemma name_without_underscore_rejected_witness :
  Re.all_chars (Re.other_than "_") "Ausbildungsnachweis 03.03-07.03.xlsx" = true
  /\ parse_dates_from_filename "Ausbildungsnachweis 03.03-07.03.xlsx" = None.
Proof.
  split; [reflexivity|].
  exact (proj1 (name_without_underscore_rejected
                  "Ausbildungsnachweis 03.03-07.03.xlsx" eq_refl)).
Defined.

(** ** Names of the conventional form *)

Lemma rfind_free (c : ascii) (s : string) :
  Re.all_chars (Re.other_than c) s = true -> rfind c s = None.
Proof.
  induction s as [|x s IH]; simpl; [reflexivity|].
  intros H. apply andb_true_iff in H. destruct H as [Hx Hs].
  unfold Re.other_than in Hx. apply negb_true_iff in Hx.
  rewrite (IH Hs), Hx. reflexivity.
Qed.

Lemma rfind_last (c : ascii) (a b : string) :
  Re.all_chars (Re.other_than c) b = true ->
  rfind c (a ++ String c b) = Some (String.length a).
Proof.
  intros H. induction a as [|x a IH]; simpl.
  - rewrite (rfind_free c b H), Ascii.eqb_refl. reflexivity.
  - rewrite IH. reflexivity.
Qed.

Lemma substring_prefix (a b : string) :
  String.substring 0 (String.length a) (a ++ b) = a.
Proof.
  induction a as [|x a IH]; simpl.
  - destruct b; reflexivity.
  - rewrite IH. reflexivity.
Qed.

Lemma length_append (a b : string) :
  String.length (a ++ b) = (String.length a + String.length b)%nat.
Proof. induction a as [|x a IH]; simpl; [reflexivity | rewrite IH; reflexivity]. Qed.

Lemma all_chars_append (p : ascii -> bool) (a b : string) :
  Re.all_chars p (a ++ b) = (Re.all_chars p a && Re.all_chars p b)%bool.
Proof.
  induction a as [|x a IH]; simpl; [reflexivity|].
  rewrite IH, andb_assoc. reflexivity.
Qed.

(** The stem of base.ext is base, when ext is a proper extension and the
    name holds no slash. *)
Lemma stem_extension (base ext : string) :
  base <> "" -> ext <> "" ->
  Re.all_chars (Re.other_than ".") ext = true ->
  Re.all_chars (Re.other_than "/") base = true ->
  Re.all_chars (Re.other_than "/") ext = true ->
  stem (base ++ String "." ext) = base.
Proof.
  intros Hb He Hfree Hsb Hse. unfold stem. cbv zeta.
  rewrite path_name_plain.
  2:{ rewrite all_chars_append. simpl. rewrite Hsb, Hse. reflexivity. }
  2:{ destruct base as [|x base]; [contradiction|].
      unfold is_component. simpl.
      destruct base as [|y base]; simpl;
        destruct (Ascii.eqb x "."); reflexivity. }
  rewrite (rfind_last "." base ext Hfree).
  rewrite length_append. simpl String.length.
  destruct base as [|x base]; [contradiction|].
  destruct ext as [|y ext]; [contradiction|].
  assert (Hcond : (Nat.ltb 0 (String.length (String x base))
                   && Nat.ltb (String.length (String x base))
                        (String.length (String x base)
                         + S (String.length (String y ext)) - 1))%bool = true).
  { apply andb_true_iff. split; apply Nat.ltb_lt; simpl; lia. }
  rewrite Hcond. apply substring_prefix.
Qed.

Lemma digit_not_space (c : ascii) : is_digit c = true -> is_space c = false.
Proof.
  intros H. apply digit_cases in H. simpl in H.
  repeat (destruct H as [H|H]; [subst c; reflexivity|]). contradiction.
Qed.

(** ** The first way a pattern matches *)

Lemma first_chr (p : ascii -> bool) (c : ascii) (s : string) :
  p c = true -> first_match (Re.Chr p) (String c s) (String c "") s [].
Proof. intros H. exists []. simpl. rewrite H. reflexivity. Qed.

Lemma first_seq (a b : Re.re) (s m1 s1 m2 s2 : string) (g1 g2 : Re.captures) :
  first_match a s m1 s1 g1 -> first_match b s1 m2 s2 g2 ->
  first_match (Re.Seq a b) s (m1 ++ m2) s2 (g1 +++ g2).
Proof.
  intros [ta Ha] [tb Hb]. unfold first_match. cbn [Re.rmatch]. rewrite Ha. cbn [flat_map].
  rewrite Hb. cbn [map app]. eexists. reflexivity.
Qed.

(** Backtracking: a first way of [a] that [b] cannot continue is given
    up for the next one. *)
Lemma first_seq_retry (a b : Re.re) (s m0 s0 : string) (g0 : Re.captures)
  (ta : list Re.match_state) (m1 s1 m2 s2 : string) (g1 g2 : Re.captures) :
  Re.rmatch a s = (m0, s0, g0) :: (m1, s1, g1) :: ta ->
  Re.rmatch b s0 = [] ->
  first_match b s1 m2 s2 g2 ->
  first_match (Re.Seq a b) s (m1 ++ m2) s2 (g1 +++ g2).
Proof.
  intros Ha H0 [tb Hb]. unfold first_match. cbn [Re.rmatch]. rewrite Ha. cbn [flat_map].
  rewrite H0, Hb. cbn [map app]. eexists. reflexivity.
Qed.

Lemma first_alt_l (a b : Re.re) (s m s' : string) (g : Re.captures) :
  first_match a s m s' g -> first_match (Re.Alt a b) s m s' g.
Proof. intros [t H]. unfold first_match. cbn [Re.rmatch]. rewrite H. eexists. reflexivity. Qed.

Lemma first_alt_r (a b : Re.re) (s m s' : string) (g : Re.captures) :
  Re.rmatch a s = [] -> first_match b s m s' g ->
  first_match (Re.Alt a b) s m s' g.
Proof. intros Ha [t H]. unfold first_match. cbn [Re.rmatch]. rewrite Ha, H. eexists. reflexivity. Qed.

Lemma first_opt_take (a : Re.re) (s m s' : string) (g : Re.captures) :
  first_match a s m s' g -> first_match (Re.Opt a) s m s' g.
Proof. intros [t H]. unfold first_match. cbn [Re.rmatch]. rewrite H. eexists. reflexivity. Qed.

Lemma first_opt_skip (a : Re.re) (s : string) :
  Re.rmatch a s = [] -> first_match (Re.Opt a) s "" s [].
Proof. intros H. unfold first_match. cbn [Re.rmatch]. rewrite H. eexists. reflexivity. Qed.

Lemma first_star_stop (p : ascii -> bool) (s : string) :
  match s with String c _ => p c = false | EmptyString => True end ->
  first_match (Re.StarC p) s "" s [].
Proof.
  intros H. exists []. cbn [Re.rmatch].
  destruct s as [|c s]; [reflexivity|]. simpl. rewrite H. reflexivity.
Qed.

Lemma first_grp (n : string) (a : Re.re) (s m s' : string) (g : Re.captures) :
  first_match a s m s' g ->
  first_match (Re.Grp n a) s m s' (g +++ [(n, m)]).
Proof. intros [t H]. unfold first_match. cbn [Re.rmatch]. rewrite H. eexists. reflexivity. Qed.

Lemma rmatch_chr_no (p : ascii -> bool) (s : string) :
  match s with String c _ => p c = false | EmptyString => True end ->
  Re.rmatch (Re.Chr p) s = [].
Proof.
  intros H. destruct s as [|c s]; [reflexivity|]. simpl. rewrite H. reflexivity.
Qed.

Lemma first_search (r : Re.re) (s m s' : string) (g : Re.captures) :
  first_match r s m s' g -> Re.search r s = Some (m, s', g).
Proof.
  intros [t H]. destruct s; simpl; rewrite H; reflexivity.
Qed.

Lemma first_two_digits (a b : ascii) (s : string) :
  is_digit a = true -> is_digit b = true ->
  first_match (Re.Seq (Re.Chr is_digit) (Re.Chr is_digit))
    (String a (String b s)) (String a (String b "")) s [].
Proof.
  intros Ha Hb.
  exact (first_seq _ _ _ _ _ _ _ _ _ (first_chr _ a _ Ha) (first_chr _ b _ Hb)).
Qed.

(** The first group on DD.MM followed by something that is no dot. *)
Lemma first_start_group (a b c d : ascii) (s : string) :
  is_digit a = true -> is_digit b = true ->
  is_digit c = true -> is_digit d = true ->
  match s with String x _ => Ascii.eqb "." x = false | EmptyString => True end ->
  first_match
    (Re.Grp "1"
       (Re.Seq (Re.Seq (Re.Chr is_digit) (Re.Chr is_digit))
          (Re.Seq (Re.Chr (Ascii.eqb "."))
             (Re.Seq (Re.Seq (Re.Chr is_digit) (Re.Chr is_digit))
                (Re.Opt (Re.Chr (Ascii.eqb ".")))))))
    (date_token a b c d ++ s) (date_token a b c d) s
    [("1", date_token a b c d)].
Proof.
  intros Ha Hb Hc Hd Hs.
  pose proof (first_two_digits a b
                (String "." (String c (String d s))) Ha Hb) as H1.
  pose proof (first_chr (Ascii.eqb ".") "." (String c (String d s)) eq_refl) as H2.
  pose proof (first_two_digits c d s Hc Hd) as H3.
  pose proof (first_opt_skip (Re.Chr (Ascii.eqb ".")) s (rmatch_chr_no _ s Hs)) as H4.
  exact (first_grp "1" _ _ _ _ _
           (first_seq _ _ _ _ _ _ _ _ _ H1
              (first_seq _ _ _ _ _ _ _ _ _ H2
                 (first_seq _ _ _ _ _ _ _ _ _ H3 H4)))).
Qed.

(** The second group on DD.MM at the end of the text. *)
Lemma first_end_group (a b c d : ascii) :
  is_digit a = true -> is_digit b = true ->
  is_digit c = true -> is_digit d = true ->
  first_match
    (Re.Grp "2"
       (Re.Seq (Re.Seq (Re.Chr is_digit) (Re.Chr is_digit))
          (Re.Seq (Re.Alt (Re.Chr (Ascii.eqb ".")) (Re.Chr (Ascii.eqb "-")))
             (Re.Seq (Re.Seq (Re.Chr is_digit) (Re.Chr is_digit))
                (Re.Opt (Re.Chr (Ascii.eqb ".")))))))
    (date_token a b c d) (date_token a b c d) ""
    [("2", date_token a b c d)].
Proof.
  intros Ha Hb Hc Hd.
  pose proof (first_two_digits a b
                (String "." (String c (String d ""))) Ha Hb) as H1.
  pose proof (first_alt_l _ (Re.Chr (Ascii.eqb "-")) _ _ _ _
                (first_chr (Ascii.eqb ".") "." (String c (String d "")) eq_refl))
    as H2.
  pose proof (first_two_digits c d "" Hc Hd) as H3.
  pose proof (first_opt_skip (Re.Chr (Ascii.eqb ".")) "" eq_refl) as H4.
  exact (first_grp "2" _ _ _ _ _
           (first_seq _ _ _ _ _ _ _ _ _ H1
              (first_seq _ _ _ _ _ _ _ _ _ H2
                 (first_seq _ _ _ _ _ _ _ _ _ H3 H4)))).
Qed.

(** The pattern on the text of two DD.MM tokens around a dash. *)
Lemma filename_regex_on_tokens (a b c d e f g h : ascii) :
  is_digit a = true -> is_digit b = true ->
  is_digit c = true -> is_digit d = true ->
  is_digit e = true -> is_digit f = true ->
  is_digit g = true -> is_digit h = true ->
  exists m,
    Re.search filename_regex
      (String "_" (date_token a b c d ++ String "-" (date_token e f g h)))
    = Some (m, "", [("1", date_token a b c d); ("2", date_token e f g h)]).
Proof.
  intros Ha Hb Hc Hd He Hf Hg Hh.
  pose proof (digit_not_space e He) as Hse.
  set (t2 := date_token e f g h).
  pose proof (first_chr (Ascii.eqb "_") "_"
                (date_token a b c d ++ String "-" t2) eq_refl) as H0.
  pose proof (first_start_group a b c d (String "-" t2) Ha Hb Hc Hd eq_refl) as H1.
  pose proof (first_opt_skip
                (Re.Seq (Re.Chr (Ascii.eqb "."))
                   (Re.Seq (Re.Chr is_digit) (Re.Chr is_digit)))
                (String "-" t2) eq_refl) as H2.
  pose proof (first_star_stop is_space (String "-" t2) eq_refl) as H3.
  pose proof (first_chr (Ascii.eqb "-") "-" t2 eq_refl) as H4.
  pose proof (first_star_stop is_space t2 Hse) as H5.
  pose proof (first_end_group e f g h He Hf Hg Hh) as H6. fold t2 in H6.
  pose proof (first_opt_skip
                (Re.Seq (Re.Chr (Ascii.eqb "."))
                   (Re.Seq (Re.Chr is_digit) (Re.Chr is_digit)))
                "" eq_refl) as H7.
  pose proof (first_seq _ _ _ _ _ _ _ _ _ H0
               (first_seq _ _ _ _ _ _ _ _ _ H1
                 (first_seq _ _ _ _ _ _ _ _ _ H2
                   (first_seq _ _ _ _ _ _ _ _ _ H3
                     (first_seq _ _ _ _ _ _ _ _ _ H4
                       (first_seq _ _ _ _ _ _ _ _ _ H5
                         (first_seq _ _ _ _ _ _ _ _ _ H6 H7))))))) as H.
  eexists. exact (first_search _ _ _ _ _ H).
Qed.

Lemma date_token_no_slash (a b c d : ascii) :
  is_digit a = true -> is_digit b = true ->
  is_digit c = true -> is_digit d = true ->
  Re.all_chars (Re.other_than "/") (date_token a b c d) = true.
Proof.
  intros Ha Hb Hc Hd. unfold date_token. simpl.
  chars_other_than "/"%char. reflexivity.
Qed.

(** X11: a file name (no slash in it) of the conventional form,
    prefix_DD.MM-DD.MM.ext with no underscore in the prefix, gives back
    exactly its two tokens and its stem. *)
Theorem conventional_name_tokens (prefix ext : string)
  (a b c d e f g h : ascii) :
  Re.all_chars (Re.other_than "_") prefix = true ->
  Re.all_chars (Re.other_than "/") prefix = true ->
  ext <> "" -> Re.all_chars (Re.other_than ".") ext = true ->
  Re.all_chars (Re.other_than "/") ext = true ->
  is_digit a = true -> is_digit b = true ->
  is_digit c = true -> is_digit d = true ->
  is_digit e = true -> is_digit f = true ->
  is_digit g = true -> is_digit h = true ->
  parse_dates_from_filename
    ((prefix ++ String "_" (date_token a b c d ++ String "-" (date_token e f g h)))
       ++ String "." ext)
  = Some (date_token a b c d, date_token e f g h,
          prefix ++ String "_" (date_token a b c d ++ String "-" (date_token e f g h))).
Proof.
  intros Hp Hps Hext Hfree Hes Ha Hb Hc Hd He Hf Hg Hh.
  unfold parse_dates_from_filename.
  rewrite stem_extension;
    [| destruct prefix; discriminate | exact Hext | exact Hfree | | exact Hes].
  2:{ rewrite all_chars_append, Hps. cbn [andb Re.all_chars].
      rewrite all_chars_append, (date_token_no_slash a b c d Ha Hb Hc Hd).
      cbn [andb Re.all_chars].
      rewrite (date_token_no_slash e f g h He Hf Hg Hh). reflexivity. }
  rewrite (search_skips_prefix prefix _ Hp).
  destruct (filename_regex_on_tokens a b c d e f g h Ha Hb Hc Hd He Hf Hg Hh)
    as [m Hm].
  rewrite Hm. cbn [Re.group String.eqb Ascii.eqb Bool.eqb andb].
  pose proof (start_token_shape a b c d "" Ha Hb Hc Hd (or_introl eq_refl)) as Es.
  pose proof (end_token_shape e f g h "." "" He Hf Hg Hh
                (or_introl eq_refl) (or_introl eq_refl)) as Ee.
  unfold date_token in *. rewrite Es, Ee. reflexivity.
Qed.

Lemma conventional_name_tokens_witness :
  Re.all_chars (Re.other_than "_") "AusbildungsnachweisU27" = true
  /\ Re.all_chars (Re.other_than "/") "AusbildungsnachweisU27" = true
  /\ "xlsx" <> "" /\ Re.all_chars (Re.other_than ".") "xlsx" = true
  /\ Re.all_chars (Re.other_than "/") "xlsx" = true
  /\ parse_dates_from_filename sample_name
     = Some ("03.03", "07.03", "AusbildungsnachweisU27_03.03-07.03").
Proof.
  do 2 (split; [reflexivity|]). split; [discriminate|].
  do 2 (split; [reflexivity|]).
  exact (conventional_name_tokens "AusbildungsnachweisU27" "xlsx"
           "0" "3" "0" "3" "0" "7" "0" "3"
           eq_refl eq_refl ltac:(discriminate) eq_refl eq_refl
           eq_refl eq_refl eq_refl eq_refl eq_refl eq_refl eq_refl eq_refl).
Defined.

(** ** The order of the two dates *)

Lemma token_month_day_parsed (tok y : string) (dt : datetime) :
  List.length (split_on "." tok) = 2%nat ->
  parse_date tok y = Ok dt ->
  token_month_day tok = Some (month dt, day dt)
  /\ int_of_str y = Some (year dt).
Proof.
  intros Hlen H.
  destruct (parse_date_two_parts tok y dt Hlen H)
    as [p1 [p2 [Hs [Hd [Hm Hy]]]]].
  unfold token_month_day. rewrite Hs, Hm, Hd. split; [reflexivity | exact Hy].
Qed.

(** C2 (as amended): when the resolver succeeds, the start date is the
    day and month of the first token of the file name and the end date
    the day and month of the second, both in the resolved year; so
    start <= end holds exactly when the first token's (month, day) does
    not come after the second's.  The order of the two tokens is taken
    from the file name as it is. *)
Theorem range_order_follows_tokens (default_year name : string)
  (df : DataFrame) (actual_year : string) (start_dt end_dt : datetime) :
  resolve_dates default_year name df = Ok (actual_year, start_dt, end_dt) ->
  exists start_raw end_raw base,
    parse_dates_from_filename name = Some (start_raw, end_raw, base)
    /\ token_month_day start_raw = Some (month start_dt, day start_dt)
    /\ token_month_day end_raw = Some (month end_dt, day end_dt)
    /\ int_of_str actual_year = Some (year start_dt)
    /\ year end_dt = year start_dt
    /\ dt_leb start_dt end_dt = token_leb start_raw end_raw
    /\ (forall prefix ext a b c d e f g h,
          Re.all_chars (Re.other_than "_") prefix = true ->
          Re.all_chars (Re.other_than "/") prefix = true ->
          ext <> "" -> Re.all_chars (Re.other_than ".") ext = true ->
          Re.all_chars (Re.other_than "/") ext = true ->
          is_digit a = true -> is_digit b = true ->
          is_digit c = true -> is_digit d = true ->
          is_digit e = true -> is_digit f = true ->
          is_digit g = true -> is_digit h = true ->
          name = ((prefix ++ String "_"
                     (date_token a b c d ++ String "-" (date_token e f g h)))
                  ++ String "." ext)%string ->
          start_raw = date_token a b c d /\ end_raw = date_token e f g h).
Proof.
  unfold resolve_dates.
  destruct (parse_dates_from_filename name) as [[[sr er] base]|] eqn:Ep;
    [|discriminate].
  destruct (filename_tokens _ _ _ _ Ep)
    as (a & b & c & d & a' & b' & c' & d'
        & Ha & Hb & Hc & Hd & Ha' & Hb' & Hc' & Hd' & Es & Ee).
  destruct (is_empty sr); [discriminate|].
  intros H. apply bind_ok_inv in H. destruct H as [y [_ H]].
  apply bind_ok_inv in H. destruct H as [[s e] [Hr H]].
  inversion H. subst y s e. clear H.
  unfold date_range in Hr.
  apply bind_ok_inv in Hr. destruct Hr as [s [Hs Hr]].
  apply bind_ok_inv in Hr. destruct Hr as [e [He Hr]].
  inversion Hr. subst s e. clear Hr.
  pose proof (date_token_two_parts a b c d Ha Hb Hc Hd) as Ls.
  pose proof (date_token_two_parts a' b' c' d' Ha' Hb' Hc' Hd') as Le.
  rewrite <- Es in Ls. rewrite <- Ee in Le.
  destruct (token_month_day_parsed sr actual_year start_dt Ls Hs) as [Ts Ys].
  destruct (token_month_day_parsed er actual_year end_dt Le He) as [Te Ye].
  assert (Hy : year end_dt = year start_dt).
  { rewrite Ys in Ye. inversion Ye. reflexivity. }
  exists sr, er, base.
  split; [reflexivity|]. split; [exact Ts|]. split; [exact Te|].
  split; [exact Ys|]. split; [exact Hy|]. split.
  - unfold token_leb, dt_leb. rewrite Ts, Te, Hy, Z.ltb_irrefl, Z.eqb_refl.
    reflexivity.
  - intros prefix ext x1 x2 x3 x4 x5 x6 x7 x8 Hp Hps Hext Hfree Hes
      H1 H2 H3 H4 H5 H6 H7 H8 Hname.
    assert (Hparse : parse_dates_from_filename name
                     = Some (date_token x1 x2 x3 x4, date_token x5 x6 x7 x8,
                             (prefix ++ String "_"
                                (date_token x1 x2 x3 x4
                                 ++ String "-" (date_token x5 x6 x7 x8)))%string)).
    { subst name. unfold parse_dates_from_filename.
      rewrite stem_extension;
        [| destruct prefix; discriminate | exact Hext | exact Hfree
         | | exact Hes].
      2:{ rewrite all_chars_append, Hps. cbn [andb Re.all_chars].
          rewrite all_chars_append, (date_token_no_slash x1 x2 x3 x4 H1 H2 H3 H4).
          cbn [andb Re.all_chars].
          rewrite (date_token_no_slash x5 x6 x7 x8 H5 H6 H7 H8). reflexivity. }
      rewrite (search_skips_prefix prefix _ Hp).
      destruct (filename_regex_on_tokens x1 x2 x3 x4 x5 x6 x7 x8
                  H1 H2 H3 H4 H5 H6 H7 H8) as [m Hm].
      rewrite Hm. cbn [Re.group String.eqb Ascii.eqb Bool.eqb andb].
      pose proof (start_token_shape x1 x2 x3 x4 "" H1 H2 H3 H4
                    (or_introl eq_refl)) as Es'.
      pose proof (end_token_shape x5 x6 x7 x8 "." "" H5 H6 H7 H8
                    (or_introl eq_refl) (or_introl eq_refl)) as Ee'.
      unfold date_token in *. rewrite Es', Ee'. reflexivity. }
    rewrite Ep in Hparse. inversion Hparse. split; reflexivity.
Qed.

Lemma range_order_follows_tokens_witness :
  resolve_dates "2025" sample_name sample_sheet
  = Ok ("2025", mkdate 2025 3 3, mkdate 2025 3 7)
  /\ dt_leb (mkdate 2025 3 3) (mkdate 2025 3 7) = token_leb "03.03" "07.03".
Proof.
  assert (H : resolve_dates "2025" sample_name sample_sheet
              = Ok ("2025", mkdate 2025 3 3, mkdate 2025 3 7)).
  { vm_compute. reflexivity. }
  split; [exact H|].
  destruct (range_order_follows_tokens _ _ _ _ _ _ H)
    as (sr & er & base & Hp & _ & _ & _ & _ & Hleb & _).
  vm_compute in Hp. inversion Hp. subst sr er base. exact Hleb.
Defined.

(** C2 (as stated) fails: a file name whose first token is the later day
    resolves, and its start date lies after its end date. *)
Lemma range_order_counterexample :
  resolve_dates "2025" "AusbildungsnachweisU27_07.03-03.03.xlsx" sample_sheet
  = Ok ("2025", mkdate 2025 3 7, mkdate 2025 3 3)
  /\ dt_leb (mkdate 2025 3 7) (mkdate 2025 3 3) = false.
Proof.
  split; vm_compute; reflexivity.
Qed.

(** ** Names with two-digit years *)

Lemma rmatch_chr_ok (p : ascii -> bool) (c : ascii) (s : string) :
  p c = true -> Re.rmatch (Re.Chr p) (String c s) = [(String c "", s, [])].
Proof. intros H. simpl. rewrite H. reflexivity. Qed.

Lemma rmatch_seq_one (a b : Re.re) (s m1 s1 : string) (g1 : Re.captures) :
  Re.rmatch a s = [(m1, s1, g1)] ->
  Re.rmatch (Re.Seq a b) s
  = map (fun '(m2, s2, g2) => ((m1 ++ m2)%string, s2, g1 +++ g2)) (Re.rmatch b s1).
Proof.
  intros H. cbn [Re.rmatch]. rewrite H. cbn [flat_map]. apply app_nil_r.
Qed.

Lemma dot_is_no_digit (c : ascii) : is_digit c = true -> Ascii.eqb "." c = false.
Proof.
  intros H. rewrite Ascii.eqb_sym. exact (digit_not c "." H eq_refl).
Qed.

Lemma dash_is_no_digit (c : ascii) : is_digit c = true -> Ascii.eqb "-" c = false.
Proof.
  intros H. rewrite Ascii.eqb_sym. exact (digit_not c "-" H eq_refl).
Qed.

Lemma rmatch_two_digits (a b : ascii) (s : string) :
  is_digit a = true -> is_digit b = true ->
  Re.rmatch (Re.Seq (Re.Chr is_digit) (Re.Chr is_digit)) (String a (String b s))
  = [(String a (String b ""), s, [])].
Proof.
  intros Ha Hb.
  rewrite (rmatch_seq_one _ _ _ _ _ _ (rmatch_chr_ok is_digit a _ Ha)).
  rewrite (rmatch_chr_ok is_digit b s Hb). reflexivity.
Qed.

Lemma rmatch_grp (n : string) (a : Re.re) (s : string) :
  Re.rmatch (Re.Grp n a) s
  = map (fun '(m, s', g) => (m, s', g +++ [(n, m)])) (Re.rmatch a s).
Proof. reflexivity. Qed.

(** Both ways the first group matches DD.MM followed by a dot. *)
Lemma start_group_before_dot (a b c d : ascii) (s : string) :
  is_digit a = true -> is_digit b = true ->
  is_digit c = true -> is_digit d = true ->
  Re.rmatch
    (Re.Grp "1"
       (Re.Seq (Re.Seq (Re.Chr is_digit) (Re.Chr is_digit))
          (Re.Seq (Re.Chr (Ascii.eqb "."))
             (Re.Seq (Re.Seq (Re.Chr is_digit) (Re.Chr is_digit))
                (Re.Opt (Re.Chr (Ascii.eqb ".")))))))
    (date_token a b c d ++ String "." s)
  = [ ((date_token a b c d ++ ".")%string, s,
       [("1", (date_token a b c d ++ ".")%string)]);
      (date_token a b c d, String "." s, [("1", date_token a b c d)]) ].
Proof.
  intros Ha Hb Hc Hd. unfold date_token.
  cbn [String.append]. rewrite rmatch_grp.
  rewrite (rmatch_seq_one _ _ _ _ _ _ (rmatch_two_digits a b _ Ha Hb)).
  rewrite (rmatch_seq_one _ _ _ _ _ _
             (rmatch_chr_ok (Ascii.eqb ".") "." _ eq_refl)).
  rewrite (rmatch_seq_one _ _ _ _ _ _ (rmatch_two_digits c d _ Hc Hd)).
  reflexivity.
Qed.

(** What follows the first group cannot start at a digit. *)
Lemma after_start_group_no_digit (y : ascii) (s : string) (r : Re.re) :
  is_digit y = true ->
  Re.rmatch
    (Re.Seq (Re.Opt (Re.Seq (Re.Chr (Ascii.eqb "."))
                       (Re.Seq (Re.Chr is_digit) (Re.Chr is_digit))))
       (Re.Seq (Re.StarC is_space) (Re.Seq (Re.Chr (Ascii.eqb "-")) r)))
    (String y s)
  = [].
Proof.
  intros Hy.
  assert (H1 : Re.rmatch (Re.Opt (Re.Seq (Re.Chr (Ascii.eqb "."))
                            (Re.Seq (Re.Chr is_digit) (Re.Chr is_digit))))
                 (String y s) = [("", String y s, [])]).
  { cbn [Re.rmatch]. rewrite (dot_is_no_digit y Hy). reflexivity. }
  assert (H2 : Re.rmatch (Re.StarC is_space) (String y s) = [("", String y s, [])]).
  { cbn [Re.rmatch Re.star_chars]. rewrite (digit_not_space y Hy). reflexivity. }
  rewrite (rmatch_seq_one _ _ _ _ _ _ H1), (rmatch_seq_one _ _ _ _ _ _ H2).
  rewrite rmatch_seq_nil; [reflexivity|].
  cbn [Re.rmatch]. rewrite (dash_is_no_digit y Hy). reflexivity.
Qed.

(** The pattern on two DD.MM.YY tokens around a dash. *)
Lemma filename_regex_on_dated_tokens (a b c d y1 y2 e f g h y3 y4 : ascii) :
  is_digit a = true -> is_digit b = true ->
  is_digit c = true -> is_digit d = true ->
  is_digit y1 = true -> is_digit y2 = true ->
  is_digit e = true -> is_digit f = true ->
  is_digit g = true -> is_digit h = true ->
  is_digit y3 = true -> is_digit y4 = true ->
  exists m rest,
    Re.search filename_regex
      (String "_"
         (date_token a b c d
          ++ String "." (String y1 (String y2 (String "-"
               (date_token e f g h ++ String "." (String y3 (String y4 ""))))))))
    = Some (m, rest,
            [("1", date_token a b c d); ("2", (date_token e f g h ++ ".")%string)]).
Proof.
  intros Ha Hb Hc Hd Hy1 Hy2 He Hf Hg Hh Hy3 Hy4.
  set (tail2 := String y3 (String y4 "")).
  set (t2 := (date_token e f g h ++ String "." tail2)%string).
  set (s1 := String y1 (String y2 (String "-" t2))).
  pose proof (first_chr (Ascii.eqb "_") "_"
                (date_token a b c d ++ String "." s1) eq_refl) as H0.
  pose proof (start_group_before_dot a b c d s1 Ha Hb Hc Hd) as G1.
  (* the year of the first token *)
  pose proof (first_opt_take _ _ _ _ _
                (first_seq _ _ _ _ _ _ _ _ _
                   (first_chr (Ascii.eqb ".") "." s1 eq_refl)
                   (first_two_digits y1 y2 (String "-" t2) Hy1 Hy2))) as H2.
  pose proof (first_star_stop is_space (String "-" t2) eq_refl) as H3.
  pose proof (first_chr (Ascii.eqb "-") "-" t2 eq_refl) as H4.
  pose proof (first_star_stop is_space t2 (digit_not_space e He)) as H5.
  (* the second group takes the dot that starts its year *)
  pose proof (first_grp "2" _ _ _ _ _
                (first_seq _ _ _ _ _ _ _ _ _
                   (first_two_digits e f
                      (String "." (String g (String h (String "." tail2)))) He Hf)
                   (first_seq _ _ _ _ _ _ _ _ _
                      (first_alt_l _ (Re.Chr (Ascii.eqb "-")) _ _ _ _
                         (first_chr (Ascii.eqb ".") "."
                            (String g (String h (String "." tail2))) eq_refl))
                      (first_seq _ _ _ _ _ _ _ _ _
                         (first_two_digits g h (String "." tail2) Hg Hh)
                         (first_opt_take _ _ _ _ _
                            (first_chr (Ascii.eqb ".") "." tail2 eq_refl))))))
    as H6.
  pose proof (first_opt_skip
                (Re.Seq (Re.Chr (Ascii.eqb "."))
                   (Re.Seq (Re.Chr is_digit) (Re.Chr is_digit)))
                tail2
                (rmatch_seq_nil _ _ _
                   (rmatch_chr_no (Ascii.eqb ".") tail2 (dot_is_no_digit y3 Hy3))))
    as H7.
  pose proof (first_seq _ _ _ _ _ _ _ _ _ H2
               (first_seq _ _ _ _ _ _ _ _ _ H3
                 (first_seq _ _ _ _ _ _ _ _ _ H4
                   (first_seq _ _ _ _ _ _ _ _ _ H5
                     (first_seq _ _ _ _ _ _ _ _ _ H6 H7))))) as Hrest.
  pose proof (first_seq_retry _ _ _ _ _ _ _ _ _ _ _ _ _ G1
                (after_start_group_no_digit y1 _ _ Hy1) Hrest) as H1.
  pose proof (first_seq _ _ _ _ _ _ _ _ _ H0 H1) as H.
  do 2 eexists. exact (first_search _ _ _ _ _ H).
Qed.

(** X12: in a file name (no slash in it) of the form
    prefix_DD.MM.YY-DD.MM.YY.ext the two-digit years are no part of the
    tokens: the tokens are DD.MM and DD.MM, as for the name without
    years, and the stem is the name without its extension. *)
Theorem dated_name_tokens (prefix ext : string)
  (a b c d y1 y2 e f g h y3 y4 : ascii) :
  Re.all_chars (Re.other_than "_") prefix = true ->
  Re.all_chars (Re.other_than "/") prefix = true ->
  ext <> "" -> Re.all_chars (Re.other_than ".") ext = true ->
  Re.all_chars (Re.other_than "/") ext = true ->
  is_digit a = true -> is_digit b = true ->
  is_digit c = true -> is_digit d = true ->
  is_digit y1 = true -> is_digit y2 = true ->
  is_digit e = true -> is_digit f = true ->
  is_digit g = true -> is_digit h = true ->
  is_digit y3 = true -> is_digit y4 = true ->
  let base :=
    (prefix ++ String "_"
       (date_token a b c d
        ++ String "." (String y1 (String y2 (String "-"
             (date_token e f g h
              ++ String "." (String y3 (String y4 "")))))))) in
  parse_dates_from_filename (base ++ String "." ext)
  = Some (date_token a b c d, date_token e f g h, base).
Proof.
  intros Hp Hps Hext Hfree Hes Ha Hb Hc Hd Hy1 Hy2 He Hf Hg Hh Hy3 Hy4.
  cbv zeta. unfold parse_dates_from_filename.
  rewrite stem_extension;
    [| destruct prefix; discriminate | exact Hext | exact Hfree | | exact Hes].
  2:{ rewrite all_chars_append, Hps. cbn [andb Re.all_chars].
      rewrite all_chars_append, (date_token_no_slash a b c d Ha Hb Hc Hd).
      cbn [andb Re.all_chars].
      rewrite all_chars_append, (date_token_no_slash e f g h He Hf Hg Hh).
      cbn [andb Re.all_chars].
      rewrite (in_range_excludes "0" "9" y1 "/" Hy1 eq_refl).
      rewrite (in_range_excludes "0" "9" y2 "/" Hy2 eq_refl).
      rewrite (in_range_excludes "0" "9" y3 "/" Hy3 eq_refl).
      rewrite (in_range_excludes "0" "9" y4 "/" Hy4 eq_refl).
      reflexivity. }
  rewrite (search_skips_prefix prefix _ Hp).
  destruct (filename_regex_on_dated_tokens a b c d y1 y2 e f g h y3 y4
              Ha Hb Hc Hd Hy1 Hy2 He Hf Hg Hh Hy3 Hy4) as [m [rest Hm]].
  rewrite Hm. cbn [Re.group String.eqb Ascii.eqb Bool.eqb andb].
  pose proof (start_token_shape a b c d "" Ha Hb Hc Hd (or_introl eq_refl)) as Es.
  pose proof (end_token_shape e f g h "." "." He Hf Hg Hh
                (or_introl eq_refl) (or_intror eq_refl)) as Ee.
  unfold date_token in *. cbn [String.append]. rewrite Es, Ee.
  reflexivity.
Qed.

Lemma dated_name_tokens_witness :
  Re.all_chars (Re.other_than "_") "AusbildungsnachweisU27" = true
  /\ Re.all_chars (Re.other_than "/") "AusbildungsnachweisU27" = true
  /\ "xlsx" <> "" /\ Re.all_chars (Re.other_than ".") "xlsx" = true
  /\ Re.all_chars (Re.other_than "/") "xlsx" = true
  /\ parse_dates_from_filename "AusbildungsnachweisU27_30.12.24-03.01.25.xlsx"
     = Some ("30.12", "03.01", "AusbildungsnachweisU27_30.12.24-03.01.25").
Proof.
  do 2 (split; [reflexivity|]). split; [discriminate|].
  do 2 (split; [reflexivity|]).
  exact (dated_name_tokens "AusbildungsnachweisU27" "xlsx"
           "3" "0" "1" "2" "2" "4" "0" "3" "0" "1" "2" "5"
           eq_refl eq_refl ltac:(discriminate) eq_refl eq_refl
           eq_refl eq_refl eq_refl eq_refl eq_refl eq_refl
           eq_refl eq_refl eq_refl eq_refl eq_refl eq_refl).
Defined.

(* ================================================================== *)
(** * Further properties: dates and failures *)

Lemma strptime_error (s : string) (yd : Strptime.year_directive) (e : Exn) :
  Strptime.strptime s yd = Error e -> e = StrptimeError.
Proof.
  unfold Strptime.strptime.
  destruct (Re.rematch (Strptime.format_regex yd) s) as [[[m rest] g]|];
    [|intros H; inversion H; reflexivity].
  destruct (is_empty rest); [|intros H; inversion H; reflexivity].
  destruct (Strptime.group_int "d" g); [|intros H; inversion H; reflexivity].
  destruct (Strptime.group_int "m" g); [|intros H; inversion H; reflexivity].
  destruct (Strptime.group_int "y" g); [|intros H; inversion H; reflexivity].
  destruct (valid_date _ _ _); intros H; inversion H; reflexivity.
Qed.

(** The year text a successful [strptime] has read: four digits for %Y,
    two for %y. *)
Lemma strptime_year_text (s : string) (yd : Strptime.year_directive)
  (dt : datetime) :
  Strptime.strptime s yd = Ok dt ->
  exists md mm my,
    split_on "." s = [md; mm; my]
    /\ Re.all_chars is_digit my = true
    /\ String.length my = match yd with
                          | Strptime.Y4 => 4%nat
                          | Strptime.Y2 => 2%nat
                          end.
Proof.
  unfold Strptime.strptime.
  destruct (Re.rematch (Strptime.format_regex yd) s) as [[[m rest] g]|] eqn:E;
    [|discriminate].
  apply rematch_sound in E. destruct E as [Hs D].
  destruct rest as [|x rest]; [|discriminate]. intros _.
  rewrite append_empty_r in Hs. subst m.
  unfold Strptime.format_regex, Re.lit in D.
  inversion D as [|a1 b1 md r1 gd' g1 Dd D1| | | | | |]; subst. clear D.
  inversion Dd as [| | | | | | |n1 a md' gd Dd']; subst. clear Dd.
  inversion D1 as [|a2 b2 p1 r2 gp1 g2 Dp1 D2| | | | | |]; subst. clear D1.
  inversion Dp1 as [p c1 Hc1| | | | | | |]; subst. clear Dp1.
  inversion D2 as [|a3 b3 mm r3 gm' g3 Dm D3| | | | | |]; subst. clear D2.
  inversion Dm as [| | | | | | |n2 a mm' gm Dm']; subst. clear Dm.
  inversion D3 as [|a4 b4 p2 my gp2 gy' Dp2 Dy| | | | | |]; subst. clear D3.
  inversion Dp2 as [p c2 Hc2| | | | | | |]; subst. clear Dp2.
  inversion Dy as [| | | | | | |n3 a my' gy Dy']; subst. clear Dy.
  apply lit_char in Hc1, Hc2. subst c1 c2.
  exists md, mm, my. split.
  { simpl. rewrite (split_on_app "." md), (split_on_free "." md (day_text_free _ _ Dd')).
    simpl. rewrite (split_on_app "." mm), (split_on_free "." mm (month_text_free _ _ Dm')).
    simpl. rewrite (split_on_free "." my (year_text_free _ _ _ Dy')). reflexivity. }
  destruct yd; unfold Strptime.re_year, Re.digit in Dy'; invert_derives;
    simpl;
    repeat match goal with H : is_digit _ = true |- _ => rewrite H; clear H end;
    split; reflexivity.
Qed.

Lemma parse_date_valid (tok y : string) (dt : datetime) :
  parse_date tok y = Ok dt ->
  valid_date (year dt) (month dt) (day dt) = true.
Proof.
  intros H. unfold parse_date in H.
  destruct (Nat.eqb (List.length (split_on "." tok)) 3).
  - destruct (strptime_fields _ _ _ H)
      as (md & mm & my & yv & _ & _ & _ & _ & _ & _ & Hv).
    exact Hv.
  - destruct (Nat.eqb (List.length (split_on "." tok)) 2); [|discriminate].
    destruct (strptime_fields _ _ _ H)
      as (md & mm & my & yv & _ & _ & _ & _ & _ & _ & Hv).
    exact Hv.
Qed.

(** A two-part token parses only with a year text of four digits. *)
Lemma parse_date_year_text (tok y : string) (dt : datetime) :
  List.length (split_on "." tok) = 2%nat ->
  parse_date tok y = Ok dt ->
  String.length y = 4%nat /\ Re.all_chars is_digit y = true.
Proof.
  intros Hlen H. unfold parse_date in H. rewrite Hlen in H. cbn [Nat.eqb] in H.
  destruct (strptime_year_text _ _ _ H) as (md & mm & my & Hs & Hd & Hl).
  change (tok ++ "." ++ y)%string with (tok ++ String "." y)%string in Hs.
  rewrite split_on_app in Hs.
  destruct (split_on "." tok) as [|p1 [|p2 [|p3 l]]]; try discriminate Hlen.
  simpl in Hs. inversion Hs as [[E1 E2 E3]].
  apply split_on_single in E3. subst my. split; assumption.
Qed.

(** X13: a date returned by [parse_date] is a real calendar date; and a
    two-part token parses only if the year text has exactly four digits. *)
Theorem parse_date_gives_real_date (tok y : string) (dt : datetime) :
  parse_date tok y = Ok dt ->
  valid_date (year dt) (month dt) (day dt) = true
  /\ 1 <= year dt <= 9999 /\ 1 <= month dt <= 12
  /\ 1 <= day dt <= days_in_month (year dt) (month dt)
  /\ (List.length (split_on "." tok) = 2%nat ->
      String.length y = 4%nat /\ Re.all_chars is_digit y = true).
Proof.
  intros H.
  pose proof (parse_date_valid tok y dt H) as Hv.
  split; [exact Hv|].
  assert (Hb := Hv). unfold valid_date in Hb.
  repeat (apply andb_true_iff in Hb; destruct Hb as [Hb ?]).
  repeat match goal with
         | H : (_ <=? _) = true |- _ => apply Z.leb_le in H
         end.
  split; [lia|]. split; [lia|]. split; [lia|].
  intros Hlen. exact (parse_date_year_text tok y dt Hlen H).
Qed.

Lemma parse_date_gives_real_date_witness :
  parse_date "29.02" "2024" = Ok (mkdate 2024 2 29)
  /\ valid_date 2024 2 29 = true.
Proof.
  assert (H : parse_date "29.02" "2024" = Ok (mkdate 2024 2 29))
    by (vm_compute; reflexivity).
  split; [exact H|].
  exact (proj1 (parse_date_gives_real_date "29.02" "2024" _ H)).
Defined.

(** ** The tokens in the output file name *)






(** ** How a conversion can fail *)

Lemma resolve_year_error (default_year name : string) (df : DataFrame) (e : Exn) :
  resolve_year default_year name df = Error e ->
  e = IndexError /\ (11 < shape1 df)%nat /\ iloc df 2 11 = Error IndexError.
Proof.
  unfold resolve_year.
  destruct (Nat.ltb 11 (shape1 df)) eqn:Hw; [|discriminate].
  apply Nat.ltb_lt in Hw.
  destruct (iloc df 2 11) as [c|e'] eqn:Ei.
  - simpl. destruct (isna c); simpl; [discriminate|].
    destruct (int_of_cell c); discriminate.
  - simpl. intros H. inversion H. subst e'.
    assert (e = IndexError).
    { unfold iloc in Ei. destruct (nth_error df 2) as [r|];
        [destruct (nth_error r 11)|]; inversion Ei; reflexivity. }
    subst e. repeat split; assumption.
Qed.

Lemma iloc_error_rows (df : DataFrame) (i j : nat) (e : Exn) :
  rectangular df -> (j < shape1 df)%nat ->
  iloc df i j = Error e ->
  e = IndexError /\ (List.length df <= i)%nat.
Proof.
  intros Hrect Hj. unfold iloc.
  destruct (nth_error df i) as [r|] eqn:Er.
  - assert (Hlen : List.length r = shape1 df).
    { apply nth_error_In in Er. exact (proj1 (Forall_forall _ _) Hrect r Er). }
    destruct (nth_error r j) eqn:Ec; [discriminate|].
    apply nth_error_None in Ec. lia.
  - intros H. inversion H. split; [reflexivity|].
    apply nth_error_None. exact Er.
Qed.

Section Failures.
Context {B : Builtins}.

Lemma header_field_error (df : DataFrame) (i : nat) (d : string) (e : Exn) :
  header_field df i d = Error e ->
  (7 < shape1 df)%nat /\ iloc df i 7 = Error e.
Proof.
  unfold header_field.
  destruct (Nat.ltb 7 (shape1 df)) eqn:Hw; [|discriminate].
  apply Nat.ltb_lt in Hw.
  destruct (iloc df i 7) as [c|e']; simpl; [discriminate|].
  intros H. inversion H. split; [exact Hw | reflexivity].
Qed.

Lemma flush_day_error (st : State) (e : Exn) :
  flush_day st = Error e ->
  (e = IntOfInfinity \/ e = IntOfNaN) /\ renderable (pending_hours st) = false.
Proof.
  unfold flush_day.
  destruct (current_date st); [|discriminate].
  destruct (daily_activities st); [discriminate|].
  destruct (pending_hours st) as [[q|n|]|]; simpl; try discriminate;
    intros H; inversion H; split; auto.
Qed.

Lemma scan_rows_error (rows : list Row) (st : State) (e : Exn) :
  pending_hours st = None ->
  scan_rows st rows = Error e ->
  (e = IntOfInfinity \/ e = IntOfNaN)
  /\ Exists (fun row => writable_hours (cell_at row 11) = false) rows.
Proof.
  revert st. induction rows as [|row rows IH]; intros st Hp H; simpl in H;
    [discriminate|].
  destruct (process_row st row) as [s|e'] eqn:Es; simpl in H.
  - destruct (IH s (process_row_pending st s row Hp Es) H) as [He Hex].
    split; [exact He | apply Exists_cons_tl; exact Hex].
  - inversion H. subst e'. clear H.
    destruct (is_timestamp (cell_at row 1)) eqn:Hts.
    + destruct (cell_at row 1) as [| |d| | |] eqn:Hc; try discriminate Hts.
      rewrite (process_row_date st row d Hc) in Es.
      destruct (flush_day st) as [f|e'] eqn:Ef; [discriminate Es|].
      apply flush_day_error in Ef. rewrite Hp in Ef.
      destruct Ef as [_ Ef]. discriminate Ef.
    + rewrite (process_row_other st row Hts) in Es. cbv zeta in Es.
      destruct (current_date (add_activity st (cell_at row 2)));
        [|discriminate Es].
      destruct (notna (cell_at row 11)) eqn:Hn; [|discriminate Es].
      destruct (flush_day (set_hours (add_activity st (cell_at row 2))
                             (cell_at row 11))) as [f|e'] eqn:Ef;
        [discriminate Es|].
      simpl in Es. inversion Es. subst e'.
      apply flush_day_error in Ef. destruct Ef as [He Hr].
      split; [exact He|]. apply Exists_cons_hd.
      unfold writable_hours. unfold notna in Hn.
      apply negb_true_iff in Hn. rewrite Hn. exact Hr.
Qed.

Lemma run_rows_error (rows : list Row) (lines : list string) (e : Exn) :
  run_rows (init_state lines) rows = Error e ->
  (e = IntOfInfinity \/ e = IntOfNaN)
  /\ Exists (fun row => writable_hours (cell_at row 11) = false) rows.
Proof.
  unfold run_rows.
  destruct (scan_rows (init_state lines) rows) as [s|e'] eqn:Es; simpl.
  - intros H. apply flush_day_error in H.
    rewrite (scan_rows_pending rows (init_state lines) s eq_refl Es) in H.
    destruct H as [_ H]. discriminate H.
  - intros H. inversion H. subst e'.
    exact (scan_rows_error rows (init_state lines) e eq_refl Es).
Qed.

Lemma Exists_skipn {A : Type} (P : A -> Prop) (k : nat) (l : list A) :
  Exists P (skipn k l) -> Exists P l.
Proof.
  intros H. rewrite <- (firstn_skipn k l). apply Exists_app. right. exact H.
Qed.

(** X15: the ways a conversion of a rectangular sheet can fail: the file
    name has no token pair; a token is no date of the resolved year; the
    sheet has more than 7 columns but fewer than 3 rows; or an hours cell
    that is not empty holds an infinite float or a text that float()
    reads as infinity or NaN.  The format error of [parse_date] (line 51)
    never leaves the conversion. *)
Theorem conversion_failure_modes (default_year name : string)
  (df : DataFrame) (e : Exn) :
  rectangular df ->
  convert_excel_to_markdown default_year name df = Error e ->
  (e = CannotParseFilename /\ parse_dates_from_filename name = None)
  \/ e = StrptimeError
  \/ (e = IndexError /\ (7 < shape1 df)%nat /\ (List.length df < 3)%nat)
  \/ ((e = IntOfInfinity \/ e = IntOfNaN)
      /\ Exists (fun row => writable_hours (cell_at row 11) = false) df).
Proof.
  intros Hrect. unfold convert_excel_to_markdown.
  destruct (resolve_dates default_year name df) as [[[y s] en]|e'] eqn:Er;
    simpl.
  - destruct (isocalendar s) as [[iy w] wd].
    destruct (build_lines df y w s en) as [st|e'] eqn:Eb; simpl; [discriminate|].
    intros H. inversion H. subst e'. clear H.
    unfold build_lines in Eb.
    destruct (header_field df 0 default_name) as [person|e'] eqn:E0; simpl in Eb.
    + destruct (header_field df 1 default_course) as [course|e''] eqn:E1;
        simpl in Eb.
      * apply run_rows_error in Eb. destruct Eb as [He Hex].
        right. right. right. split; [exact He | exact (Exists_skipn _ _ _ Hex)].
      * inversion Eb. subst e''.
        apply header_field_error in E1. destruct E1 as [Hw Hi].
        destruct (iloc_error_rows df 1 7 e Hrect Hw Hi) as [He Hl].
        right. right. left. subst e. repeat split; [exact Hw | lia].
    + inversion Eb. subst e'.
      apply header_field_error in E0. destruct E0 as [Hw Hi].
      destruct (iloc_error_rows df 0 7 e Hrect Hw Hi) as [He Hl].
      right. right. left. subst e. repeat split; [exact Hw | lia].
  - intros H. inversion H. subst e'. clear H.
    unfold resolve_dates in Er.
    destruct (parse_dates_from_filename name) as [[[sr er] base]|] eqn:Ep.
    + destruct (filename_tokens _ _ _ _ Ep)
        as (a & b & c & d & a' & b' & c' & d'
            & Ha & Hb & Hc & Hd & Ha' & Hb' & Hc' & Hd' & Es & Ee).
      subst sr er. cbn [is_empty date_token] in Er.
      destruct (resolve_year default_year name df) as [y|e'] eqn:Ey; simpl in Er.
      * right. left.
        unfold date_range in Er.
        assert (Hpd : forall p q r t yy e0,
                  is_digit p = true -> is_digit q = true ->
                  is_digit r = true -> is_digit t = true ->
                  parse_date (date_token p q r t) yy = Error e0 ->
                  e0 = StrptimeError).
        { intros p q r t yy e0 Hp Hq Hr' Ht Hpe. unfold parse_date in Hpe.
          rewrite (date_token_two_parts p q r t Hp Hq Hr' Ht) in Hpe.
          cbn [Nat.eqb] in Hpe. exact (strptime_error _ _ _ Hpe). }
        fold (date_token a b c d) in Er. fold (date_token a' b' c' d') in Er.
        destruct (parse_date (date_token a b c d) y) as [s|e'] eqn:Es; simpl in Er.
        -- destruct (parse_date (date_token a' b' c' d') y) as [en|e''] eqn:Ee;
             simpl in Er; [discriminate|].
           inversion Er. subst e''. exact (Hpd _ _ _ _ _ _ Ha' Hb' Hc' Hd' Ee).
        -- inversion Er. subst e'. exact (Hpd _ _ _ _ _ _ Ha Hb Hc Hd Es).
      * inversion Er. subst e'.
        apply resolve_year_error in Ey. destruct Ey as [He [Hw Hi]].
        destruct (iloc_error_rows df 2 11 _ Hrect Hw Hi) as [_ Hl].
        right. right. left. repeat split; [exact He | lia | lia].
    + inversion Er. left. split; reflexivity.
Qed.

End Failures.

Lemma conversion_failure_modes_witness :
  rectangular short_sheet
  /\ @convert_excel_to_markdown sample_builtins "2025" sample_name short_sheet
     = Error IndexError
  /\ (List.length short_sheet < 3)%nat.
Proof.
  assert (Hr : rectangular short_sheet) by (repeat constructor).
  assert (Hc : @convert_excel_to_markdown sample_builtins "2025" sample_name
                 short_sheet = Error IndexError) by (vm_compute; reflexivity).
  split; [exact Hr|]. split; [exact Hc|].
  destruct (@conversion_failure_modes sample_builtins _ _ _ _ Hr Hc)
    as [[H _]|[H|[[_ [_ H]]|[[H|H] _]]]]; try discriminate H.
  exact H.
Defined.

(** ** The year cell *)

(** X16: on a rectangular sheet that has row 2 (or no column 11) the year
    is resolved without an exception by the fallback chain: the integer
    of the cell at row 2, column 11 if that cell is there, not empty and
    converts; else "2024" if the file name contains ".24"; else the
    default year. *)
Theorem year_fallback_chain_on_full_sheets (default_year name : string)
  (df : DataFrame) :
  rectangular df ->
  (shape1 df <= 11 \/ 3 <= List.length df)%nat ->
  let from_name := if contains ".24" name then "2024" else default_year in
  exists actual_year,
    resolve_year default_year name df = Ok actual_year
    /\ (forall c n, (11 < shape1 df)%nat -> iloc df 2 11 = Ok c ->
          isna c = false -> int_of_cell c = Some n ->
          actual_year = str_of_int n)
    /\ ((shape1 df <= 11)%nat -> actual_year = from_name)
    /\ (forall c, iloc df 2 11 = Ok c -> isna c = true ->
          actual_year = from_name)
    /\ (forall c, iloc df 2 11 = Ok c -> int_of_cell c = None ->
          actual_year = from_name).
Proof.
  intros Hrect Hsize. cbv zeta.
  exists (year_by_fallback_chain default_year name df).
  split; [exact (resolve_year_chain default_year name df Hrect Hsize)|].
  unfold year_by_fallback_chain.
  split; [|split; [|split]].
  - intros c n _ Hc Hn Hi. rewrite Hc, Hn, Hi. reflexivity.
  - intros Hw. unfold iloc.
    destruct (nth_error df 2) as [r|] eqn:Er; [|reflexivity].
    assert (Hlen : List.length r = shape1 df).
    { apply nth_error_In in Er. exact (proj1 (Forall_forall _ _) Hrect r Er). }
    destruct (nth_error r 11) as [c|] eqn:Ec; [|reflexivity].
    assert (11 < List.length r)%nat.
    { apply nth_error_Some. rewrite Ec. discriminate. }
    lia.
  - intros c Hc Hn. rewrite Hc, Hn. reflexivity.
  - intros c Hc Hi. rewrite Hc, Hi. destruct (isna c); reflexivity.
Qed.

Lemma year_fallback_chain_on_full_sheets_witness :
  rectangular sample_sheet
  /\ (shape1 sample_sheet <= 11 \/ 3 <= List.length sample_sheet)%nat
  /\ exists actual_year,
       resolve_year "2025" sample_name sample_sheet = Ok actual_year.
Proof.
  assert (Hr : rectangular sample_sheet) by (repeat constructor).
  assert (Hs : (shape1 sample_sheet <= 11 \/ 3 <= List.length sample_sheet)%nat)
    by (right; simpl; lia).
  split; [exact Hr|]. split; [exact Hs|].
  destruct (year_fallback_chain_on_full_sheets "2025" sample_name sample_sheet
              Hr Hs) as [y [Hy _]].
  exists y. exact Hy.
Defined.

(** X17: column 11 is the hours column too.  When the cell at row 2,
    column 11 converts to an integer whose text is not four characters
    long (an hours value such as 8), that text is taken as the year and no
    token parses: the conversion of a file with a token pair fails with
    the ValueError of strptime. *)
Theorem year_cell_needs_four_digits (default_year name : string)
  (df : DataFrame) (c : Cell) (n : Z) :
  (11 < shape1 df)%nat ->
  iloc df 2 11 = Ok c -> isna c = false -> int_of_cell c = Some n ->
  String.length (str_of_int n) <> 4%nat ->
  parse_dates_from_filename name <> None ->
  resolve_dates default_year name df = Error StrptimeError
  /\ forall B : Builtins,
       @convert_excel_to_markdown B default_year name df = Error StrptimeError.
Proof.
  intros Hw Hc Hn Hi Hlen Hp.
  assert (Hres : resolve_dates default_year name df = Error StrptimeError).
  { unfold resolve_dates.
    destruct (parse_dates_from_filename name) as [[[sr er] base]|] eqn:Ep;
      [|contradiction].
    destruct (filename_tokens _ _ _ _ Ep)
      as (a & b & c1 & d & a' & b' & c' & d'
          & Ha & Hb & Hc1 & Hd & Ha' & Hb' & Hc' & Hd' & Es & Ee).
    subst sr er. cbn [is_empty date_token].
    fold (date_token a b c1 d). fold (date_token a' b' c' d').
    assert (Hy : resolve_year default_year name df = Ok (str_of_int n)).
    { unfold resolve_year. apply Nat.ltb_lt in Hw. rewrite Hw, Hc. simpl.
      rewrite Hn, Hi. reflexivity. }
    rewrite Hy. cbn [bind]. unfold date_range.
    destruct (parse_date (date_token a b c1 d) (str_of_int n)) as [s|e] eqn:E1.
    - destruct (parse_date_year_text _ _ _
                  (date_token_two_parts a b c1 d Ha Hb Hc1 Hd) E1) as [Hl _].
      contradiction.
    - simpl. unfold parse_date in E1.
      rewrite (date_token_two_parts a b c1 d Ha Hb Hc1 Hd) in E1.
      cbn [Nat.eqb] in E1. rewrite (strptime_error _ _ _ E1). reflexivity. }
  split; [exact Hres|]. intros B.
  unfold convert_excel_to_markdown. rewrite Hres. reflexivity.
Qed.

Lemma year_cell_needs_four_digits_witness :
  (11 < shape1 hours_in_row_2)%nat
  /\ iloc hours_in_row_2 2 11 = Ok (Int 8)
  /\ String.length (str_of_int 8) <> 4%nat
  /\ parse_dates_from_filename sample_name <> None
  /\ resolve_dates "2025" sample_name hours_in_row_2 = Error StrptimeError.
Proof.
  assert (Hw : (11 < shape1 hours_in_row_2)%nat) by (simpl; lia).
  assert (Hl : String.length (str_of_int 8) <> 4%nat) by (vm_compute; discriminate).
  assert (Hp : parse_dates_from_filename sample_name <> None)
    by (vm_compute; discriminate).
  split; [exact Hw|]. split; [reflexivity|]. split; [exact Hl|].
  split; [exact Hp|].
  exact (proj1 (year_cell_needs_four_digits "2025" sample_name hours_in_row_2
                  (Int 8) 8 Hw eq_refl eq_refl eq_refl Hl Hp)).
Defined.

(* ================================================================== *)
(** * Further properties: the ISO week *)

Lemma year_length (y : Z) :
  ymd2ord (y + 1) 1 1 - ymd2ord y 1 1 = if is_leap y then 366 else 365.
Proof.
  unfold ymd2ord, days_before_year, days_before_month, is_leap. simpl.
  replace (y + 1 - 1) with y by lia.
  destruct (y mod 4 =? 0) eqn:E4; destruct (y mod 100 =? 0) eqn:E100;
    destruct (y mod 400 =? 0) eqn:E400; simpl;
    rewrite ?Z.eqb_eq, ?Z.eqb_neq in *;
    Z.div_mod_to_equations; lia.
Qed.

Lemma week1_monday (y : Z) :
  isoweek1monday y mod 7 = 1
  /\ ymd2ord y 1 4 - 6 <= isoweek1monday y <= ymd2ord y 1 4.
Proof.
  unfold isoweek1monday. cbv zeta.
  assert (E4 : ymd2ord y 1 4 = ymd2ord y 1 1 + 3).
  { unfold ymd2ord. lia. }
  rewrite E4. generalize (ymd2ord y 1 1) as F. intros F.
  destruct (3 <? (F + 6) mod 7) eqn:E;
    rewrite ?Z.ltb_lt, ?Z.ltb_ge in E;
    Z.div_mod_to_equations; lia.
Qed.

Lemma days_before_month_table (y : Z) :
  let feb := if is_leap y then 29 else 28 in
  days_before_month y 1 = 0
  /\ days_before_month y 2 = 31
  /\ days_before_month y 3 = 31 + feb
  /\ days_before_month y 4 = 31 + feb + 31
  /\ days_before_month y 5 = 31 + feb + 31 + 30
  /\ days_before_month y 6 = 31 + feb + 31 + 30 + 31
  /\ days_before_month y 7 = 31 + feb + 31 + 30 + 31 + 30
  /\ days_before_month y 8 = 31 + feb + 31 + 30 + 31 + 30 + 31
  /\ days_before_month y 9 = 31 + feb + 31 + 30 + 31 + 30 + 31 + 31
  /\ days_before_month y 10 = 31 + feb + 31 + 30 + 31 + 30 + 31 + 31 + 30
  /\ days_before_month y 11 = 31 + feb + 31 + 30 + 31 + 30 + 31 + 31 + 30 + 31
  /\ days_before_month y 12
     = 31 + feb + 31 + 30 + 31 + 30 + 31 + 31 + 30 + 31 + 30.
Proof. cbv zeta. repeat split; reflexivity. Qed.

Lemma day_of_year (y m d : Z) :
  valid_date y m d = true ->
  1 <= days_before_month y m + d <= if is_leap y then 366 else 365.
Proof.
  unfold valid_date. intros H.
  repeat (apply andb_true_iff in H; destruct H as [H ?]).
  repeat match goal with
         | H : (_ <=? _) = true |- _ => apply Z.leb_le in H
         end.
  assert (Hm : m = 1 \/ m = 2 \/ m = 3 \/ m = 4 \/ m = 5 \/ m = 6 \/ m = 7
               \/ m = 8 \/ m = 9 \/ m = 10 \/ m = 11 \/ m = 12) by lia.
  pose proof (days_before_month_table y) as T. cbv zeta in T.
  destruct T as (T1 & T2 & T3 & T4 & T5 & T6 & T7 & T8 & T9 & T10 & T11 & T12).
  repeat (destruct Hm as [Hm|Hm]); subst m;
    match goal with
    | H : d <= days_in_month _ _ |- _ => unfold days_in_month in H; simpl in H
    end;
    rewrite ?T1, ?T2, ?T3, ?T4, ?T5, ?T6, ?T7, ?T8, ?T9, ?T10, ?T11, ?T12;
    destruct (is_leap y); lia.
Qed.

(** For a real date, [isocalendar] gives the ISO 8601 year, week and
    day of the week. *)
Lemma isocalendar_iso8601 (dt : datetime) (Y W D : Z) :
  valid_date (year dt) (month dt) (day dt) = true ->
  isocalendar dt = (Y, W, D) ->
  1 <= W <= 53 /\ 1 <= D <= 7
  /\ D = (toordinal dt + 6) mod 7 + 1
  /\ toordinal dt = isoweek1monday Y + 7 * (W - 1) + (D - 1)
  /\ isoweek1monday Y <= toordinal dt < isoweek1monday (Y + 1)
  /\ isoweek1monday Y mod 7 = 1
  /\ ymd2ord Y 1 4 - 6 <= isoweek1monday Y <= ymd2ord Y 1 4
  /\ year dt - 1 <= Y <= year dt + 1.
Proof.
  intros Hv Hiso. destruct dt as [y m d]. simpl in Hv.
  unfold isocalendar, toordinal in *. cbn [year month day] in *. cbv zeta in Hiso.
  pose proof (day_of_year y m d Hv) as Hdoy.
  pose proof (year_length (y - 1)) as L0.
  replace (y - 1 + 1) with y in L0 by lia.
  pose proof (year_length y) as L1.
  pose proof (year_length (y + 1)) as L2.
  replace (y + 1 + 1) with (y + 2) in L2 by lia.
  destruct (week1_monday (y - 1)) as [M0 B0].
  destruct (week1_monday y) as [M1 B1].
  destruct (week1_monday (y + 1)) as [M2 B2].
  destruct (week1_monday (y + 2)) as [M3 B3].
  assert (E : forall z, ymd2ord z 1 4 = ymd2ord z 1 1 + 3).
  { intros z. unfold ymd2ord. lia. }
  rewrite E in B0, B1, B2, B3.
  assert (Et : ymd2ord y m d = ymd2ord y 1 1 - 1 + (days_before_month y m + d)).
  { unfold ymd2ord.
    replace (days_before_month y 1) with 0 by reflexivity. lia. }
  rewrite Et in *. clear Et.
  assert (Hl0 : 365 <= ymd2ord y 1 1 - ymd2ord (y - 1) 1 1 <= 366)
    by (destruct (is_leap (y - 1)); lia).
  assert (Hl1 : 365 <= ymd2ord (y + 1) 1 1 - ymd2ord y 1 1 <= 366)
    by (destruct (is_leap y); lia).
  assert (Hl2 : 365 <= ymd2ord (y + 2) 1 1 - ymd2ord (y + 1) 1 1 <= 366)
    by (destruct (is_leap (y + 1)); lia).
  assert (Hdoy' : 1 <= days_before_month y m + d
                  <= ymd2ord (y + 1) 1 1 - ymd2ord y 1 1)
    by (destruct (is_leap y); lia).
  clear L0 L1 L2 Hdoy Hv.
  destruct ((ymd2ord y 1 1 - 1 + (days_before_month y m + d)
             - isoweek1monday y) / 7 <? 0) eqn:C1.
  - inversion Hiso. subst Y W D. clear Hiso.
    replace (y - 1 + 1) with y by lia.
    rewrite (E (y - 1)). apply Z.ltb_lt in C1.
    revert M0 B0 M1 B1 Hl0 Hl1 Hdoy' C1.
    generalize (days_before_month y m + d) as n.
    generalize (isoweek1monday (y - 1)) as w0.
    generalize (isoweek1monday y) as w1.
    generalize (ymd2ord (y - 1) 1 1) as f0.
    generalize (ymd2ord y 1 1) as f1.
    generalize (ymd2ord (y + 1) 1 1) as f2.
    intros. Z.div_mod_to_equations. lia.
  - apply Z.ltb_ge in C1.
    destruct ((52 <=? (ymd2ord y 1 1 - 1 + (days_before_month y m + d)
                       - isoweek1monday y) / 7)
              && (isoweek1monday (y + 1)
                  <=? ymd2ord y 1 1 - 1 + (days_before_month y m + d)))%bool
      eqn:C2.
    + apply andb_true_iff in C2. destruct C2 as [C2 C3].
      apply Z.leb_le in C2, C3.
      inversion Hiso. subst Y W D. clear Hiso.
      replace (y + 1 + 1) with (y + 2) by lia.
      rewrite (E (y + 1)).
      revert M1 B1 M2 B2 M3 B3 Hl1 Hl2 Hdoy' C1 C2 C3.
      generalize (days_before_month y m + d) as n.
      generalize (isoweek1monday y) as w1.
      generalize (isoweek1monday (y + 1)) as w2.
      generalize (isoweek1monday (y + 2)) as w3.
      generalize (ymd2ord y 1 1) as f1.
      generalize (ymd2ord (y + 1) 1 1) as f2.
      generalize (ymd2ord (y + 2) 1 1) as f3.
      intros. Z.div_mod_to_equations. lia.
    + inversion Hiso. subst Y W D. clear Hiso.
      rewrite (E y).
      apply andb_false_iff in C2.
      rewrite !Z.leb_gt in C2.
      revert M1 B1 M2 B2 Hl1 Hdoy' C1 C2.
      generalize (days_before_month y m + d) as n.
      generalize (isoweek1monday y) as w1.
      generalize (isoweek1monday (y + 1)) as w2.
      generalize (ymd2ord y 1 1) as f1.
      generalize (ymd2ord (y + 1) 1 1) as f2.
      intros. Z.div_mod_to_equations. lia.
Qed.

Lemma fmt_02d_two_chars (w : Z) :
  1 <= w <= 53 -> String.length (fmt_02d w) = 2%nat.
Proof.
  intros Hw.
  assert (E : w = Z.of_nat (Z.to_nat w)) by lia.
  assert (Hn : (Z.to_nat w < 54)%nat) by lia.
  rewrite E. generalize dependent (Z.to_nat w). clear. intros n _ Hn.
  do 54 (destruct n as [|n]; [vm_compute; reflexivity|]).
  lia.
Qed.

Lemma resolve_dates_valid (default_year name : string) (df : DataFrame)
  (actual_year : string) (start_dt end_dt : datetime) :
  resolve_dates default_year name df = Ok (actual_year, start_dt, end_dt) ->
  valid_date (year start_dt) (month start_dt) (day start_dt) = true
  /\ valid_date (year end_dt) (month end_dt) (day end_dt) = true.
Proof.
  unfold resolve_dates.
  destruct (parse_dates_from_filename name) as [[[sr er] base]|];
    [|discriminate].
  destruct (is_empty sr); [discriminate|].
  intros H. apply bind_ok_inv in H. destruct H as [y [_ H]].
  apply bind_ok_inv in H. destruct H as [[s e] [Hr H]].
  inversion H. subst y s e. clear H.
  unfold date_range in Hr.
  apply bind_ok_inv in Hr. destruct Hr as [s [Hs Hr]].
  apply bind_ok_inv in Hr. destruct Hr as [e [He Hr]].
  inversion Hr. subst s e. clear Hr.
  split; [exact (parse_date_valid _ _ _ Hs) | exact (parse_date_valid _ _ _ He)].
Qed.

(** X18: the week number in the title and in the output file name is the
    ISO 8601 week of the start date: it is between 1 and 53 and always
    printed with two digits; counted in weeks that begin on a Monday from
    the week that holds January 4th of the ISO year, the start date lies
    in that week.  The ISO year may differ by one from the calendar year
    of the start date, which is the year the file name shows. *)
Theorem file_name_week_is_iso8601 (default_year name : string)
  (df : DataFrame) (actual_year : string) (start_dt end_dt : datetime) :
  resolve_dates default_year name df = Ok (actual_year, start_dt, end_dt) ->
  let W := iso_week_of start_dt in
  let Y := fst (fst (isocalendar start_dt)) in
  let monday := isoweek1monday Y + 7 * (W - 1) in
  1 <= W <= 53
  /\ String.length (fmt_02d W) = 2%nat
  /\ monday <= toordinal start_dt <= monday + 6
  /\ monday mod 7 = 1
  /\ ymd2ord Y 1 4 - 6 <= isoweek1monday Y <= ymd2ord Y 1 4
  /\ isoweek1monday Y <= toordinal start_dt < isoweek1monday (Y + 1)
  /\ year start_dt - 1 <= Y <= year start_dt + 1.
Proof.
  intros H. cbv zeta. unfold iso_week_of.
  destruct (resolve_dates_valid _ _ _ _ _ _ H) as [Hv _].
  destruct (isocalendar start_dt) as [[Y W] D] eqn:E.
  cbn [fst snd].
  destruct (isocalendar_iso8601 start_dt Y W D Hv E)
    as (HW & HD & _ & Hord & Hin & Hmon & Hjan & Hy).
  split; [exact HW|].
  split; [exact (fmt_02d_two_chars W HW)|].
  split; [lia|].
  split; [|split; [exact Hjan|split; [exact Hin|exact Hy]]].
  replace (isoweek1monday Y + 7 * (W - 1))
    with (isoweek1monday Y + (W - 1) * 7) by lia.
  rewrite Z.mod_add by lia. exact Hmon.
Qed.

Lemma file_name_week_is_iso8601_witness :
  resolve_dates "2025" sample_name sample_sheet
  = Ok ("2025", mkdate 2025 3 3, mkdate 2025 3 7)
  /\ 1 <= iso_week_of (mkdate 2025 3 3) <= 53.
Proof.
  assert (H : resolve_dates "2025" sample_name sample_sheet
              = Ok ("2025", mkdate 2025 3 3, mkdate 2025 3 7))
    by (vm_compute; reflexivity).
  split; [exact H|].
  exact (proj1 (file_name_week_is_iso8601 "2025" sample_name sample_sheet
                  "2025" (mkdate 2025 3 3) (mkdate 2025 3 7) H)).
Defined.
